(** * Unified phone controls: call lifecycle and hold-timer engine

    A shallow embedding of the state engine of the [UnifiedPhoneControls]
    Lightning web component: the handlers of the eight toolkit events, the
    two display tickers, the hold accumulator and the public read API.

    Conventions of the embedding.
    - The component instance ([this]) is the record [Widget]; a method is a
      state transformer [Method A] that returns a value and the new [this].
    - An instant is a number of milliseconds since the epoch ([Z]); a [Date]
      object is the instant it holds.  A handler runs to completion on the
      single JavaScript thread, and every [Date.now()] / [new Date()] it
      evaluates yields the same reading [now].
    - [setInterval] and [clearInterval] act on the table [timers] of live
      interval callbacks of the page; identifiers are positive, as the HTML
      timer API gives them, so an identifier is always truthy.
    - [dispatchEvent] of a toast appends to [dispatched].  [console.log]
      output and the drag, theming and button-styling code are left out:
      they read the engine fields and write none of them.
    - [Date.prototype.toISOString] is a parameter of the development.
    - JavaScript numbers are modelled by [Z]: every quantity of the engine is
      an integer far below 2^53. *)

From Stdlib Require Import ZArith List String Ascii Bool Lia DecimalString.
Import ListNotations.

Local Open Scope list_scope.
Local Open Scope string_scope.
Local Open Scope Z_scope.

(** ** Host values *)

(** [Number.prototype.toString] on an integer. *)
Definition toString (n : Z) : string := NilZero.string_of_int (Z.to_int n).

Fixpoint repeatChar (c : ascii) (n : nat) : string :=
  match n with
  | O => EmptyString
  | S n' => String c (repeatChar c n')
  end.

(** [String.prototype.padStart(targetLength, padChar)]. *)
Definition padStart (targetLength : nat) (c : ascii) (s : string) : string :=
  repeatChar c (targetLength - String.length s) ++ s.

(** Truthiness of a string: the empty string is falsy. *)
Definition truthyString (s : string) : bool :=
  match s with EmptyString => false | _ => true end.

(** Truthiness of a field that holds [null] or a number ([0] is falsy). *)
Definition truthyNumber (v : option Z) : bool :=
  match v with Some n => negb (n =? 0) | None => false end.

(** [a || b] on strings. *)
Definition orString (a b : string) : string := if truthyString a then a else b.

(** The outcome of [JSON.stringify(event.detail || {})] for one delivered
    event: the text, or the message of the exception it raises (a cyclic or
    BigInt payload, or an event object that is itself null). *)
Inductive Stringified : Type :=
| JsonOk (text : string)
| JsonThrows (message : string).

(** ** Data model *)

Record HoldSession : Type := mkHoldSession {
  sessionNumber : Z;
  startTime : string;
  endTime : string;
  duration : Z
}.

Record Toast : Type := mkToast {
  title : string;
  message : string;
  variant : string;
  mode : string
}.

Definition TimerId : Type := positive.

(** The three interval callbacks the component registers. *)
Inductive TimerKind : Type :=
| DurationTick   (* () => this.updateCallDuration() *)
| HoldTick       (* () => this.updateHoldDisplayTimer() *)
| ToolkitPoll.   (* () => this.checkAndSetupToolkitListeners() *)

(** The fields of the component, in the order of their declarations, then
    the part of the page the component acts on ([timers], [nextTimerId],
    [dispatched]). *)
Record Widget : Type := mkWidget {
  isCallActive : bool;
  callStatus : string;
  isOnHold : bool;
  isMuted : bool;
  callDuration : Z;
  formattedCallDuration : string;
  callStartTime : option Z;
  callDurationInterval : option TimerId;
  totalHoldTime : Z;
  currentHoldStart : option Z;
  holdSessions : list HoldSession;
  formattedTotalHoldTime : string;
  holdColorClass : string;
  holdTimerInterval : option TimerId;
  phoneNumber : string;
  callDirection : string;
  displayPhoneNumber : string;
  telephonyAvailable : bool;
  toolkitApiAvailable : bool;
  eventListenersSetup : bool;
  toolkitCheckInterval : option TimerId;
  debugMessages : list string;
  callEndDateTime : option Z;
  timers : list (TimerId * TimerKind);
  nextTimerId : TimerId;
  dispatched : list Toast
}.

(** The field initialisers of the class. *)
Definition initial : Widget := {|
  isCallActive := false;
  callStatus := "No Call";
  isOnHold := false;
  isMuted := false;
  callDuration := 0;
  formattedCallDuration := "00:00:00";
  callStartTime := None;
  callDurationInterval := None;
  totalHoldTime := 0;
  currentHoldStart := None;
  holdSessions := [];
  formattedTotalHoldTime := "00:00";
  holdColorClass := "hold-timer-green";
  holdTimerInterval := None;
  phoneNumber := "";
  callDirection := "";
  displayPhoneNumber := "";
  telephonyAvailable := false;
  toolkitApiAvailable := false;
  eventListenersSetup := false;
  toolkitCheckInterval := None;
  debugMessages := [];
  callEndDateTime := None;
  timers := [];
  nextTimerId := 1%positive;
  dispatched := []
|}.

(** Field assignment [this.f = v], one function per field. *)
Definition set_isCallActive (v : bool) (w : Widget) : Widget :=
  let '(mkWidget f1 f2 f3 f4 f5 f6 f7 f8 f9 f10 f11 f12 f13
                 f14 f15 f16 f17 f18 f19 f20 f21 f22 f23 f24 f25 f26) := w in
  mkWidget v f2 f3 f4 f5 f6 f7 f8 f9 f10 f11 f12 f13
           f14 f15 f16 f17 f18 f19 f20 f21 f22 f23 f24 f25 f26.

Definition set_callStatus (v : string) (w : Widget) : Widget :=
  let '(mkWidget f1 f2 f3 f4 f5 f6 f7 f8 f9 f10 f11 f12 f13
                 f14 f15 f16 f17 f18 f19 f20 f21 f22 f23 f24 f25 f26) := w in
  mkWidget f1 v f3 f4 f5 f6 f7 f8 f9 f10 f11 f12 f13
           f14 f15 f16 f17 f18 f19 f20 f21 f22 f23 f24 f25 f26.

Definition set_isOnHold (v : bool) (w : Widget) : Widget :=
  let '(mkWidget f1 f2 f3 f4 f5 f6 f7 f8 f9 f10 f11 f12 f13
                 f14 f15 f16 f17 f18 f19 f20 f21 f22 f23 f24 f25 f26) := w in
  mkWidget f1 f2 v f4 f5 f6 f7 f8 f9 f10 f11 f12 f13
           f14 f15 f16 f17 f18 f19 f20 f21 f22 f23 f24 f25 f26.

Definition set_isMuted (v : bool) (w : Widget) : Widget :=
  let '(mkWidget f1 f2 f3 f4 f5 f6 f7 f8 f9 f10 f11 f12 f13
                 f14 f15 f16 f17 f18 f19 f20 f21 f22 f23 f24 f25 f26) := w in
  mkWidget f1 f2 f3 v f5 f6 f7 f8 f9 f10 f11 f12 f13
           f14 f15 f16 f17 f18 f19 f20 f21 f22 f23 f24 f25 f26.

Definition set_callDuration (v : Z) (w : Widget) : Widget :=
  let '(mkWidget f1 f2 f3 f4 f5 f6 f7 f8 f9 f10 f11 f12 f13
                 f14 f15 f16 f17 f18 f19 f20 f21 f22 f23 f24 f25 f26) := w in
  mkWidget f1 f2 f3 f4 v f6 f7 f8 f9 f10 f11 f12 f13
           f14 f15 f16 f17 f18 f19 f20 f21 f22 f23 f24 f25 f26.

Definition set_formattedCallDuration (v : string) (w : Widget) : Widget :=
  let '(mkWidget f1 f2 f3 f4 f5 f6 f7 f8 f9 f10 f11 f12 f13
                 f14 f15 f16 f17 f18 f19 f20 f21 f22 f23 f24 f25 f26) := w in
  mkWidget f1 f2 f3 f4 f5 v f7 f8 f9 f10 f11 f12 f13
           f14 f15 f16 f17 f18 f19 f20 f21 f22 f23 f24 f25 f26.

Definition set_callStartTime (v : option Z) (w : Widget) : Widget :=
  let '(mkWidget f1 f2 f3 f4 f5 f6 f7 f8 f9 f10 f11 f12 f13
                 f14 f15 f16 f17 f18 f19 f20 f21 f22 f23 f24 f25 f26) := w in
  mkWidget f1 f2 f3 f4 f5 f6 v f8 f9 f10 f11 f12 f13
           f14 f15 f16 f17 f18 f19 f20 f21 f22 f23 f24 f25 f26.

Definition set_callDurationInterval (v : option TimerId) (w : Widget) : Widget :=
  let '(mkWidget f1 f2 f3 f4 f5 f6 f7 f8 f9 f10 f11 f12 f13
                 f14 f15 f16 f17 f18 f19 f20 f21 f22 f23 f24 f25 f26) := w in
  mkWidget f1 f2 f3 f4 f5 f6 f7 v f9 f10 f11 f12 f13
           f14 f15 f16 f17 f18 f19 f20 f21 f22 f23 f24 f25 f26.

Definition set_totalHoldTime (v : Z) (w : Widget) : Widget :=
  let '(mkWidget f1 f2 f3 f4 f5 f6 f7 f8 f9 f10 f11 f12 f13
                 f14 f15 f16 f17 f18 f19 f20 f21 f22 f23 f24 f25 f26) := w in
  mkWidget f1 f2 f3 f4 f5 f6 f7 f8 v f10 f11 f12 f13
           f14 f15 f16 f17 f18 f19 f20 f21 f22 f23 f24 f25 f26.

Definition set_currentHoldStart (v : option Z) (w : Widget) : Widget :=
  let '(mkWidget f1 f2 f3 f4 f5 f6 f7 f8 f9 f10 f11 f12 f13
                 f14 f15 f16 f17 f18 f19 f20 f21 f22 f23 f24 f25 f26) := w in
  mkWidget f1 f2 f3 f4 f5 f6 f7 f8 f9 v f11 f12 f13
           f14 f15 f16 f17 f18 f19 f20 f21 f22 f23 f24 f25 f26.

Definition set_holdSessions (v : list HoldSession) (w : Widget) : Widget :=
  let '(mkWidget f1 f2 f3 f4 f5 f6 f7 f8 f9 f10 f11 f12 f13
                 f14 f15 f16 f17 f18 f19 f20 f21 f22 f23 f24 f25 f26) := w in
  mkWidget f1 f2 f3 f4 f5 f6 f7 f8 f9 f10 v f12 f13
           f14 f15 f16 f17 f18 f19 f20 f21 f22 f23 f24 f25 f26.

Definition set_formattedTotalHoldTime (v : string) (w : Widget) : Widget :=
  let '(mkWidget f1 f2 f3 f4 f5 f6 f7 f8 f9 f10 f11 f12 f13
                 f14 f15 f16 f17 f18 f19 f20 f21 f22 f23 f24 f25 f26) := w in
  mkWidget f1 f2 f3 f4 f5 f6 f7 f8 f9 f10 f11 v f13
           f14 f15 f16 f17 f18 f19 f20 f21 f22 f23 f24 f25 f26.

Definition set_holdColorClass (v : string) (w : Widget) : Widget :=
  let '(mkWidget f1 f2 f3 f4 f5 f6 f7 f8 f9 f10 f11 f12 f13
                 f14 f15 f16 f17 f18 f19 f20 f21 f22 f23 f24 f25 f26) := w in
  mkWidget f1 f2 f3 f4 f5 f6 f7 f8 f9 f10 f11 f12 v
           f14 f15 f16 f17 f18 f19 f20 f21 f22 f23 f24 f25 f26.

Definition set_holdTimerInterval (v : option TimerId) (w : Widget) : Widget :=
  let '(mkWidget f1 f2 f3 f4 f5 f6 f7 f8 f9 f10 f11 f12 f13
                 f14 f15 f16 f17 f18 f19 f20 f21 f22 f23 f24 f25 f26) := w in
  mkWidget f1 f2 f3 f4 f5 f6 f7 f8 f9 f10 f11 f12 f13
           v f15 f16 f17 f18 f19 f20 f21 f22 f23 f24 f25 f26.

Definition set_phoneNumber (v : string) (w : Widget) : Widget :=
  let '(mkWidget f1 f2 f3 f4 f5 f6 f7 f8 f9 f10 f11 f12 f13
                 f14 f15 f16 f17 f18 f19 f20 f21 f22 f23 f24 f25 f26) := w in
  mkWidget f1 f2 f3 f4 f5 f6 f7 f8 f9 f10 f11 f12 f13
           f14 v f16 f17 f18 f19 f20 f21 f22 f23 f24 f25 f26.

Definition set_callDirection (v : string) (w : Widget) : Widget :=
  let '(mkWidget f1 f2 f3 f4 f5 f6 f7 f8 f9 f10 f11 f12 f13
                 f14 f15 f16 f17 f18 f19 f20 f21 f22 f23 f24 f25 f26) := w in
  mkWidget f1 f2 f3 f4 f5 f6 f7 f8 f9 f10 f11 f12 f13
           f14 f15 v f17 f18 f19 f20 f21 f22 f23 f24 f25 f26.

Definition set_displayPhoneNumber (v : string) (w : Widget) : Widget :=
  let '(mkWidget f1 f2 f3 f4 f5 f6 f7 f8 f9 f10 f11 f12 f13
                 f14 f15 f16 f17 f18 f19 f20 f21 f22 f23 f24 f25 f26) := w in
  mkWidget f1 f2 f3 f4 f5 f6 f7 f8 f9 f10 f11 f12 f13
           f14 f15 f16 v f18 f19 f20 f21 f22 f23 f24 f25 f26.

Definition set_telephonyAvailable (v : bool) (w : Widget) : Widget :=
  let '(mkWidget f1 f2 f3 f4 f5 f6 f7 f8 f9 f10 f11 f12 f13
                 f14 f15 f16 f17 f18 f19 f20 f21 f22 f23 f24 f25 f26) := w in
  mkWidget f1 f2 f3 f4 f5 f6 f7 f8 f9 f10 f11 f12 f13
           f14 f15 f16 f17 v f19 f20 f21 f22 f23 f24 f25 f26.

Definition set_toolkitApiAvailable (v : bool) (w : Widget) : Widget :=
  let '(mkWidget f1 f2 f3 f4 f5 f6 f7 f8 f9 f10 f11 f12 f13
                 f14 f15 f16 f17 f18 f19 f20 f21 f22 f23 f24 f25 f26) := w in
  mkWidget f1 f2 f3 f4 f5 f6 f7 f8 f9 f10 f11 f12 f13
           f14 f15 f16 f17 f18 v f20 f21 f22 f23 f24 f25 f26.

Definition set_eventListenersSetup (v : bool) (w : Widget) : Widget :=
  let '(mkWidget f1 f2 f3 f4 f5 f6 f7 f8 f9 f10 f11 f12 f13
                 f14 f15 f16 f17 f18 f19 f20 f21 f22 f23 f24 f25 f26) := w in
  mkWidget f1 f2 f3 f4 f5 f6 f7 f8 f9 f10 f11 f12 f13
           f14 f15 f16 f17 f18 f19 v f21 f22 f23 f24 f25 f26.

Definition set_toolkitCheckInterval (v : option TimerId) (w : Widget) : Widget :=
  let '(mkWidget f1 f2 f3 f4 f5 f6 f7 f8 f9 f10 f11 f12 f13
                 f14 f15 f16 f17 f18 f19 f20 f21 f22 f23 f24 f25 f26) := w in
  mkWidget f1 f2 f3 f4 f5 f6 f7 f8 f9 f10 f11 f12 f13
           f14 f15 f16 f17 f18 f19 f20 v f22 f23 f24 f25 f26.

Definition set_debugMessages (v : list string) (w : Widget) : Widget :=
  let '(mkWidget f1 f2 f3 f4 f5 f6 f7 f8 f9 f10 f11 f12 f13
                 f14 f15 f16 f17 f18 f19 f20 f21 f22 f23 f24 f25 f26) := w in
  mkWidget f1 f2 f3 f4 f5 f6 f7 f8 f9 f10 f11 f12 f13
           f14 f15 f16 f17 f18 f19 f20 f21 v f23 f24 f25 f26.

Definition set_callEndDateTime (v : option Z) (w : Widget) : Widget :=
  let '(mkWidget f1 f2 f3 f4 f5 f6 f7 f8 f9 f10 f11 f12 f13
                 f14 f15 f16 f17 f18 f19 f20 f21 f22 f23 f24 f25 f26) := w in
  mkWidget f1 f2 f3 f4 f5 f6 f7 f8 f9 f10 f11 f12 f13
           f14 f15 f16 f17 f18 f19 f20 f21 f22 v f24 f25 f26.

Definition set_timers (v : list (TimerId * TimerKind)) (w : Widget) : Widget :=
  let '(mkWidget f1 f2 f3 f4 f5 f6 f7 f8 f9 f10 f11 f12 f13
                 f14 f15 f16 f17 f18 f19 f20 f21 f22 f23 f24 f25 f26) := w in
  mkWidget f1 f2 f3 f4 f5 f6 f7 f8 f9 f10 f11 f12 f13
           f14 f15 f16 f17 f18 f19 f20 f21 f22 f23 v f25 f26.

Definition set_nextTimerId (v : TimerId) (w : Widget) : Widget :=
  let '(mkWidget f1 f2 f3 f4 f5 f6 f7 f8 f9 f10 f11 f12 f13
                 f14 f15 f16 f17 f18 f19 f20 f21 f22 f23 f24 f25 f26) := w in
  mkWidget f1 f2 f3 f4 f5 f6 f7 f8 f9 f10 f11 f12 f13
           f14 f15 f16 f17 f18 f19 f20 f21 f22 f23 f24 v f26.

Definition set_dispatched (v : list Toast) (w : Widget) : Widget :=
  let '(mkWidget f1 f2 f3 f4 f5 f6 f7 f8 f9 f10 f11 f12 f13
                 f14 f15 f16 f17 f18 f19 f20 f21 f22 f23 f24 f25 f26) := w in
  mkWidget f1 f2 f3 f4 f5 f6 f7 f8 f9 f10 f11 f12 f13
           f14 f15 f16 f17 f18 f19 f20 f21 f22 f23 f24 f25 v.
(** ** Methods as state transformers *)

Definition Method (A : Type) : Type := Widget -> A * Widget.

Definition ret {A : Type} (a : A) : Method A := fun this => (a, this).

Definition bind {A B : Type} (m : Method A) (k : A -> Method B) : Method B :=
  fun this => let '(a, this') := m this in k a this'.

(** Read a field of [this]. *)
Definition get {A : Type} (field : Widget -> A) : Method A :=
  fun this => (field this, this).

(** Assign a field of [this]. *)
Definition put (assign : Widget -> Widget) : Method unit :=
  fun this => (tt, assign this).

Definition exec {A : Type} (m : Method A) (this : Widget) : Widget := snd (m this).
Definition eval {A : Type} (m : Method A) (this : Widget) : A := fst (m this).

Declare Scope method_scope.
Delimit Scope method_scope with method.
Notation "x <- m ;; k" := (bind m (fun x => k))
  (at level 61, m at next level, right associativity) : method_scope.
Notation "m ;; k" := (bind m (fun _ => k))
  (at level 61, right associativity) : method_scope.
Local Open Scope method_scope.

(** [setInterval(callback, ms)]: registers the callback under a fresh
    identifier and returns it. *)
Definition setInterval (callback : TimerKind) : Method TimerId :=
  id <- get nextTimerId ;;
  live <- get timers ;;
  put (set_timers (live ++ [(id, callback)])%list) ;;
  put (set_nextTimerId (Pos.succ id)) ;;
  ret id.

(** [clearInterval(id)]. *)
Definition clearInterval (id : TimerId) : Method unit :=
  live <- get timers ;;
  put (set_timers (filter (fun t => negb (Pos.eqb (fst t) id)) live)).

(** [formatTime(seconds, includeHours = false)]. *)
Definition formatTime (seconds : Z) (includeHours : bool) : string :=
  if (seconds =? 0) || (seconds <? 0)
  then (if includeHours then "00:00:00" else "00:00")
  else
    let hrs := seconds / 3600 in
    let mins := (seconds mod 3600) / 60 in
    let secs := seconds mod 60 in
    if includeHours
    then padStart 2 "0" (toString hrs) ++ ":" ++ padStart 2 "0" (toString mins)
         ++ ":" ++ padStart 2 "0" (toString secs)
    else padStart 2 "0" (toString mins) ++ ":" ++ padStart 2 "0" (toString secs).

(** [getHoldColorClass(duration)]. *)
Definition getHoldColorClass (duration : Z) : string :=
  if duration <=? 30 then "hold-timer-green"
  else if duration <=? 120 then "hold-timer-yellow"
  else "hold-timer-red".

Definition isDigit (c : ascii) : bool :=
  let n := nat_of_ascii c in (48 <=? n)%nat && (n <=? 57)%nat.

Fixpoint filterString (keep : ascii -> bool) (s : string) : string :=
  match s with
  | EmptyString => EmptyString
  | String c rest =>
      if keep c then String c (filterString keep rest) else filterString keep rest
  end.

(** [s.substring(from)]. *)
Definition substringFrom (from : nat) (s : string) : string :=
  substring from (String.length s - from) s.

(** [formatPhoneNumber(phoneNumber)]. *)
Definition formatPhoneNumber (phoneNumber : string) : string :=
  if negb (truthyString phoneNumber) then ""
  else
    let cleaned := filterString isDigit phoneNumber in
    if (String.length cleaned =? 11)%nat && prefix "1" cleaned
    then "+1 (" ++ substring 1 3 cleaned ++ ") " ++ substring 4 3 cleaned
         ++ "-" ++ substringFrom 7 cleaned
    else if (String.length cleaned =? 10)%nat
    then "+1 (" ++ substring 0 3 cleaned ++ ") " ++ substring 3 3 cleaned
         ++ "-" ++ substringFrom 6 cleaned
    else phoneNumber.

(** [showToast(title, message, variant = 'info')]. *)
Definition showToast (title message variant : string) : Method unit :=
  sent <- get dispatched ;;
  put (set_dispatched (sent ++ [mkToast title message variant "dismissable"])%list).

(** * The chat widget

    The [ChatWidget] class of the same source file: a message list over an
    embedded messaging component.  A handler is a function from the
    component to an [Outcome]: it returns, or it throws (the handlers have
    no [try]); an outcome carries the component as the handler leaves it.
    The calls made on the embedded messaging element are recorded in
    [calls], the dispatched toasts in [toasts].  [String.prototype.trim]
    and [Date.prototype.toLocaleTimeString] are parameters.  The public
    properties [chatTitle] and [orgName] are not read by any method and
    are left out, as is the scrolling of the message container. *)

Module ChatWidget.

Record Message : Type := mkMessage {
  id : string;
  text : option string;           (* [undefined] when the detail has none *)
  timestamp : Z;
  formattedTime : string;
  messageClass : string;
  isText : bool;
  isFile : bool
}.

Record Toast : Type := mkToast {
  title : string;
  message : string;
  variant : string
}.

(** The methods the widget calls on the embedded messaging element. *)
Inductive MessagingCall : Type :=
| initialize
| sendMessage (text : string)
| endSession
| cleanupCall.

(** The [timestamp] of a received detail: absent or falsy, a [Date], or
    any other truthy value (a string, a number), which has no
    [toLocaleTimeString]. *)
Inductive DetailTimestamp : Type :=
| TimestampMissing
| TimestampDate (t : Z)
| TimestampOther.

(** The detail of a message-received event; an absent field is [None]. *)
Record MessageData : Type := mkMessageData {
  data_id : option string;
  data_text : option string;
  data_message : option string;
  data_sender : option string;
  data_timestamp : DetailTimestamp;
  data_type : option string
}.

Record Component : Type := mkComponent {
  initialMinimized : bool;
  position : string;
  messages : list Message;
  messageText : string;
  isConnected : bool;
  isMinimized : bool;
  showTypingIndicator : bool;
  showWelcomeMessage : bool;
  connectionStatus : string;
  hasUnreadMessages : bool;
  unreadCount : Z;
  embeddedMessaging : bool;
  calls : list MessagingCall;
  toasts : list Toast
}.

(** Field assignment [this.f = v], one function per field. *)
Definition set_messages (v : list Message) (c : Component) : Component :=
  let '(mkComponent f1 f2 f3 f4 f5 f6 f7 f8 f9 f10 f11 f12 f13 f14) := c in
  mkComponent f1 f2 v f4 f5 f6 f7 f8 f9 f10 f11 f12 f13 f14.

Definition set_messageText (v : string) (c : Component) : Component :=
  let '(mkComponent f1 f2 f3 f4 f5 f6 f7 f8 f9 f10 f11 f12 f13 f14) := c in
  mkComponent f1 f2 f3 v f5 f6 f7 f8 f9 f10 f11 f12 f13 f14.

Definition set_isConnected (v : bool) (c : Component) : Component :=
  let '(mkComponent f1 f2 f3 f4 f5 f6 f7 f8 f9 f10 f11 f12 f13 f14) := c in
  mkComponent f1 f2 f3 f4 v f6 f7 f8 f9 f10 f11 f12 f13 f14.

Definition set_isMinimized (v : bool) (c : Component) : Component :=
  let '(mkComponent f1 f2 f3 f4 f5 f6 f7 f8 f9 f10 f11 f12 f13 f14) := c in
  mkComponent f1 f2 f3 f4 f5 v f7 f8 f9 f10 f11 f12 f13 f14.

Definition set_showTypingIndicator (v : bool) (c : Component) : Component :=
  let '(mkComponent f1 f2 f3 f4 f5 f6 f7 f8 f9 f10 f11 f12 f13 f14) := c in
  mkComponent f1 f2 f3 f4 f5 f6 v f8 f9 f10 f11 f12 f13 f14.

Definition set_showWelcomeMessage (v : bool) (c : Component) : Component :=
  let '(mkComponent f1 f2 f3 f4 f5 f6 f7 f8 f9 f10 f11 f12 f13 f14) := c in
  mkComponent f1 f2 f3 f4 f5 f6 f7 v f9 f10 f11 f12 f13 f14.

Definition set_connectionStatus (v : string) (c : Component) : Component :=
  let '(mkComponent f1 f2 f3 f4 f5 f6 f7 f8 f9 f10 f11 f12 f13 f14) := c in
  mkComponent f1 f2 f3 f4 f5 f6 f7 f8 v f10 f11 f12 f13 f14.

Definition set_hasUnreadMessages (v : bool) (c : Component) : Component :=
  let '(mkComponent f1 f2 f3 f4 f5 f6 f7 f8 f9 f10 f11 f12 f13 f14) := c in
  mkComponent f1 f2 f3 f4 f5 f6 f7 f8 f9 v f11 f12 f13 f14.

Definition set_unreadCount (v : Z) (c : Component) : Component :=
  let '(mkComponent f1 f2 f3 f4 f5 f6 f7 f8 f9 f10 f11 f12 f13 f14) := c in
  mkComponent f1 f2 f3 f4 f5 f6 f7 f8 f9 f10 v f12 f13 f14.

Definition set_embeddedMessaging (v : bool) (c : Component) : Component :=
  let '(mkComponent f1 f2 f3 f4 f5 f6 f7 f8 f9 f10 f11 f12 f13 f14) := c in
  mkComponent f1 f2 f3 f4 f5 f6 f7 f8 f9 f10 f11 v f13 f14.

Definition set_calls (v : list MessagingCall) (c : Component) : Component :=
  let '(mkComponent f1 f2 f3 f4 f5 f6 f7 f8 f9 f10 f11 f12 f13 f14) := c in
  mkComponent f1 f2 f3 f4 f5 f6 f7 f8 f9 f10 f11 f12 v f14.

Definition set_toasts (v : list Toast) (c : Component) : Component :=
  let '(mkComponent f1 f2 f3 f4 f5 f6 f7 f8 f9 f10 f11 f12 f13 f14) := c in
  mkComponent f1 f2 f3 f4 f5 f6 f7 f8 f9 f10 f11 f12 f13 v.
Definition initialComponent (initialMinimized : bool) (position : string) : Component := {|
  initialMinimized := initialMinimized;
  position := position;
  messages := [];
  messageText := "";
  isConnected := false;
  isMinimized := false;
  showTypingIndicator := false;
  showWelcomeMessage := true;
  connectionStatus := "disconnected";
  hasUnreadMessages := false;
  unreadCount := 0;
  embeddedMessaging := false;
  calls := [];
  toasts := []
|}.

(** How a handler ends. *)
Inductive Outcome : Type :=
| Returns (c : Component)
| Throws (c : Component).

Definition after (o : Outcome) : Component :=
  match o with Returns c => c | Throws c => c end.

(** Truthiness of a string field that may be absent. *)
Definition truthy (v : option string) : bool :=
  match v with Some s => truthyString s | None => false end.

(** [a || b] on two fields that may be absent. *)
Definition orField (a b : option string) : option string :=
  if truthy a then a else b.

(** [a || 'literal']. *)
Definition orLiteral (a : option string) (literal : string) : string :=
  match a with
  | Some s => if truthyString s then s else literal
  | None => literal
  end.

(** [s.replace(from, to)] for one-character strings: the first occurrence
    only. *)
Fixpoint replaceFirst (from to : ascii) (s : string) : string :=
  match s with
  | EmptyString => EmptyString
  | String c rest =>
      if Ascii.eqb c from then String to rest
      else String c (replaceFirst from to rest)
  end.

(** What the message handlers build a message from. *)
Record MessageInput : Type := mkMessageInput {
  in_id : string;
  in_text : option string;
  in_sender : string;
  in_timestamp : DetailTimestamp;
  in_type : string
}.

Section Methods.

(** [String.prototype.trim] and [Date.prototype.toLocaleTimeString] (with
    the options of [formatTime]). *)
Variable trim : string -> string.
Variable toLocaleTimeString : Z -> string.

(** [showToast(title, message, variant)]. *)
Definition showToast (title message variant : string) (c : Component) : Component :=
  set_toasts (toasts c ++ [mkToast title message variant])%list c.

(** [addMessage(messageData)]; [formatTime] throws on a timestamp that is
    not a [Date], before the message is pushed. *)
Definition addMessage (input : MessageInput) (c : Component) : Outcome :=
  match in_timestamp input with
  | TimestampDate t =>
      Returns
        (set_messages
           (messages c
            ++ [{| id := in_id input;
                   text := in_text input;
                   timestamp := t;
                   formattedTime := toLocaleTimeString t;
                   messageClass := "message " ++ in_sender input;
                   isText := String.eqb (in_type input) "text";
                   isFile := String.eqb (in_type input) "file" |}])%list
           c)
  | _ => Throws c
  end.

(** [addSystemMessage(text)]. *)
Definition addSystemMessage (now : Z) (text : string) (c : Component) : Component :=
  after (addMessage
           {| in_id := "system_" ++ toString now;
              in_text := Some text;
              in_sender := "system";
              in_timestamp := TimestampDate now;
              in_type := "text" |} c).

(** [initializeChat()]; [found] tells whether the query for
    [#embeddedMessaging] finds the element. *)
Definition initializeChat (found : bool) (c : Component) : Component :=
  let c := set_embeddedMessaging found c in
  if embeddedMessaging c
  then set_calls (calls c ++ [initialize])%list c
  else c.

Definition cleanup (c : Component) : Component :=
  if embeddedMessaging c
  then set_calls (calls c ++ [cleanupCall])%list c
  else c.

Definition connectedCallback (found : bool) (c : Component) : Component :=
  initializeChat found (set_isMinimized (initialMinimized c) c).

Definition disconnectedCallback (c : Component) : Component := cleanup c.

Definition handleSessionStarted (now : Z) (c : Component) : Component :=
  let c := set_isConnected true c in
  let c := set_connectionStatus "connected" c in
  let c := set_showWelcomeMessage false c in
  let c := addSystemMessage now
             "Chat session started. An agent will be with you shortly." c in
  showToast "Success" "Chat session started" "success" c.

Definition handleSessionEnded (now : Z) (c : Component) : Component :=
  let c := set_isConnected false c in
  let c := set_connectionStatus "disconnected" c in
  let c := set_showTypingIndicator false c in
  let c := addSystemMessage now
             "Chat session has ended. Thank you for contacting us!" c in
  showToast "Info" "Chat session ended" "info" c.

(** [handleMessageReceived(event)]; [detail] is [event.detail], [None]
    when the event has none (reading a field of it throws). *)
Definition handleMessageReceived (now : Z) (detail : option MessageData)
    (c : Component) : Outcome :=
  match detail with
  | None => Throws c
  | Some messageData =>
      match
        addMessage
          {| in_id := orLiteral (data_id messageData) ("msg_" ++ toString now);
             in_text := orField (data_text messageData) (data_message messageData);
             in_sender := orLiteral (data_sender messageData) "agent";
             in_timestamp := match data_timestamp messageData with
                             | TimestampMissing => TimestampDate now
                             | stamp => stamp
                             end;
             in_type := orLiteral (data_type messageData) "text" |} c
      with
      | Throws c' => Throws c'
      | Returns c' =>
          if isMinimized c'
             && match data_sender messageData with
                | Some sender => String.eqb sender "agent"
                | None => false
                end
          then
            let c' := set_hasUnreadMessages true c' in
            Returns (set_unreadCount (unreadCount c' + 1) c')
          else Returns c'
      end
  end.

(** [handleAgentJoined(event)]; [detail] is [event.detail], [None] when
    absent, and holds the [name] field, itself possibly absent. *)
Definition handleAgentJoined (now : Z) (detail : option (option string))
    (c : Component) : Outcome :=
  match detail with
  | None => Throws c
  | Some name =>
      Returns (addSystemMessage now
                 ("Agent " ++ orLiteral name "Support" ++ " has joined the conversation")
                 c)
  end.

Definition handleAgentLeft (now : Z) (c : Component) : Component :=
  addSystemMessage now "Agent has left the conversation" c.

Definition handleTypingStarted (c : Component) : Component :=
  set_showTypingIndicator true c.

Definition handleTypingStopped (c : Component) : Component :=
  set_showTypingIndicator false c.

(** [get isSendDisabled()]. *)
Definition isSendDisabled (c : Component) : bool :=
  negb (truthyString (trim (messageText c))) || negb (isConnected c).

Definition handleSendMessage (now : Z) (c : Component) : Component :=
  if negb (truthyString (trim (messageText c))) || negb (isConnected c)
  then c
  else
    let text := trim (messageText c) in
    let c := after (addMessage
                      {| in_id := "user_" ++ toString now;
                         in_text := Some text;
                         in_sender := "user";
                         in_timestamp := TimestampDate now;
                         in_type := "text" |} c) in
    let c := if embeddedMessaging c
             then set_calls (calls c ++ [sendMessage text])%list c
             else c in
    let c := set_messageText "" c in
    set_showWelcomeMessage false c.

Definition toggleChat (c : Component) : Component :=
  let c := set_isMinimized (negb (isMinimized c)) c in
  if negb (isMinimized c)
  then set_unreadCount 0 (set_hasUnreadMessages false c)
  else c.

Definition minimizeChat (c : Component) : Component := set_isMinimized true c.

Definition closeChat (c : Component) : Component :=
  let c := if embeddedMessaging c
           then set_calls (calls c ++ [endSession])%list c
           else c in
  let c := set_isMinimized true c in
  set_isConnected false c.

(** [handleInputChange(event)], with [event.target.value]. *)
Definition handleInputChange (value : string) (c : Component) : Component :=
  set_messageText value c.

(** [handleKeyDown(event)], with [event.key] and [event.shiftKey]. *)
Definition handleKeyDown (now : Z) (key : string) (shiftKey : bool)
    (c : Component) : Component :=
  if String.eqb key "Enter" && negb shiftKey
  then handleSendMessage now c
  else c.

(** [get positionClass()]. *)
Definition positionClass (c : Component) : string :=
  "position-" ++ replaceFirst "-" "-" (position c).

(** Everything that can invoke the widget. *)
Inductive Event : Type :=
| Connected (found : bool)
| Disconnected
| SessionStarted
| SessionEnded
| MessageReceived (detail : option MessageData)
| AgentJoined (detail : option (option string))
| AgentLeft
| TypingStarted
| TypingStopped
| SendClicked
| Toggled
| Minimized
| Closed
| InputChanged (value : string)
| KeyDown (key : string) (shiftKey : bool).

(** One invocation at clock reading [now]; an exception leaves the
    component as the handler left it. *)
Definition handle (now : Z) (e : Event) (c : Component) : Component :=
  match e with
  | Connected found => connectedCallback found c
  | Disconnected => disconnectedCallback c
  | SessionStarted => handleSessionStarted now c
  | SessionEnded => handleSessionEnded now c
  | MessageReceived detail => after (handleMessageReceived now detail c)
  | AgentJoined detail => after (handleAgentJoined now detail c)
  | AgentLeft => handleAgentLeft now c
  | TypingStarted => handleTypingStarted c
  | TypingStopped => handleTypingStopped c
  | SendClicked => handleSendMessage now c
  | Toggled => toggleChat c
  | Minimized => minimizeChat c
  | Closed => closeChat c
  | InputChanged value => handleInputChange value c
  | KeyDown key shiftKey => handleKeyDown now key shiftKey c
  end.

Definition run (events : list (Z * Event)) (c : Component) : Component :=
  fold_left (fun c e => handle (fst e) (snd e) c) events c.

(** The unread flag is up exactly when the unread count is positive. *)
Definition unreadAgrees (c : Component) : Prop :=
  0 <= unreadCount c /\ hasUnreadMessages c = (0 <? unreadCount c).

End Methods.

(** A sample [trim]: leading and trailing spaces. *)
Fixpoint dropSpaces (s : string) : string :=
  match s with
  | String " " rest => dropSpaces rest
  | _ => s
  end.

Fixpoint reverse (s : string) : string :=
  match s with
  | EmptyString => EmptyString
  | String c rest => reverse rest ++ String c EmptyString
  end.

Definition trimSpaces (s : string) : string :=
  reverse (dropSpaces (reverse (dropSpaces s))).

End ChatWidget.

(** JavaScript's numeric reading of a field that holds [null] or a number
    ([null] reads as [0] in arithmetic and in [new Date(null)]). *)
Definition numberOf (v : option Z) : Z :=
  match v with Some n => n | None => 0 end.

Definition valueOf (v : option string) : string :=
  match v with Some s => s | None => "" end.

(** The fields of the VoiceCall record the wire adapter delivers
    ([record.F?.value]); absent or null values are [None].  The two
    timestamps are the instants their values denote. *)
Record VoiceCallRecord : Type := mkVoiceCallRecord {
  FromPhoneNumber : option string;
  ToPhoneNumber : option string;
  CallType : option string;
  CallStartDateTime : option Z;
  CallEndDateTime : option Z
}.

(** What the wire adapter passes to [voiceCallRecord({ error, data })]. *)
Inductive WireResult : Type :=
| WireData (data : VoiceCallRecord)
| WireError (message : string)
| WirePending.

(** What [toolkitApi.endCall()] does when the end-call button calls it. *)
Inductive EndCallResult : Type :=
| EndCallPromise                 (* returns a thenable *)
| EndCallPlain                   (* returns anything else *)
| EndCallThrows (message : string).

(** The names the component registers listeners for. *)
Inductive ToolkitEvent : Type :=
| hold | resume | mute | unmute
| callstarted | callconnected | callended | hangup.

(** Everything that can invoke the component. *)
Inductive Event : Type :=
| Toolkit (name : ToolkitEvent) (detail : Stringified)
| TimerFired (id : TimerId)
| Wire (result : WireResult)
| ConnectedCallback
| DisconnectedCallback
| EndCallClick (result : EndCallResult)
| EndCallRejected (message : string)
| ResetTimer.

(** One invocation: the event, the clock reading during it, and whether
    [this.template.querySelector('lightning-service-cloud-voice-toolkit-api')]
    finds the toolkit element at that moment. *)
Record Occurrence : Type := mkOccurrence {
  occ_now : Z;
  occ_toolkitApi : bool;
  occ_event : Event
}.

Section Engine.

(** [Date.prototype.toISOString], applied to the instant of a [Date]. *)
Variable toISOString : Z -> string.

(** [addDebugMessage(message)]. *)
Definition addDebugMessage (now : Z) (message : string) : Method unit :=
  let timestamp := toISOString now in
  let debugEntry := "[" ++ timestamp ++ "] " ++ message in
  entries <- get debugMessages ;;
  put (set_debugMessages (debugEntry :: entries)) ;;
  entries <- get debugMessages ;;
  if (50 <? List.length entries)%nat
  then put (set_debugMessages (firstn 50 entries))
  else ret tt.

(** *** Call duration timer *)

Definition startCallDurationTimer (now : Z) : Method unit :=
  running <- get callDurationInterval ;;
  match running with
  | Some id => clearInterval id
  | None => ret tt
  end ;;
  id <- setInterval DurationTick ;;
  put (set_callDurationInterval (Some id)) ;;
  addDebugMessage now "Call duration timer started".

Definition updateCallDuration (now : Z) : Method unit :=
  start <- get callStartTime ;;
  active <- get isCallActive ;;
  match start with
  | Some callStart =>
      if negb active
      then put (set_formattedCallDuration "00:00:00")
      else
        put (set_callDuration ((now - callStart) / 1000)) ;;
        elapsed <- get callDuration ;;
        put (set_formattedCallDuration (formatTime elapsed true))
  | None => put (set_formattedCallDuration "00:00:00")
  end.

(** *** Hold timer *)

Definition startHoldTimer (now : Z) : Method unit :=
  onHold <- get isOnHold ;;
  if onHold
  then addDebugMessage now "Already on hold, ignoring duplicate hold event"
  else
    put (set_currentHoldStart (Some now)) ;;
    put (set_isOnHold true) ;;
    addDebugMessage now ("Hold started at: " ++ toISOString now) ;;
    running <- get holdTimerInterval ;;
    match running with
    | Some id => clearInterval id
    | None => ret tt
    end ;;
    id <- setInterval HoldTick ;;
    put (set_holdTimerInterval (Some id)) ;;
    showToast "Call on Hold" "The call has been placed on hold" "info".

Definition endHoldTimer (now : Z) : Method unit :=
  onHold <- get isOnHold ;;
  start <- get currentHoldStart ;;
  if negb onHold || negb (truthyNumber start)
  then addDebugMessage now "Not currently on hold, ignoring resume event"
  else
    let holdEndTime := now in
    let holdDuration := (holdEndTime - numberOf start) / 1000 in
    total <- get totalHoldTime ;;
    put (set_totalHoldTime (total + holdDuration)) ;;
    sessions <- get holdSessions ;;
    let sessionNumber := Z.of_nat (List.length sessions) + 1 in
    put (set_holdSessions
           (sessions ++ [{| sessionNumber := sessionNumber;
                            startTime := toISOString (numberOf start);
                            endTime := toISOString holdEndTime;
                            duration := holdDuration |}])%list) ;;
    put (set_isOnHold false) ;;
    put (set_currentHoldStart None) ;;
    running <- get holdTimerInterval ;;
    match running with
    | Some id => clearInterval id ;; put (set_holdTimerInterval None)
    | None => ret tt
    end ;;
    total <- get totalHoldTime ;;
    put (set_formattedTotalHoldTime (formatTime total false)) ;;
    put (set_holdColorClass (getHoldColorClass total)) ;;
    addDebugMessage now
      ("Hold ended. Session: " ++ toString holdDuration ++ "s, Total: "
       ++ toString total ++ "s") ;;
    showToast "Call Resumed" ("Hold session: " ++ formatTime holdDuration false)
      "success".

Definition updateHoldDisplayTimer (now : Z) : Method unit :=
  onHold <- get isOnHold ;;
  start <- get currentHoldStart ;;
  if negb onHold || negb (truthyNumber start)
  then ret tt
  else
    let currentHoldDuration := (now - numberOf start) / 1000 in
    total <- get totalHoldTime ;;
    let displayTime := total + currentHoldDuration in
    put (set_formattedTotalHoldTime (formatTime displayTime false)) ;;
    put (set_holdColorClass (getHoldColorClass displayTime)).

(** *** Toolkit discovery *)

Definition startToolkitPolling (now : Z) : Method unit :=
  addDebugMessage now "Starting toolkit API polling..." ;;
  id <- setInterval ToolkitPoll ;;
  put (set_toolkitCheckInterval (Some id)).

Definition stopToolkitPolling : Method unit :=
  running <- get toolkitCheckInterval ;;
  match running with
  | Some id => clearInterval id ;; put (set_toolkitCheckInterval None)
  | None => ret tt
  end.

(** [setupToolkitEventListeners()]; [toolkitApi] tells whether the query
    for the toolkit element finds it.  Registering the eight listeners
    changes no field: it is what makes [Toolkit] events arrive. *)
Definition setupToolkitEventListeners (now : Z) (toolkitApi : bool) : Method unit :=
  done <- get eventListenersSetup ;;
  if done then ret tt
  else if negb toolkitApi
  then addDebugMessage now "Service Cloud Voice Toolkit API not found"
  else
    put (set_toolkitApiAvailable true) ;;
    put (set_telephonyAvailable true) ;;
    put (set_eventListenersSetup true) ;;
    addDebugMessage now "Service Cloud Voice Toolkit API found and ready" ;;
    addDebugMessage now "Phone controls will show when call events are received" ;;
    addDebugMessage now
      "Event listeners registered for: hold, resume, mute, unmute, callstarted, callconnected, callended, hangup" ;;
    stopToolkitPolling.

Definition checkAndSetupToolkitListeners (now : Z) (toolkitApi : bool) : Method unit :=
  done <- get eventListenersSetup ;;
  if toolkitApi && negb done
  then setupToolkitEventListeners now toolkitApi
  else if negb toolkitApi && done
  then
    put (set_eventListenersSetup false) ;;
    put (set_toolkitApiAvailable false) ;;
    put (set_telephonyAvailable false)
  else ret tt.

(** *** Utility methods *)

Definition resetHoldTimer : Method unit :=
  put (set_totalHoldTime 0) ;;
  put (set_currentHoldStart None) ;;
  put (set_isOnHold false) ;;
  put (set_holdSessions []) ;;
  put (set_formattedTotalHoldTime "00:00") ;;
  put (set_holdColorClass "hold-timer-green") ;;
  running <- get holdTimerInterval ;;
  match running with
  | Some id => clearInterval id ;; put (set_holdTimerInterval None)
  | None => ret tt
  end.

Definition cleanupTimers : Method unit :=
  running <- get callDurationInterval ;;
  match running with
  | Some id => clearInterval id ;; put (set_callDurationInterval None)
  | None => ret tt
  end ;;
  running <- get holdTimerInterval ;;
  match running with
  | Some id => clearInterval id ;; put (set_holdTimerInterval None)
  | None => ret tt
  end ;;
  stopToolkitPolling.

(** [handleCallStarted()]: the call is connected to the rep. *)
Definition handleCallStarted (now : Z) : Method unit :=
  addDebugMessage now "Call connected to rep - starting call duration timer" ;;
  resetHoldTimer ;;
  put (set_isCallActive true) ;;
  put (set_callStatus "Connected") ;;
  put (set_callStartTime (Some now)) ;;
  startCallDurationTimer now ;;
  addDebugMessage now "Call started - phone controls should now be visible".

Definition finalizeCall (now : Z) : Method unit :=
  addDebugMessage now "Call ended - finalizing timers and hiding controls" ;;
  put (set_isCallActive false) ;;
  put (set_callStatus "Ended") ;;
  put (set_callEndDateTime (Some now)) ;;
  put (set_telephonyAvailable false) ;;
  onHold <- get isOnHold ;;
  (if onHold then endHoldTimer now else ret tt) ;;
  cleanupTimers ;;
  formatted <- get formattedTotalHoldTime ;;
  showToast "Call Completed" ("Total hold time: " ++ formatted) "info" ;;
  addDebugMessage now "Phone controls will now be hidden - telephony session ended".

(** *** Toolkit event handlers

    Each handler is [try { ... } catch (error) { addDebugMessage(...) }];
    the only statement of a body that can raise is the first one, which
    serialises the detail. *)

Definition handleHoldEvent (now : Z) (detail : Stringified) : Method unit :=
  match detail with
  | JsonOk text =>
      addDebugMessage now ("Received hold event: " ++ text) ;;
      startHoldTimer now
  | JsonThrows message =>
      addDebugMessage now ("Error processing hold event: " ++ message)
  end.

Definition handleResumeEvent (now : Z) (detail : Stringified) : Method unit :=
  match detail with
  | JsonOk text =>
      addDebugMessage now ("Received resume event: " ++ text) ;;
      onHold <- get isOnHold ;;
      if onHold then endHoldTimer now else startHoldTimer now
  | JsonThrows message =>
      addDebugMessage now ("Error processing resume event: " ++ message)
  end.

Definition handleMuteEvent (now : Z) (detail : Stringified) : Method unit :=
  match detail with
  | JsonOk text =>
      addDebugMessage now ("Received mute event: " ++ text) ;;
      put (set_isMuted true) ;;
      showToast "Call Muted" "The call has been muted" "info"
  | JsonThrows message =>
      addDebugMessage now ("Error processing mute event: " ++ message)
  end.

Definition handleUnmuteEvent (now : Z) (detail : Stringified) : Method unit :=
  match detail with
  | JsonOk text =>
      addDebugMessage now ("Received unmute event: " ++ text) ;;
      put (set_isMuted false) ;;
      showToast "Call Unmuted" "The call has been unmuted" "info"
  | JsonThrows message =>
      addDebugMessage now ("Error processing unmute event: " ++ message)
  end.

Definition handleCallStartedEvent (now : Z) (detail : Stringified) : Method unit :=
  match detail with
  | JsonOk text =>
      addDebugMessage now ("Received call started event: " ++ text) ;;
      put (set_callStatus "Incoming") ;;
      put (set_isCallActive true) ;;
      addDebugMessage now "Call started - status set to Incoming"
  | JsonThrows message =>
      addDebugMessage now ("Error processing call started event: " ++ message)
  end.

Definition handleCallConnectedEvent (now : Z) (detail : Stringified) : Method unit :=
  match detail with
  | JsonOk text =>
      addDebugMessage now ("Received call connected event: " ++ text) ;;
      handleCallStarted now
  | JsonThrows message =>
      addDebugMessage now ("Error processing call connected event: " ++ message)
  end.

Definition handleCallEndedEvent (now : Z) (detail : Stringified) : Method unit :=
  match detail with
  | JsonOk text =>
      addDebugMessage now ("Received call ended event: " ++ text) ;;
      finalizeCall now
  | JsonThrows message =>
      addDebugMessage now ("Error processing call ended event: " ++ message)
  end.

(** The listener table of [setupToolkitEventListeners]. *)
Definition listener (name : ToolkitEvent) : Z -> Stringified -> Method unit :=
  match name with
  | hold => handleHoldEvent
  | resume => handleResumeEvent
  | mute => handleMuteEvent
  | unmute => handleUnmuteEvent
  | callstarted => handleCallStartedEvent
  | callconnected => handleCallConnectedEvent
  | callended => handleCallEndedEvent
  | hangup => handleCallEndedEvent
  end.

(** *** Record wire, lifecycle, end-call button, public API *)

Definition processVoiceCallData (now : Z) (record : VoiceCallRecord) : Method unit :=
  put (set_phoneNumber
         (orString (valueOf (FromPhoneNumber record))
                   (orString (valueOf (ToPhoneNumber record)) ""))) ;;
  number <- get phoneNumber ;;
  put (set_displayPhoneNumber (formatPhoneNumber number)) ;;
  put (set_callDirection
         (if String.eqb (valueOf (CallType record)) "Inbound"
          then "Inbound" else "Outbound")) ;;
  put (set_callEndDateTime (CallEndDateTime record)) ;;
  addDebugMessage now "Call data loaded - waiting for call connection to start timer" ;;
  display <- get displayPhoneNumber ;;
  direction <- get callDirection ;;
  addDebugMessage now
    ("Call data processed: " ++ display ++ " (" ++ direction ++ ")") ;;
  ended <- get callEndDateTime ;;
  addDebugMessage now
    ("Call end time: "
     ++ match ended with
        | Some t => toISOString t
        | None => "null (call active)"
        end).

Definition voiceCallRecord (now : Z) (toolkitApi : bool) (result : WireResult)
  : Method unit :=
  match result with
  | WireData data =>
      addDebugMessage now "Voice Call record loaded successfully" ;;
      processVoiceCallData now data ;;
      setupToolkitEventListeners now toolkitApi
  | WireError message =>
      addDebugMessage now ("Error loading Voice Call record: " ++ message)
  | WirePending => ret tt
  end.

Definition connectedCallback (now : Z) : Method unit :=
  addDebugMessage now "Unified Phone Controls component initialized" ;;
  startToolkitPolling now.

Definition disconnectedCallback : Method unit :=
  cleanupTimers ;;
  stopToolkitPolling.

Definition handleEndCall (now : Z) (toolkitApi : bool) (result : EndCallResult)
  : Method unit :=
  if negb toolkitApi
  then
    addDebugMessage now "Error: Toolkit API not available for end call action" ;;
    showToast "Error" "Telephony service not available" "error"
  else
    addDebugMessage now "Calling toolkit API endCall()" ;;
    match result with
    | EndCallPromise => ret tt
    | EndCallPlain =>
        addDebugMessage now "End call method called (no Promise returned)" ;;
        finalizeCall now
    | EndCallThrows message =>
        addDebugMessage now ("Error in handleEndCall: " ++ message) ;;
        showToast "Error" "Failed to process end call action" "error"
    end.

(** The rejection callback attached to the promise of [endCall()]. *)
Definition endCallRejected (now : Z) (message : string) : Method unit :=
  addDebugMessage now ("End call action failed: " ++ message) ;;
  showToast "Error" "Failed to end call" "error".

Definition resetTimer (now : Z) : Method unit :=
  resetHoldTimer ;;
  addDebugMessage now "Timer reset via public API".

Definition getCurrentHoldTime (now : Z) : Method Z :=
  onHold <- get isOnHold ;;
  start <- get currentHoldStart ;;
  if negb onHold || negb (truthyNumber start)
  then ret 0
  else ret ((now - numberOf start) / 1000).

Definition getTotalHoldTime (now : Z) : Method Z :=
  total <- get totalHoldTime ;;
  current <- getCurrentHoldTime now ;;
  ret (total + current).

(** *** The event loop *)

(** A live interval fires: the page runs the callback registered under the
    identifier; an identifier that is not live runs nothing. *)
Definition fireTimer (now : Z) (toolkitApi : bool) (id : TimerId) : Method unit :=
  live <- get timers ;;
  match find (fun t => Pos.eqb (fst t) id) live with
  | Some (_, DurationTick) => updateCallDuration now
  | Some (_, HoldTick) => updateHoldDisplayTimer now
  | Some (_, ToolkitPoll) => checkAndSetupToolkitListeners now toolkitApi
  | None => ret tt
  end.

Definition dispatch (o : Occurrence) : Method unit :=
  match occ_event o with
  | Toolkit name detail => listener name (occ_now o) detail
  | TimerFired id => fireTimer (occ_now o) (occ_toolkitApi o) id
  | Wire result => voiceCallRecord (occ_now o) (occ_toolkitApi o) result
  | ConnectedCallback => connectedCallback (occ_now o)
  | DisconnectedCallback => disconnectedCallback
  | EndCallClick result => handleEndCall (occ_now o) (occ_toolkitApi o) result
  | EndCallRejected message => endCallRejected (occ_now o) message
  | ResetTimer => resetTimer (occ_now o)
  end.

(** Events are processed in delivery order.  The model lets every event
    occur in every state, which is more than the page does (a toolkit
    event needs the listeners, a tick needs its interval): what holds of
    all runs of the model holds of the runs of the component. *)
Definition run (occurrences : list Occurrence) (this : Widget) : Widget :=
  fold_left (fun w o => exec (dispatch o) w) occurrences this.

(** The states the component can be in, for a clock that never reads the
    epoch itself ([Date.now()] is 0 during the first millisecond of 1970
    only; a hold that starts then has a falsy [currentHoldStart]). *)
Inductive reachable : Widget -> Prop :=
| reachable_initial : reachable initial
| reachable_step (w : Widget) (o : Occurrence) :
    reachable w -> occ_now o <> 0 -> reachable (exec (dispatch o) w).

(** ** Predicates of the claims *)

(** The hold accounting the accumulator owns. *)
Definition holdState (w : Widget) : option Z * bool * Z * list HoldSession :=
  (currentHoldStart w, isOnHold w, totalHoldTime w, holdSessions w).

(** [isOnHold == (currentHoldStart != null)], with a truthy start. *)
Definition holdFlagMatchesStart (w : Widget) : Prop :=
  (isOnHold w = true -> exists t, currentHoldStart w = Some t /\ t <> 0)
  /\ (isOnHold w = false -> currentHoldStart w = None).

Definition sumDurations (sessions : list HoldSession) : Z :=
  fold_right (fun h acc => duration h + acc) 0 sessions.

(** [first; first + 1; ...], [n] numbers. *)
Fixpoint countFrom (first : Z) (n : nat) : list Z :=
  match n with
  | O => []
  | S n' => first :: countFrom (first + 1) n'
  end.

Definition sessionsAccounted (w : Widget) : Prop :=
  totalHoldTime w = sumDurations (holdSessions w)
  /\ map sessionNumber (holdSessions w) = countFrom 1 (List.length (holdSessions w)).

(** Every live duration or hold ticker is the one the component holds the
    identifier of. *)
Definition tickersOwned (w : Widget) : Prop :=
  forall id,
    (In (id, DurationTick) (timers w) -> callDurationInterval w = Some id)
    /\ (In (id, HoldTick) (timers w) -> holdTimerInterval w = Some id).

Definition noTicker (kind : TimerKind) (w : Widget) : Prop :=
  forall id, ~ In (id, kind) (timers w).

(** The toolkit event that the engine takes as the call being connected. *)
Definition observesCallConnected (o : Occurrence) : bool :=
  match occ_event o with
  | Toolkit callconnected (JsonOk _) => true
  | _ => false
  end.

(** The component without its debug log. *)
Definition withoutDebugLog (w : Widget) : Widget := set_debugMessages [] w.

(** Finalisation in the order of the specification's sentence: close the
    open hold session first, then mark the call ended and stop the
    tickers.  It is compared with [finalizeCall] below. *)
Definition finalizeHoldFirst (now : Z) : Method unit :=
  onHold <- get isOnHold ;;
  (if onHold then endHoldTimer now else ret tt) ;;
  put (set_callStatus "Ended") ;;
  put (set_isCallActive false) ;;
  put (set_callEndDateTime (Some now)) ;;
  cleanupTimers ;;
  put (set_telephonyAvailable false) ;;
  formatted <- get formattedTotalHoldTime ;;
  showToast "Call Completed" ("Total hold time: " ++ formatted) "info".

(** A method keeps a property of the component. *)
Definition preserves {A : Type} (P : Widget -> Prop) (m : Method A) : Prop :=
  forall w, P w -> P (snd (m w)).

(** No call-connected event has anchored the duration clock yet. *)
Definition clockUnanchored (w : Widget) : Prop :=
  callStartTime w = None
  /\ callDuration w = 0
  /\ formattedCallDuration w = "00:00:00".

(** ** Sample inputs *)

(** A rendering of instants to run the engine with: the decimal number of
    milliseconds. *)
Definition decimalInstant (t : Z) : string := toString t.

(** An event at instant [t], the toolkit element being on the page. *)
Definition occurs (t : Z) (e : Event) : Occurrence :=
  {| occ_now := t; occ_toolkitApi := true; occ_event := e |}.

Definition emptyDetail : Stringified := JsonOk "{}".

(** A call that started at 3 s and was connected at 4 s. *)
Definition connectedCall : list Occurrence :=
  [occurs 3000 (Toolkit callstarted emptyDetail);
   occurs 4000 (Toolkit callconnected emptyDetail)].

(** The same call, put on hold at 10 s. *)
Definition callOnHold : list Occurrence :=
  (connectedCall ++ [occurs 10000 (Toolkit hold emptyDetail)])%list.

(** A call that started at 1 s and ended at 2 s without being connected. *)
Definition endedCall : list Occurrence :=
  [occurs 1000 (Toolkit callstarted emptyDetail);
   occurs 2000 (Toolkit callended emptyDetail)].

(** Three call-started events and a record that carries a call-start
    timestamp, with no call-connected event. *)
Definition ringingCall : list Occurrence :=
  [occurs 1000 ConnectedCallback;
   occurs 2000 (Wire (WireData {| FromPhoneNumber := Some "4155550100";
                                  ToPhoneNumber := None;
                                  CallType := Some "Inbound";
                                  CallStartDateTime := Some 500;
                                  CallEndDateTime := None |}));
   occurs 3000 (Toolkit callstarted emptyDetail);
   occurs 4000 (Toolkit callstarted emptyDetail);
   occurs 5000 (Toolkit callstarted emptyDetail);
   occurs 6000 (Toolkit callconnected (JsonThrows "cyclic object value"))].

(** ** The rest of the component: getters, the hold button *)

(** [get shouldShowControls()]; [recordId] is the public property of the
    record page, absent ([None]) or a string. *)
Definition shouldShowControls (recordId : option string) (w : Widget) : bool :=
  if negb (truthyString (valueOf recordId)) then false
  else if negb (telephonyAvailable w) then false
  else if String.eqb (callStatus w) "No Call" then false
  else if String.eqb (callStatus w) "Ended" then false
  else if existsb (String.eqb (callStatus w)) ["Connected"; "On Hold"] then true
  else if String.eqb (callStatus w) "Incoming" && isCallActive w then true
  else false.

(** [get statusBadgeClass()]. *)
Definition statusBadgeClass (w : Widget) : string :=
  let baseClass := "slds-badge slds-badge_" in
  if String.eqb (callStatus w) "Connected" then baseClass ++ "success"
  else if String.eqb (callStatus w) "On Hold" then baseClass ++ "warning"
  else if String.eqb (callStatus w) "Ended" then baseClass ++ "error"
  else if String.eqb (callStatus w) "Incoming" then baseClass ++ "light"
  else if String.eqb (callStatus w) "No Call" then baseClass ++ "light"
  else baseClass ++ "light".

(** The toolkit commands the hold button can invoke. *)
Inductive ToolkitCommand : Type :=
| CommandHold      (* toolkitApi.hold() *)
| CommandResume.   (* toolkitApi.resume() *)

(** [handleHoldClick()].  [result] is what the invoked toolkit method does
    (as for [endCall()]); the value returned is the method the click
    invoked, if any.  The rejection callback of a returned promise only
    logs and shows a toast. *)
Definition handleHoldClick (now : Z) (toolkitApi : bool) (result : EndCallResult)
  : Method (option ToolkitCommand) :=
  if negb toolkitApi
  then
    addDebugMessage now "Error: Toolkit API not available for hold action" ;;
    showToast "Error" "Telephony service not available" "error" ;;
    ret None
  else
    onHold <- get isOnHold ;;
    if onHold
    then
      addDebugMessage now "Calling toolkit API resume()" ;;
      match result with
      | EndCallPromise => ret tt
      | EndCallPlain =>
          addDebugMessage now "Resume method called (no Promise returned)"
      | EndCallThrows message =>
          addDebugMessage now ("Error in handleHoldClick: " ++ message) ;;
          showToast "Error" "Failed to process hold action" "error"
      end ;;
      ret (Some CommandResume)
    else
      addDebugMessage now "Calling toolkit API hold()" ;;
      match result with
      | EndCallPromise => ret tt
      | EndCallPlain =>
          addDebugMessage now "Hold method called (no Promise returned)"
      | EndCallThrows message =>
          addDebugMessage now ("Error in handleHoldClick: " ++ message) ;;
          showToast "Error" "Failed to process hold action" "error"
      end ;;
      ret (Some CommandHold).

(** ** Predicates of the further properties *)

(** The component without its two sinks, the debug log and the toasts. *)
Definition withoutSinks (w : Widget) : Widget :=
  set_dispatched [] (set_debugMessages [] w).

(** The status is one of the four the code assigns, and the active flag
    goes with it. *)
Definition statusAgrees (w : Widget) : Prop :=
  (callStatus w = "No Call" /\ isCallActive w = false)
  \/ (callStatus w = "Incoming" /\ isCallActive w = true)
  \/ (callStatus w = "Connected" /\ isCallActive w = true)
  \/ (callStatus w = "Ended" /\ isCallActive w = false).

Definition sameKind (a b : TimerKind) : bool :=
  match a, b with
  | DurationTick, DurationTick => true
  | HoldTick, HoldTick => true
  | ToolkitPoll, ToolkitPoll => true
  | _, _ => false
  end.

(** The live intervals that run a given callback. *)
Definition tickersOf (kind : TimerKind) (w : Widget) : list (TimerId * TimerKind) :=
  filter (fun t => sameKind (snd t) kind) (timers w).

(** The identifiers of the timer table are distinct and below the next
    identifier the page hands out. *)
Definition timersFresh (w : Widget) : Prop :=
  NoDup (map fst (timers w))
  /\ Forall (fun t => (fst t < nextTimerId w)%positive) (timers w).

(** An interval field that is set names a live interval of its kind, and
    the component is in the state the interval is for. *)
Definition tickersTracked (w : Widget) : Prop :=
  (forall id, callDurationInterval w = Some id ->
              In (id, DurationTick) (timers w)
              /\ isCallActive w = true /\ callStartTime w <> None)
  /\ (forall id, holdTimerInterval w = Some id ->
                 In (id, HoldTick) (timers w) /\ isOnHold w = true)
  /\ (forall id, toolkitCheckInterval w = Some id ->
                 In (id, ToolkitPoll) (timers w)).

Definition timersSound (w : Widget) : Prop :=
  timersFresh w /\ tickersOwned w /\ tickersTracked w.

(** While no hold is open, the displayed hold total and its colour are
    those of the accumulated total. *)
Definition displayInSync (w : Widget) : Prop :=
  isOnHold w = false ->
  formattedTotalHoldTime w = formatTime (totalHoldTime w) false
  /\ holdColorClass w = getHoldColorClass (totalHoldTime w).

(** The hold accounting under a clock that has reached [clock]: an open
    hold started no later, no session is negative. *)
Definition holdClock (clock : Z) (w : Widget) : Prop :=
  (forall t, currentHoldStart w = Some t -> t <= clock)
  /\ Forall (fun h => 0 <= duration h) (holdSessions w)
  /\ 0 <= totalHoldTime w.

(** The clock readings of the occurrences never go back, from [clock] on. *)
Fixpoint clockOrdered (clock : Z) (occurrences : list Occurrence) : Prop :=
  match occurrences with
  | [] => True
  | o :: rest => clock <= occ_now o /\ clockOrdered (occ_now o) rest
  end.

(** The toolkit element is on the page at every occurrence. *)
Definition toolkitStays (occurrences : list Occurrence) : Prop :=
  Forall (fun o => occ_toolkitApi o = true) occurrences.

(** The events that write the mute flag. *)
Definition writesMute (o : Occurrence) : bool :=
  match occ_event o with
  | Toolkit mute (JsonOk _) => true
  | Toolkit unmute (JsonOk _) => true
  | _ => false
  end.

(** The hold accounting under a clock that has reached [clock], with an
    accumulated total of at least [floor]. *)
Definition totalAtLeast (floor clock : Z) (w : Widget) : Prop :=
  holdClock clock w /\ floor <= totalHoldTime w.

(** The events that reset the hold accounting: the public reset and the
    call-connected event. *)
Definition resetsHold (o : Occurrence) : bool :=
  match occ_event o with
  | ResetTimer => true
  | Toolkit callconnected (JsonOk _) => true
  | _ => false
  end.

(** The listeners are registered and telephony is marked unavailable, as
    after a call has ended. *)
Definition hiddenForGood (w : Widget) : Prop :=
  eventListenersSetup w = true /\ telephonyAvailable w = false.

(** Every live poll is the one the component holds the identifier of. *)
Definition pollOwned (w : Widget) : Prop :=
  forall id, In (id, ToolkitPoll) (timers w) -> toolkitCheckInterval w = Some id.

(** The page attaches and detaches the component in turn: a connected
    callback comes only while the component is detached.  [attached]
    tells whether the component is attached before the occurrences. *)
Fixpoint attachedInTurn (attached : bool) (occurrences : list Occurrence) : Prop :=
  match occurrences with
  | [] => True
  | o :: rest =>
      match occ_event o with
      | ConnectedCallback => attached = false /\ attachedInTurn true rest
      | DisconnectedCallback => attachedInTurn false rest
      | _ => attachedInTurn attached rest
      end
  end.

(** Every live poll is tracked, and a detached component tracks none. *)
Definition pollSound (attached : bool) (w : Widget) : Prop :=
  pollOwned w /\ (attached = false -> toolkitCheckInterval w = None).

(** Every character of a string passes a test. *)
Fixpoint allChars (test : ascii -> bool) (s : string) : bool :=
  match s with
  | EmptyString => true
  | String c rest => test c && allChars test rest
  end.

(** The digits of a phone number, as [formatPhoneNumber] extracts them. *)
Definition digitsOf (phoneNumber : string) : string :=
  filterString isDigit phoneNumber.

(** ** Basic facts about the embedding *)

Arguments addDebugMessage : simpl never.

(** Reading a field back after assigning it. *)
Lemma setters_assign (w : Widget) :
  forall b s z oz ti hs ls tm id ts,
    isCallActive (set_isCallActive b w) = b
    /\ callStatus (set_callStatus s w) = s
    /\ isOnHold (set_isOnHold b w) = b
    /\ isMuted (set_isMuted b w) = b
    /\ callDuration (set_callDuration z w) = z
    /\ formattedCallDuration (set_formattedCallDuration s w) = s
    /\ callStartTime (set_callStartTime oz w) = oz
    /\ callDurationInterval (set_callDurationInterval ti w) = ti
    /\ totalHoldTime (set_totalHoldTime z w) = z
    /\ currentHoldStart (set_currentHoldStart oz w) = oz
    /\ holdSessions (set_holdSessions hs w) = hs
    /\ formattedTotalHoldTime (set_formattedTotalHoldTime s w) = s
    /\ holdColorClass (set_holdColorClass s w) = s
    /\ holdTimerInterval (set_holdTimerInterval ti w) = ti
    /\ phoneNumber (set_phoneNumber s w) = s
    /\ callDirection (set_callDirection s w) = s
    /\ displayPhoneNumber (set_displayPhoneNumber s w) = s
    /\ telephonyAvailable (set_telephonyAvailable b w) = b
    /\ toolkitApiAvailable (set_toolkitApiAvailable b w) = b
    /\ eventListenersSetup (set_eventListenersSetup b w) = b
    /\ toolkitCheckInterval (set_toolkitCheckInterval ti w) = ti
    /\ debugMessages (set_debugMessages ls w) = ls
    /\ callEndDateTime (set_callEndDateTime oz w) = oz
    /\ timers (set_timers tm w) = tm
    /\ nextTimerId (set_nextTimerId id w) = id
    /\ dispatched (set_dispatched ts w) = ts.
Proof. destruct w; intros; repeat split. Qed.

(** Assigning a field its current value changes nothing: an assignment
    writes one field only. *)
Lemma setters_idle (w : Widget) :
  set_isCallActive (isCallActive w) w = w
  /\ set_callStatus (callStatus w) w = w
  /\ set_isOnHold (isOnHold w) w = w
  /\ set_isMuted (isMuted w) w = w
  /\ set_callDuration (callDuration w) w = w
  /\ set_formattedCallDuration (formattedCallDuration w) w = w
  /\ set_callStartTime (callStartTime w) w = w
  /\ set_callDurationInterval (callDurationInterval w) w = w
  /\ set_totalHoldTime (totalHoldTime w) w = w
  /\ set_currentHoldStart (currentHoldStart w) w = w
  /\ set_holdSessions (holdSessions w) w = w
  /\ set_formattedTotalHoldTime (formattedTotalHoldTime w) w = w
  /\ set_holdColorClass (holdColorClass w) w = w
  /\ set_holdTimerInterval (holdTimerInterval w) w = w
  /\ set_phoneNumber (phoneNumber w) w = w
  /\ set_callDirection (callDirection w) w = w
  /\ set_displayPhoneNumber (displayPhoneNumber w) w = w
  /\ set_telephonyAvailable (telephonyAvailable w) w = w
  /\ set_toolkitApiAvailable (toolkitApiAvailable w) w = w
  /\ set_eventListenersSetup (eventListenersSetup w) w = w
  /\ set_toolkitCheckInterval (toolkitCheckInterval w) w = w
  /\ set_debugMessages (debugMessages w) w = w
  /\ set_callEndDateTime (callEndDateTime w) w = w
  /\ set_timers (timers w) w = w
  /\ set_nextTimerId (nextTimerId w) w = w
  /\ set_dispatched (dispatched w) w = w.
Proof. destruct w; repeat split. Qed.

Lemma exec_bind {A B : Type} (m : Method A) (k : A -> Method B) (w : Widget) :
  exec (bind m k) w = exec (k (eval m w)) (exec m w).
Proof. unfold exec, eval, bind. destruct (m w); reflexivity. Qed.

(** The debug log is a side channel: a message changes [debugMessages] and
    nothing else. *)
Lemma addDebugMessage_effect (now : Z) (message : string) (w : Widget) :
  addDebugMessage now message w
  = (tt, set_debugMessages
           (let entries := ("[" ++ toISOString now ++ "] " ++ message)
                           :: debugMessages w in
            if (50 <? List.length entries)%nat then firstn 50 entries else entries)
           w).
Proof.
  unfold addDebugMessage, bind, get, put, ret; destruct w; cbn -[Nat.ltb firstn].
  match goal with |- context [Nat.ltb ?a ?b] => destruct (Nat.ltb a b) end;
    reflexivity.
Qed.

(** The log never holds more than 50 entries once it holds at most 50. *)
Lemma addDebugMessage_bounded (now : Z) (message : string) (w : Widget) :
  (List.length (debugMessages w) <= 50)%nat ->
  (List.length (debugMessages (exec (addDebugMessage now message) w)) <= 50)%nat.
Proof.
  intros H. unfold exec. rewrite addDebugMessage_effect.
  destruct w; cbn -[Nat.ltb firstn] in *.
  match goal with
  | |- context [Nat.ltb ?a ?b] => destruct (Nat.ltb_spec a b) as [Hlt | Hge]
  end.
  - rewrite length_firstn. lia.
  - exact Hge.
Qed.

(** Proof steps shared by the handlers: expose the plumbing of a method,
    replace each log call by its effect, and compute on the record. *)
Ltac plumbing := unfold bind, get, put, ret, exec, eval in *.
Tactic Notation "tidy" :=
  cbn -[firstn Nat.ltb append Z.add Z.sub Z.div Z.of_nat formatTime getHoldColorClass].
Tactic Notation "tidy" "in" "*" :=
  cbn -[firstn Nat.ltb append Z.add Z.sub Z.div Z.of_nat formatTime getHoldColorClass] in *.
Ltac logs := repeat (rewrite addDebugMessage_effect; tidy).
Ltac crunch := plumbing; tidy; logs.

(** Unfold the methods down to field reads and writes, then compute on a
    concrete record, splitting on the fields the code branches on. *)
Ltac methods :=
  unfold dispatch, listener, fireTimer, voiceCallRecord, processVoiceCallData,
    connectedCallback, disconnectedCallback, handleEndCall, endCallRejected,
    resetTimer, handleHoldEvent, handleResumeEvent, handleMuteEvent,
    handleUnmuteEvent, handleCallStartedEvent, handleCallConnectedEvent,
    handleCallEndedEvent, handleCallStarted, finalizeCall, finalizeHoldFirst,
    cleanupTimers, resetHoldTimer, checkAndSetupToolkitListeners,
    setupToolkitEventListeners, startToolkitPolling, stopToolkitPolling,
    startHoldTimer, endHoldTimer, updateHoldDisplayTimer, updateCallDuration,
    startCallDurationTimer, setInterval, clearInterval, showToast in *.

Ltac branches :=
  repeat match goal with
         | E : Z.eqb ?a ?b = _ |- context [Z.eqb ?a ?b] => rewrite E; tidy; logs
         | |- context [match ?x with _ => _ end] => is_var x; destruct x; tidy; logs
         | |- context [negb ?x] => is_var x; destruct x; tidy; logs
         | |- context [if ?c then _ else _] => destruct c eqn:?; tidy; logs
         end.

Ltac on_record w :=
  let cdi := fresh "durationTicker" in
  let hti := fresh "holdTicker" in
  let tci := fresh "pollTicker" in
  destruct w as [? ? ? ? ? ? ? cdi ? ? ? ? ? hti ? ? ? ? ? ? tci ? ? ? ? ?];
  tidy in *; subst; destruct cdi, hti, tci;
  methods; plumbing; tidy; logs; branches.

(** ** The hold accumulator *)

(** A hold start while on hold changes the log only. *)
Lemma startHoldTimer_on_hold (now : Z) (w : Widget) :
  isOnHold w = true ->
  withoutDebugLog (exec (startHoldTimer now) w) = withoutDebugLog w.
Proof.
  intros H. unfold startHoldTimer. crunch. rewrite H. logs.
  destruct w; reflexivity.
Qed.

(** A hold start while not on hold opens the hold at [now]. *)
Lemma startHoldTimer_opens (now : Z) (w : Widget) :
  isOnHold w = false ->
  holdState (exec (startHoldTimer now) w)
  = (Some now, true, totalHoldTime w, holdSessions w).
Proof.
  intros H. unfold startHoldTimer, setInterval, clearInterval, showToast. crunch.
  rewrite H. logs. destruct w; cbn. destruct holdTimerInterval0; reflexivity.
Qed.

(** A hold end with no open hold changes the log only. *)
Lemma endHoldTimer_not_on_hold (now : Z) (w : Widget) :
  isOnHold w = false \/ truthyNumber (currentHoldStart w) = false ->
  withoutDebugLog (exec (endHoldTimer now) w) = withoutDebugLog w.
Proof.
  intros H. unfold endHoldTimer. crunch.
  assert (G : negb (isOnHold w) || negb (truthyNumber (currentHoldStart w)) = true).
  { destruct H as [-> | ->]; [reflexivity | apply orb_true_r]. }
  rewrite G. logs. destruct w; reflexivity.
Qed.

Lemma withoutDebugLog_holdState (w w' : Widget) :
  withoutDebugLog w' = withoutDebugLog w -> holdState w' = holdState w.
Proof.
  destruct w, w'; unfold withoutDebugLog, holdState; cbn.
  intros E; injection E; intros; subst; reflexivity.
Qed.

Lemma holdState_inv (w : Widget) start flag total sessions :
  holdState w = (start, flag, total, sessions) ->
  currentHoldStart w = start /\ isOnHold w = flag
  /\ totalHoldTime w = total /\ holdSessions w = sessions.
Proof. unfold holdState; intros E; inversion E; auto. Qed.

Lemma holdState_fields (w w' : Widget) :
  holdState w' = holdState w ->
  currentHoldStart w' = currentHoldStart w
  /\ isOnHold w' = isOnHold w
  /\ totalHoldTime w' = totalHoldTime w
  /\ holdSessions w' = holdSessions w.
Proof. unfold holdState; intros E; inversion E; auto. Qed.

Lemma addDebugMessage_frame (now : Z) (message : string) (w : Widget) :
  withoutDebugLog (exec (addDebugMessage now message) w) = withoutDebugLog w.
Proof. crunch. destruct w; reflexivity. Qed.

(** A hold end with an open hold closes it at [now]. *)
Lemma endHoldTimer_closes (now t : Z) (w : Widget) :
  isOnHold w = true -> currentHoldStart w = Some t -> t <> 0 ->
  let held := (now - t) / 1000 in
  let w' := exec (endHoldTimer now) w in
  holdState w'
  = (None, false, totalHoldTime w + held,
     (holdSessions w
      ++ [{| sessionNumber := Z.of_nat (List.length (holdSessions w)) + 1;
             startTime := toISOString t;
             endTime := toISOString now;
             duration := held |}])%list)
  /\ holdTimerInterval w' = None
  /\ formattedTotalHoldTime w' = formatTime (totalHoldTime w + held) false
  /\ holdColorClass w' = getHoldColorClass (totalHoldTime w + held).
Proof.
  intros Hhold Hstart Ht. unfold endHoldTimer, clearInterval, showToast. crunch.
  rewrite Hhold, Hstart. tidy.
  destruct (Z.eqb_spec t 0) as [E | _]; [contradiction |].
  destruct w; tidy in *.
  destruct holdTimerInterval0; logs; repeat split.
Qed.

(** C8. A hold end that arrives while no hold session is open is a no-op:
    whatever the number of such hold ends and the instants they arrive at,
    the accumulated hold time and the session list are what they were, no
    session is appended, and nothing but the debug log changes. *)
Theorem hold_end_without_open_hold_is_noop (w : Widget) (instants : list Z) :
  isOnHold w = false \/ truthyNumber (currentHoldStart w) = false ->
  let w' := fold_left (fun this now => exec (endHoldTimer now) this) instants w in
  totalHoldTime w' = totalHoldTime w
  /\ holdSessions w' = holdSessions w
  /\ holdState w' = holdState w
  /\ withoutDebugLog w' = withoutDebugLog w.
Proof.
  intros H. cbn zeta.
  assert (G : withoutDebugLog
                (fold_left (fun this now => exec (endHoldTimer now) this) instants w)
              = withoutDebugLog w).
  { revert w H. induction instants as [| now rest IH]; intros w H; [reflexivity |].
    cbn [fold_left].
    pose proof (endHoldTimer_not_on_hold now w H) as Hstep.
    rewrite IH; [exact Hstep |].
    apply withoutDebugLog_holdState, holdState_fields in Hstep.
    destruct Hstep as (Hs & Hf & _). rewrite Hs, Hf. exact H. }
  pose proof (withoutDebugLog_holdState _ _ G) as Hs.
  destruct (holdState_fields _ _ Hs) as (_ & _ & Ht & Hl).
  repeat split; assumption.
Qed.

(** C7. A hold start that arrives while a hold is open is a no-op.  From a
    state on hold, any number of hold events leaves the hold state
    ([currentHoldStart], [isOnHold], [totalHoldTime], [holdSessions]) and
    everything but the debug log unchanged; from a state not on hold, the
    first hold event opens the one hold session, at the instant it is
    processed, and the hold events that follow leave it as it is. *)
Theorem repeated_hold_start_is_noop
  (w : Widget) (first : Z) (text : string) (repeats : list (Z * Stringified)) :
  let holds := fold_left (fun this e => exec (handleHoldEvent (fst e) (snd e)) this) in
  (isOnHold w = true ->
   withoutDebugLog (holds repeats w) = withoutDebugLog w
   /\ holdState (holds repeats w) = holdState w)
  /\ (isOnHold w = false ->
      let opened := exec (handleHoldEvent first (JsonOk text)) w in
      holdState opened = (Some first, true, totalHoldTime w, holdSessions w)
      /\ holdState (holds repeats opened) = holdState opened
      /\ withoutDebugLog (holds repeats opened) = withoutDebugLog opened).
Proof.
  cbn zeta.
  assert (Hone : forall this now detail,
             isOnHold this = true ->
             withoutDebugLog (exec (handleHoldEvent now detail) this)
             = withoutDebugLog this).
  { intros this now [body | msg] Hon; unfold handleHoldEvent.
    - rewrite exec_bind, startHoldTimer_on_hold; [apply addDebugMessage_frame |].
      pose proof (withoutDebugLog_holdState _ _
                    (addDebugMessage_frame now ("Received hold event: " ++ body) this))
        as E.
      apply holdState_fields in E. destruct E as (_ & Ef & _). congruence.
    - apply addDebugMessage_frame. }
  assert (Hmany : forall evs this,
             isOnHold this = true ->
             withoutDebugLog
               (fold_left (fun this e => exec (handleHoldEvent (fst e) (snd e)) this)
                  evs this)
             = withoutDebugLog this).
  { induction evs as [| [now detail] rest IH]; intros this Hon; [reflexivity |].
    cbn [fold_left fst snd].
    pose proof (Hone this now detail Hon) as Hstep.
    rewrite IH; [exact Hstep |].
    apply withoutDebugLog_holdState, holdState_fields in Hstep.
    destruct Hstep as (_ & Hf & _). congruence. }
  split.
  - intros Hon. split; [| apply withoutDebugLog_holdState]; apply Hmany; exact Hon.
  - intros Hoff.
    assert (Hopen : holdState (exec (handleHoldEvent first (JsonOk text)) w)
                    = (Some first, true, totalHoldTime w, holdSessions w)).
    { unfold handleHoldEvent.
      pose proof (withoutDebugLog_holdState _ _
                    (addDebugMessage_frame first ("Received hold event: " ++ text) w))
        as E.
      apply holdState_fields in E. destruct E as (_ & Ef & Et & El).
      rewrite exec_bind, startHoldTimer_opens by congruence.
      rewrite Et, El. reflexivity. }
    assert (Hon : isOnHold (exec (handleHoldEvent first (JsonOk text)) w) = true).
    { apply (f_equal (fun p => snd (fst (fst p)))) in Hopen. exact Hopen. }
    split; [exact Hopen |].
    split; [apply withoutDebugLog_holdState |]; apply Hmany; exact Hon.
Qed.

(** C4. What a raw [resume] event does is decided by the hold flag alone:
    in every state with [isOnHold] true it runs the hold end, which closes
    the open hold session; in every state with [isOnHold] false it runs
    the hold start, which opens a hold session at that instant.  (An event
    whose detail cannot be serialised is dropped by the handler's [catch]
    before the flag is read: it only leaves a debug entry.) *)
Theorem resume_is_decided_by_hold_flag (w : Widget) (now : Z) (text : string) :
  let logged := exec (addDebugMessage now ("Received resume event: " ++ text)) w in
  let w' := exec (handleResumeEvent now (JsonOk text)) w in
  (isOnHold w = true ->
   w' = exec (endHoldTimer now) logged
   /\ forall t, currentHoldStart w = Some t -> t <> 0 ->
        holdState w'
        = (None, false, totalHoldTime w + (now - t) / 1000,
           (holdSessions w
            ++ [{| sessionNumber := Z.of_nat (List.length (holdSessions w)) + 1;
                   startTime := toISOString t;
                   endTime := toISOString now;
                   duration := (now - t) / 1000 |}])%list))
  /\ (isOnHold w = false ->
      w' = exec (startHoldTimer now) logged
      /\ holdState w' = (Some now, true, totalHoldTime w, holdSessions w))
  /\ (forall message,
        withoutDebugLog (exec (handleResumeEvent now (JsonThrows message)) w)
        = withoutDebugLog w).
Proof.
  cbn zeta. rewrite <- and_assoc. split; [| intros message; apply addDebugMessage_frame].
  pose proof (withoutDebugLog_holdState _ _
                (addDebugMessage_frame now ("Received resume event: " ++ text) w))
    as Hhs.
  apply holdState_fields in Hhs. destruct Hhs as (Hs & Hflag & Ht & Hl).
  assert (Hrun : exec (handleResumeEvent now (JsonOk text)) w
                 = if isOnHold w
                   then exec (endHoldTimer now)
                          (exec (addDebugMessage now ("Received resume event: " ++ text)) w)
                   else exec (startHoldTimer now)
                          (exec (addDebugMessage now ("Received resume event: " ++ text)) w)).
  { unfold handleResumeEvent. rewrite exec_bind, exec_bind.
    unfold eval at 1, get at 1. cbn [fst]. rewrite Hflag.
    destruct (isOnHold w); reflexivity. }
  split; intros Hon; rewrite Hrun, Hon.
  - split; [reflexivity |]. intros t Hstart Hnz.
    destruct (endHoldTimer_closes now t
                (exec (addDebugMessage now ("Received resume event: " ++ text)) w))
      as [Hclosed _]; congruence.
  - split; [reflexivity |].
    rewrite startHoldTimer_opens by congruence. rewrite Ht, Hl. reflexivity.
Qed.

(** The hold display tick shows the accumulated total plus the elapsed part
    of the open hold, and its severity class. *)
Lemma updateHoldDisplayTimer_open (now t : Z) (w : Widget) :
  isOnHold w = true -> currentHoldStart w = Some t -> t <> 0 ->
  let displayTime := totalHoldTime w + (now - t) / 1000 in
  let w' := exec (updateHoldDisplayTimer now) w in
  formattedTotalHoldTime w' = formatTime displayTime false
  /\ holdColorClass w' = getHoldColorClass displayTime
  /\ holdState w' = holdState w.
Proof.
  intros Hhold Hstart Ht. unfold updateHoldDisplayTimer. crunch.
  rewrite Hhold, Hstart. tidy.
  destruct (Z.eqb_spec t 0) as [E | _]; [contradiction |].
  destruct w; tidy in *. repeat split.
Qed.

(** C9. The severity class is a function of the displayed hold total in
    seconds alone, with exact boundaries: a total in [0,30] is green (Low),
    a total in (30,120] is yellow (Medium), a total above 120 is red
    (High); 30 is still green and 120 is still yellow.  The hold display
    tick applies it to the displayed total. *)
Theorem severity_tier_boundaries (total : Z) :
  (0 <= total <= 30 -> getHoldColorClass total = "hold-timer-green")
  /\ (30 < total <= 120 -> getHoldColorClass total = "hold-timer-yellow")
  /\ (120 < total -> getHoldColorClass total = "hold-timer-red")
  /\ getHoldColorClass 30 = "hold-timer-green"
  /\ getHoldColorClass 31 = "hold-timer-yellow"
  /\ getHoldColorClass 120 = "hold-timer-yellow"
  /\ getHoldColorClass 121 = "hold-timer-red"
  /\ (forall now t w,
        isOnHold w = true -> currentHoldStart w = Some t -> t <> 0 ->
        holdColorClass (exec (updateHoldDisplayTimer now) w)
        = getHoldColorClass (totalHoldTime w + (now - t) / 1000)).
Proof.
  unfold getHoldColorClass.
  repeat split; try reflexivity.
  - intros [_ H]. destruct (Z.leb_spec total 30); [reflexivity | lia].
  - intros [H1 H2].
    destruct (Z.leb_spec total 30); [lia |].
    destruct (Z.leb_spec total 120); [reflexivity | lia].
  - intros H.
    destruct (Z.leb_spec total 30); [lia |].
    destruct (Z.leb_spec total 120); [lia | reflexivity].
  - intros now t w H1 H2 H3.
    destruct (updateHoldDisplayTimer_open now t w H1 H2 H3) as (_ & Hc & _).
    exact Hc.
Qed.

(** C10. The read API agrees with the hold accounting.
    [getCurrentHoldTime] returns 0 whenever no hold session is open (the
    flag is off or the start is unset) and the whole seconds elapsed since
    the start otherwise; [getTotalHoldTime] always returns the accumulated
    [totalHoldTime] plus what [getCurrentHoldTime] returns, so it is
    [totalHoldTime] exactly when not on hold.  Neither changes the state. *)
Theorem hold_time_api_consistent (w : Widget) (now : Z) :
  (isOnHold w = false \/ currentHoldStart w = None ->
   getCurrentHoldTime now w = (0, w))
  /\ (forall t, isOnHold w = true -> currentHoldStart w = Some t -> t <> 0 ->
        getCurrentHoldTime now w = ((now - t) / 1000, w))
  /\ getTotalHoldTime now w
     = (totalHoldTime w + eval (getCurrentHoldTime now) w, w)
  /\ (isOnHold w = false -> getTotalHoldTime now w = (totalHoldTime w, w)).
Proof.
  unfold getTotalHoldTime, getCurrentHoldTime. plumbing. tidy.
  repeat split.
  - intros [H | H]; rewrite H; tidy; [reflexivity |].
    rewrite orb_true_r. reflexivity.
  - intros t Hon Hs Ht. rewrite Hon, Hs. tidy.
    destruct (Z.eqb_spec t 0); [contradiction | reflexivity].
  - destruct (negb (isOnHold w) || negb (truthyNumber (currentHoldStart w)));
      reflexivity.
  - intros H. rewrite H. tidy. rewrite Z.add_0_r. reflexivity.
Qed.

(** ** Properties kept by every method

    [preserves P m] is proved along the structure of [m]; a method that
    breaks [P] between two of its assignments gets a lemma of its own, put
    in the hint database [engine]. *)

Create HintDb engine discriminated.

Lemma preserves_ret {A : Type} (P : Widget -> Prop) (a : A) : preserves P (ret a).
Proof. intros w H; exact H. Qed.

Lemma preserves_get {A : Type} (P : Widget -> Prop) (field : Widget -> A) :
  preserves P (get field).
Proof. intros w H; exact H. Qed.

Lemma preserves_bind {A B : Type} (P : Widget -> Prop)
    (m : Method A) (k : A -> Method B) :
  preserves P m -> (forall a, preserves P (k a)) -> preserves P (bind m k).
Proof.
  intros Hm Hk w H. unfold bind. specialize (Hm w H).
  destruct (m w) as [a w']. apply Hk, Hm.
Qed.

Lemma preserves_exec {A : Type} (P : Widget -> Prop) (m : Method A) (w : Widget) :
  preserves P m -> P w -> P (exec m w).
Proof. intros Hm H. apply Hm, H. Qed.

Lemma preserves_addDebugMessage (P : Widget -> Prop) (now : Z) (message : string) :
  (forall log w, P w -> P (set_debugMessages log w)) ->
  preserves P (addDebugMessage now message).
Proof. intros HP w H. rewrite addDebugMessage_effect. cbn [snd]. apply HP, H. Qed.

Ltac head_of m :=
  lazymatch m with
  | ?f _ => head_of f
  | _ => m
  end.

(** One step along the structure of a method. *)
Ltac preserve_step :=
  lazymatch goal with
  | |- preserves _ (bind _ _) => apply preserves_bind; [| intros ?]
  | |- preserves _ (ret _) => apply preserves_ret
  | |- preserves _ (get _) => apply preserves_get
  | |- preserves _ (addDebugMessage _ _) =>
      apply preserves_addDebugMessage; intros ? [] ?; assumption
  | |- preserves _ (put _) => intros [] ?; first [assumption | reflexivity]
  | |- preserves _ (if ?c then _ else _) => destruct c
  | |- preserves _ (match ?x with _ => _ end) => destruct x
  | |- preserves _ ?m =>
      let h := head_of m in
      lazymatch h with
      | match ?x with _ => _ end => destruct x
      | _ => first [ solve [auto with engine] | unfold h ]
      end
  end.
Ltac preserve := repeat preserve_step.

(** *** The session list accounts for the accumulated hold time *)

Lemma countFrom_app (first : Z) (n : nat) :
  countFrom first (S n) = (countFrom first n ++ [first + Z.of_nat n])%list.
Proof.
  revert first. induction n as [| n IH]; intros first.
  - cbn. rewrite Z.add_0_r. reflexivity.
  - change (countFrom first (S (S n)))
      with (first :: countFrom (first + 1) (S n)).
    rewrite IH. cbn [countFrom app]. f_equal. f_equal. f_equal. lia.
Qed.

Lemma sumDurations_app (sessions : list HoldSession) (h : HoldSession) :
  sumDurations (sessions ++ [h]) = sumDurations sessions + duration h.
Proof.
  unfold sumDurations. induction sessions as [| x rest IH]; cbn.
  - lia.
  - rewrite IH. lia.
Qed.

(** The hold guard of [endHoldTimer] and of the hold display tick. *)
Lemma hold_guard (w : Widget) :
  (isOnHold w = false \/ truthyNumber (currentHoldStart w) = false)
  \/ (exists t, isOnHold w = true /\ currentHoldStart w = Some t /\ t <> 0).
Proof.
  destruct (isOnHold w); [| left; left; reflexivity].
  destruct (currentHoldStart w) as [t |]; [| left; right; reflexivity].
  destruct (Z.eq_dec t 0) as [-> | Ht]; [left; right; reflexivity |].
  right. exists t. auto.
Qed.

Lemma endHoldTimer_accounted (now : Z) :
  preserves sessionsAccounted (endHoldTimer now).
Proof.
  intros w [Htotal Hnums]. change (sessionsAccounted (exec (endHoldTimer now) w)).
  destruct (hold_guard w) as [Hidle | (t & Hon & Hs & Ht)].
  - pose proof (withoutDebugLog_holdState _ _ (endHoldTimer_not_on_hold now w Hidle))
      as Hnoop.
    apply holdState_fields in Hnoop. destruct Hnoop as (_ & _ & Et & El).
    unfold sessionsAccounted. rewrite Et, El. split; assumption.
  - destruct (endHoldTimer_closes now t w Hon Hs Ht) as [Hclosed _].
    apply holdState_inv in Hclosed. destruct Hclosed as (_ & _ & Et & El).
    unfold sessionsAccounted. rewrite Et, El. split.
    + rewrite sumDurations_app, Htotal. reflexivity.
    + rewrite map_app, length_app, Hnums. cbn [map List.length sessionNumber].
      rewrite Nat.add_1_r, countFrom_app, Z.add_comm. reflexivity.
Qed.
#[local] Hint Resolve endHoldTimer_accounted : engine.

Lemma resetHoldTimer_accounted : preserves sessionsAccounted resetHoldTimer.
Proof.
  intros w _. unfold resetHoldTimer, clearInterval. crunch.
  destruct w; tidy. destruct holdTimerInterval0; split; reflexivity.
Qed.
#[local] Hint Resolve resetHoldTimer_accounted : engine.

Lemma dispatch_accounted (o : Occurrence) : preserves sessionsAccounted (dispatch o).
Proof.
  unfold dispatch. preserve.
Qed.

Lemma run_preserves (P : Widget -> Prop) (occurrences : list Occurrence) :
  (forall o, In o occurrences -> preserves P (dispatch o)) ->
  forall w, P w -> P (run occurrences w).
Proof.
  induction occurrences as [| o rest IH]; intros Hall w H; [exact H |].
  cbn [run fold_left]. apply IH.
  - intros o' Hin. apply Hall. right. exact Hin.
  - apply Hall; [left; reflexivity | exact H].
Qed.

(** C6. After any sequence of events, the accumulated [totalHoldTime] is
    the exact sum of the durations of the completed hold sessions in
    [holdSessions], and their session numbers are 1, 2, ..., N in order,
    N being the number of sessions. *)
Theorem hold_total_is_sum_of_sessions (occurrences : list Occurrence) :
  let w := run occurrences initial in
  totalHoldTime w = sumDurations (holdSessions w)
  /\ map sessionNumber (holdSessions w)
     = countFrom 1 (List.length (holdSessions w)).
Proof.
  cbn zeta. apply (run_preserves sessionsAccounted).
  - intros o _. apply dispatch_accounted.
  - split; reflexivity.
Qed.

(** *** The hold flag and the hold start agree *)

Lemma startHoldTimer_flag (now : Z) :
  now <> 0 -> preserves holdFlagMatchesStart (startHoldTimer now).
Proof.
  intros Hnow w Hinv. change (holdFlagMatchesStart (exec (startHoldTimer now) w)).
  destruct (isOnHold w) eqn:Hon.
  - pose proof (withoutDebugLog_holdState _ _ (startHoldTimer_on_hold now w Hon)) as E.
    apply holdState_fields in E. destruct E as (Es & Ef & _).
    unfold holdFlagMatchesStart. rewrite Es, Ef. exact Hinv.
  - pose proof (startHoldTimer_opens now w Hon) as E.
    apply holdState_inv in E. destruct E as (Es & Ef & _).
    unfold holdFlagMatchesStart. rewrite Es, Ef. split.
    + intros _. exists now. auto.
    + discriminate.
Qed.

Lemma endHoldTimer_flag (now : Z) :
  preserves holdFlagMatchesStart (endHoldTimer now).
Proof.
  intros w Hinv. change (holdFlagMatchesStart (exec (endHoldTimer now) w)).
  destruct (hold_guard w) as [Hidle | (t & Hon & Hs & Ht)].
  - pose proof (withoutDebugLog_holdState _ _ (endHoldTimer_not_on_hold now w Hidle)) as E.
    apply holdState_fields in E. destruct E as (Es & Ef & _).
    unfold holdFlagMatchesStart. rewrite Es, Ef. exact Hinv.
  - destruct (endHoldTimer_closes now t w Hon Hs Ht) as [E _].
    apply holdState_inv in E. destruct E as (Es & Ef & _).
    unfold holdFlagMatchesStart. rewrite Es, Ef. split; [discriminate | reflexivity].
Qed.

Lemma resetHoldTimer_flag : preserves holdFlagMatchesStart resetHoldTimer.
Proof.
  intros w _. unfold resetHoldTimer, clearInterval. crunch.
  destruct w; tidy. destruct holdTimerInterval0; split; (discriminate || reflexivity).
Qed.
#[local] Hint Resolve startHoldTimer_flag endHoldTimer_flag resetHoldTimer_flag : engine.

Lemma dispatch_flag (o : Occurrence) :
  occ_now o <> 0 -> preserves holdFlagMatchesStart (dispatch o).
Proof.
  intros Hnow. unfold dispatch. preserve.
Qed.

Lemma reachable_flag (w : Widget) : reachable w -> holdFlagMatchesStart w.
Proof.
  induction 1 as [| w o _ IH Hnow].
  - split; [discriminate | reflexivity].
  - apply (dispatch_flag o Hnow), IH.
Qed.

(** *** The component holds the identifier of every live ticker *)

Lemma In_cleared (id cleared : TimerId) (kind : TimerKind)
    (live : list (TimerId * TimerKind)) :
  In (id, kind) (filter (fun t => negb (Pos.eqb (fst t) cleared)) live)
  <-> In (id, kind) live /\ id <> cleared.
Proof.
  rewrite filter_In. cbn [fst]. rewrite negb_true_iff, Pos.eqb_neq. reflexivity.
Qed.

(** Unfold a timer method on a concrete record and reduce membership in
    the timer table to membership in the table before the call. *)
Ltac timer_table :=
  repeat match goal with
         | H : In _ (_ ++ _) |- _ => apply in_app_or in H; destruct H as [H | H]
         | H : In _ (filter _ _) |- _ => apply In_cleared in H; destruct H as [H ?]
         | H : In _ [_] |- _ => destruct H as [H | []]; inversion H; subst; clear H
         | H : In _ [] |- _ => destruct H
         end.

Ltac owned :=
  let id := fresh "id" in
  let Hd := fresh "Hd" in
  let Hh := fresh "Hh" in
  unfold preserves; intros [] Hinv;
  unfold tickersOwned in *; tidy in *; logs;
  repeat match goal with
         | |- context [match ?x with _ => _ end] => is_var x; destruct x; tidy; logs
         | |- context [if ?c then _ else _] => destruct c eqn:?; tidy; logs
         end;
  intros id; destruct (Hinv id) as [Hd Hh]; tidy;
  split; intros Hin; timer_table;
  try reflexivity;
  try (specialize (Hd Hin)); try (specialize (Hh Hin));
  try congruence.

Lemma startCallDurationTimer_owned (now : Z) :
  preserves tickersOwned (startCallDurationTimer now).
Proof.
  unfold startCallDurationTimer, setInterval, clearInterval. plumbing. owned.
Qed.

Lemma startHoldTimer_owned (now : Z) :
  preserves tickersOwned (startHoldTimer now).
Proof.
  unfold startHoldTimer, setInterval, clearInterval, showToast. plumbing. owned.
Qed.

Lemma endHoldTimer_owned (now : Z) :
  preserves tickersOwned (endHoldTimer now).
Proof.
  unfold endHoldTimer, clearInterval, showToast. plumbing. owned.
Qed.

Lemma resetHoldTimer_owned : preserves tickersOwned resetHoldTimer.
Proof.
  unfold resetHoldTimer, clearInterval. plumbing. owned.
Qed.

Lemma startToolkitPolling_owned (now : Z) :
  preserves tickersOwned (startToolkitPolling now).
Proof.
  unfold startToolkitPolling, setInterval. plumbing. owned.
Qed.

Lemma stopToolkitPolling_owned : preserves tickersOwned stopToolkitPolling.
Proof.
  unfold stopToolkitPolling, clearInterval. plumbing. owned.
Qed.

Lemma cleanupTimers_owned : preserves tickersOwned cleanupTimers.
Proof.
  unfold cleanupTimers, stopToolkitPolling, clearInterval. plumbing. owned.
Qed.
#[local] Hint Resolve startCallDurationTimer_owned startHoldTimer_owned
  endHoldTimer_owned resetHoldTimer_owned startToolkitPolling_owned
  stopToolkitPolling_owned cleanupTimers_owned : engine.

Lemma dispatch_owned (o : Occurrence) : preserves tickersOwned (dispatch o).
Proof.
  unfold dispatch. preserve.
Qed.

Lemma reachable_owned (w : Widget) : reachable w -> tickersOwned w.
Proof.
  induction 1 as [| w o _ IH _].
  - intros id; split; intros [].
  - apply (dispatch_owned o), IH.
Qed.

(** *** The duration clock *)

Lemma updateCallDuration_unanchored (now : Z) :
  preserves clockUnanchored (updateCallDuration now).
Proof.
  intros w (Hstart & Hdur & Hfmt). unfold clockUnanchored. on_record w.
  all: try discriminate; subst; tidy; auto.
Qed.
#[local] Hint Resolve updateCallDuration_unanchored : engine.

Lemma dispatch_unanchored (o : Occurrence) :
  observesCallConnected o = false -> preserves clockUnanchored (dispatch o).
Proof.
  destruct o as [now api [name [text | msg] | id | result | | | result | msg |]];
    try destruct name; try discriminate; intros _;
    unfold dispatch, listener; cbn [occ_event occ_now occ_toolkitApi]; preserve.
Qed.

(** C5. As long as no call-connected event has been taken in, the call
    duration is exactly zero and is displayed as 00:00:00, whatever the
    events before (any number of call-started events, ticks, record
    deliveries): the anchor [callStartTime] is still unset.  Loading the
    record never sets the anchor or the duration, whatever call-start
    timestamp the record carries. *)
Theorem duration_zero_before_connected (occurrences : list Occurrence) :
  forallb (fun o => negb (observesCallConnected o)) occurrences = true ->
  let w := run occurrences initial in
  (callStartTime w = None
   /\ callDuration w = 0
   /\ formattedCallDuration w = "00:00:00")
  /\ (forall now record this,
        let loaded := exec (processVoiceCallData now record) this in
        callStartTime loaded = callStartTime this
        /\ callDuration loaded = callDuration this
        /\ formattedCallDuration loaded = formattedCallDuration this).
Proof.
  intros Hnone. cbn zeta. split.
  - apply (run_preserves clockUnanchored).
    + intros o Hin. apply dispatch_unanchored.
      rewrite forallb_forall in Hnone. apply negb_true_iff, Hnone, Hin.
    + repeat split.
  - intros now record this.
    apply (preserves_exec
             (fun w => callStartTime w = callStartTime this
                       /\ callDuration w = callDuration this
                       /\ formattedCallDuration w = formattedCallDuration this)).
    + unfold processVoiceCallData. preserve.
    + repeat split.
Qed.

(** Only the duration tick writes [callDuration], and only on an active,
    anchored call. *)
Lemma updateCallDuration_idle (now : Z) (w : Widget) :
  isCallActive w = false \/ callStartTime w = None ->
  callDuration (exec (updateCallDuration now) w) = callDuration w.
Proof.
  intros H. on_record w; try reflexivity.
  all: destruct H; discriminate.
Qed.

Lemma dispatch_callDuration_idle (o : Occurrence) (w : Widget) :
  isCallActive w = false \/ callStartTime w = None ->
  callDuration (exec (dispatch o) w) = callDuration w.
Proof.
  intros Hidle.
  destruct o as [now api [name detail | id | result | | | result | msg |]];
    unfold dispatch; cbn [occ_event occ_now occ_toolkitApi].
  2: { unfold fireTimer, exec, bind, get. cbn [fst snd].
       destruct (find (fun t => Pos.eqb (fst t) id) (timers w)) as [[? []] |].
       - apply updateCallDuration_idle, Hidle.
       - apply (preserves_exec (fun w' => callDuration w' = callDuration w));
           [preserve | reflexivity].
       - apply (preserves_exec (fun w' => callDuration w' = callDuration w));
           [preserve | reflexivity].
       - reflexivity. }
  all: apply (preserves_exec (fun w' => callDuration w' = callDuration w));
    [unfold listener; preserve | reflexivity].
Qed.

Lemma dispatch_callStartTime (o : Occurrence) (w : Widget) :
  observesCallConnected o = false ->
  callStartTime (exec (dispatch o) w) = callStartTime w.
Proof.
  intros Hother.
  apply (preserves_exec (fun w' => callStartTime w' = callStartTime w));
    [| reflexivity].
  destruct o as [now api [name [text | msg] | id | result | | | result | msg |]];
    try destruct name; try discriminate;
    unfold dispatch, listener; cbn [occ_event occ_now occ_toolkitApi]; preserve.
Qed.

Lemma handleCallConnectedEvent_anchor (now : Z) (text : string) (w : Widget) :
  let w' := exec (handleCallConnectedEvent now (JsonOk text)) w in
  callStartTime w' = Some now /\ callStatus w' = "Connected".
Proof.
  cbn zeta. on_record w; split; reflexivity.
Qed.

(** *** The call status *)

Lemma handleCallStartedEvent_status (now : Z) (text : string) (w : Widget) :
  callStatus (exec (handleCallStartedEvent now (JsonOk text)) w) = "Incoming".
Proof. on_record w; reflexivity. Qed.

(** C1 (as amended). Once the call status is Ended, a hold, resume, mute,
    unmute, call-ended or hangup event (and every tick, record delivery and
    button action) leaves it Ended; a call-started event sets it to
    Incoming and a call-connected event sets it to Connected: the status
    has no terminal guard. *)
Theorem status_after_ended (w : Widget) (o : Occurrence) :
  callStatus w = "Ended" ->
  callStatus (exec (dispatch o) w)
  = match occ_event o with
    | Toolkit callstarted (JsonOk _) => "Incoming"
    | Toolkit callconnected (JsonOk _) => "Connected"
    | _ => "Ended"
    end.
Proof.
  intros Hended.
  assert (Hkept : forall o',
             match occ_event o' with
             | Toolkit callstarted (JsonOk _) => False
             | Toolkit callconnected (JsonOk _) => False
             | _ => True
             end ->
             preserves (fun w' => callStatus w' = "Ended") (dispatch o')).
  { intros [now api [name [text | msg] | id | result | | | result | msg |]];
      try destruct name; cbn [occ_event]; intros Hother; try contradiction;
      unfold dispatch, listener; cbn [occ_event occ_now occ_toolkitApi]; preserve. }
  destruct o as [now api [name [text | msg] | id | result | | | result | msg |]];
    try destruct name; cbn [occ_event];
    try (match goal with
         | |- callStatus (exec (dispatch ?o') _) = "Ended" =>
             exact (preserves_exec _ _ _ (Hkept o' I) Hended)
         end).
  - apply handleCallStartedEvent_status.
  - apply (handleCallConnectedEvent_anchor now text w).
Qed.

(** *** Finalisation *)

(** With no duration or hold ticker live, no interval callback touches the
    displayed duration or hold total: the values are frozen. *)
Lemma fireTimer_frozen (now : Z) (api : bool) (id : TimerId) (w : Widget) :
  noTicker DurationTick w -> noTicker HoldTick w ->
  let w' := exec (fireTimer now api id) w in
  callDuration w' = callDuration w
  /\ formattedCallDuration w' = formattedCallDuration w
  /\ totalHoldTime w' = totalHoldTime w
  /\ formattedTotalHoldTime w' = formattedTotalHoldTime w.
Proof.
  intros Hd Hh. cbn zeta. unfold fireTimer. rewrite exec_bind.
  change (eval (get timers) w) with (timers w).
  change (exec (get timers) w) with w.
  destruct (find (fun t => Pos.eqb (fst t) id) (timers w)) as [[id' kind] |] eqn:Hfind.
  - apply find_some in Hfind. destruct Hfind as [Hin _].
    destruct kind.
    + destruct (Hd id' Hin).
    + destruct (Hh id' Hin).
    + apply (preserves_exec
               (fun w' => callDuration w' = callDuration w
                          /\ formattedCallDuration w' = formattedCallDuration w
                          /\ totalHoldTime w' = totalHoldTime w
                          /\ formattedTotalHoldTime w' = formattedTotalHoldTime w));
        [preserve | repeat split].
  - repeat split.
Qed.

(** Closing the hold first and marking the call ended afterwards gives the
    state [finalizeCall] gives, the order of the debug entries apart. *)
Lemma finalizeCall_order (now : Z) (w : Widget) :
  withoutDebugLog (exec (finalizeCall now) w)
  = withoutDebugLog (exec (finalizeHoldFirst now) w).
Proof.
  unfold withoutDebugLog. on_record w; reflexivity.
Qed.

(** C3. A call-ended event processed while on hold closes the open hold
    session with the instant of the event as its end time and adds its
    duration to the accumulated total; the status is Ended, the end
    timestamp is recorded, the duration and hold tickers are stopped (no
    such ticker is live any more, so the last computed duration and hold
    total stay as they are), and [telephonyAvailable] is false.  The state
    is the one reached by closing the hold first and finalising after. *)
Theorem call_ended_while_on_hold (w : Widget) (now : Z) (text : string) :
  reachable w -> isOnHold w = true ->
  let w' := exec (handleCallEndedEvent now (JsonOk text)) w in
  exists t,
    currentHoldStart w = Some t
    /\ holdSessions w'
       = (holdSessions w
          ++ [{| sessionNumber := Z.of_nat (List.length (holdSessions w)) + 1;
                 startTime := toISOString t;
                 endTime := toISOString now;
                 duration := (now - t) / 1000 |}])%list
    /\ totalHoldTime w' = totalHoldTime w + (now - t) / 1000
    /\ isOnHold w' = false
    /\ currentHoldStart w' = None
    /\ callStatus w' = "Ended"
    /\ isCallActive w' = false
    /\ callEndDateTime w' = Some now
    /\ callDurationInterval w' = None
    /\ holdTimerInterval w' = None
    /\ noTicker DurationTick w'
    /\ noTicker HoldTick w'
    /\ callDuration w' = callDuration w
    /\ formattedCallDuration w' = formattedCallDuration w
    /\ formattedTotalHoldTime w'
       = formatTime (totalHoldTime w + (now - t) / 1000) false
    /\ (forall later api id,
          let w'' := exec (fireTimer later api id) w' in
          callDuration w'' = callDuration w'
          /\ formattedCallDuration w'' = formattedCallDuration w'
          /\ totalHoldTime w'' = totalHoldTime w'
          /\ formattedTotalHoldTime w'' = formattedTotalHoldTime w')
    /\ telephonyAvailable w' = false
    /\ withoutDebugLog (exec (finalizeCall now) w)
       = withoutDebugLog (exec (finalizeHoldFirst now) w).
Proof.
  intros Hreach Hon. cbn zeta.
  destruct (reachable_flag w Hreach) as [Hopen _].
  destruct (Hopen Hon) as (t & Hstart & Ht).
  pose proof (reachable_owned w Hreach) as Howned.
  pose proof (finalizeCall_order now w) as Horder.
  assert (Hnz : (t =? 0) = false) by (apply Z.eqb_neq; exact Ht).
  exists t. split; [exact Hstart |].
  assert (Hstop : noTicker DurationTick (exec (handleCallEndedEvent now (JsonOk text)) w)
                  /\ noTicker HoldTick (exec (handleCallEndedEvent now (JsonOk text)) w)).
  { clear Horder Hopen Hreach. unfold noTicker, tickersOwned in *.
    on_record w.
    all: split; intros id Hin; destruct (Howned id) as [Hd Hh];
      timer_table;
      try (specialize (Hd Hin)); try (specialize (Hh Hin)); congruence. }
  destruct Hstop as [Hnd Hnh].
  repeat match goal with
         | |- _ /\ _ => split
         end;
    try exact Hnd; try exact Hnh; try exact Horder;
    try (intros later api id; apply fireTimer_frozen; assumption).
  all: clear Horder Hopen Hreach Hnd Hnh Howned.
  all: on_record w; reflexivity.
Qed.

Lemma reachable_run (occurrences : list Occurrence) (w : Widget) :
  Forall (fun o => occ_now o <> 0) occurrences ->
  reachable w -> reachable (run occurrences w).
Proof.
  revert w. induction occurrences as [| o rest IH]; intros w Hclock Hw; [exact Hw |].
  inversion Hclock as [| ? ? Ho Hrest]; subst.
  cbn [run fold_left]. apply IH; [exact Hrest |].
  apply reachable_step; assumption.
Qed.

(** ** Further properties of the engine *)

(** *** The debug log *)

Lemma addDebugMessage_keeps_bound (now : Z) (message : string) :
  preserves (fun w => (List.length (debugMessages w) <= 50)%nat)
    (addDebugMessage now message).
Proof. intros w H. apply (addDebugMessage_bounded now message w H). Qed.

(** [preserve], for a property that reads the debug log. *)
Ltac preserve_log_step :=
  lazymatch goal with
  | |- preserves _ (bind _ _) => apply preserves_bind; [| intros ?]
  | |- preserves _ (ret _) => apply preserves_ret
  | |- preserves _ (get _) => apply preserves_get
  | |- preserves _ (addDebugMessage _ _) => apply addDebugMessage_keeps_bound
  | |- preserves _ (put _) => intros [] ?; first [assumption | reflexivity]
  | |- preserves _ (if ?c then _ else _) => destruct c
  | |- preserves _ (match ?x with _ => _ end) => destruct x
  | |- preserves _ ?m =>
      let h := head_of m in
      lazymatch h with
      | match ?x with _ => _ end => destruct x
      | _ => unfold h
      end
  end.
Ltac preserve_log := repeat preserve_log_step.

(** X1. The debug log never holds more than 50 entries, whatever events
    arrive, and the entry of the latest message is its first element. *)
Theorem debug_log_is_bounded (occurrences : list Occurrence) :
  (List.length (debugMessages (run occurrences initial)) <= 50)%nat
  /\ (forall now message w,
        hd_error (debugMessages (exec (addDebugMessage now message) w))
        = Some ("[" ++ toISOString now ++ "] " ++ message)).
Proof.
  split.
  - apply (run_preserves (fun w => (List.length (debugMessages w) <= 50)%nat)).
    + intros o _. unfold dispatch, listener. preserve_log.
    + cbn. lia.
  - intros now message w. unfold exec. rewrite addDebugMessage_effect.
    destruct w; cbn -[Nat.ltb append].
    match goal with |- context [Nat.ltb ?a ?b] => destruct (Nat.ltb a b) end;
      reflexivity.
Qed.

(** *** The call status and what the controls show *)

Lemma status_set_agrees (w : Widget) (status : string) (active : bool) :
  callStatus w = status /\ isCallActive w = active ->
  (status = "No Call" /\ active = false)
  \/ (status = "Incoming" /\ active = true)
  \/ (status = "Connected" /\ active = true)
  \/ (status = "Ended" /\ active = false) ->
  statusAgrees w.
Proof. intros [<- <-] H. exact H. Qed.

Lemma handleCallStartedEvent_agrees (now : Z) (detail : Stringified) :
  preserves statusAgrees (handleCallStartedEvent now detail).
Proof.
  destruct detail as [text | message].
  - intros w _.
    apply (status_set_agrees _ "Incoming" true); [| auto].
    change (callStatus (exec (handleCallStartedEvent now (JsonOk text)) w) = "Incoming"
            /\ isCallActive (exec (handleCallStartedEvent now (JsonOk text)) w) = true).
    on_record w; split; reflexivity.
  - unfold handleCallStartedEvent. preserve.
Qed.

Lemma handleCallStarted_agrees (now : Z) :
  preserves statusAgrees (handleCallStarted now).
Proof.
  intros w _.
  apply (status_set_agrees _ "Connected" true); [| auto].
  change (callStatus (exec (handleCallStarted now) w) = "Connected"
          /\ isCallActive (exec (handleCallStarted now) w) = true).
  on_record w; split; reflexivity.
Qed.

Lemma finalizeCall_agrees (now : Z) :
  preserves statusAgrees (finalizeCall now).
Proof.
  intros w _.
  apply (status_set_agrees _ "Ended" false); [| auto 6].
  change (callStatus (exec (finalizeCall now) w) = "Ended"
          /\ isCallActive (exec (finalizeCall now) w) = false).
  on_record w; split; reflexivity.
Qed.
#[local] Hint Resolve handleCallStartedEvent_agrees handleCallStarted_agrees
  finalizeCall_agrees : engine.

Lemma dispatch_agrees (o : Occurrence) : preserves statusAgrees (dispatch o).
Proof. unfold dispatch, listener. preserve. Qed.

Lemma run_agrees (occurrences : list Occurrence) :
  statusAgrees (run occurrences initial).
Proof.
  apply (run_preserves statusAgrees).
  - intros o _. apply dispatch_agrees.
  - left. split; reflexivity.
Qed.

(** X2. After any sequence of events the status is No Call, Incoming,
    Connected or Ended, never On Hold, and the call is flagged active
    exactly when the status is Incoming or Connected; so the status badge
    is never the warning one. *)
Theorem status_and_active_flag_agree (occurrences : list Occurrence) :
  let w := run occurrences initial in
  In (callStatus w) ["No Call"; "Incoming"; "Connected"; "Ended"]
  /\ callStatus w <> "On Hold"
  /\ (isCallActive w = true
      <-> callStatus w = "Incoming" \/ callStatus w = "Connected")
  /\ statusBadgeClass w <> "slds-badge slds-badge_warning".
Proof.
  cbn zeta. pose proof (run_agrees occurrences) as H.
  unfold statusBadgeClass.
  destruct H as [[Hs Ha] | [[Hs Ha] | [[Hs Ha] | [Hs Ha]]]];
    rewrite Hs, Ha; cbn; repeat split;
    try (intros; discriminate);
    try (intros [? | ?]; discriminate);
    tauto.
Qed.

(** X3. After any sequence of events the controls are shown exactly when
    the page has a record, telephony is available and the call is flagged
    active. *)
Theorem controls_shown_iff_active (occurrences : list Occurrence)
    (recordId : option string) :
  let w := run occurrences initial in
  shouldShowControls recordId w
  = truthyString (valueOf recordId) && telephonyAvailable w && isCallActive w.
Proof.
  cbn zeta. pose proof (run_agrees occurrences) as H.
  unfold shouldShowControls.
  destruct H as [[Hs Ha] | [[Hs Ha] | [[Hs Ha] | [Hs Ha]]]];
    rewrite Hs, Ha; cbn;
    destruct (truthyString (valueOf recordId)),
      (telephonyAvailable (run occurrences initial)); reflexivity.
Qed.

(** *** The timer table *)

Lemma fresh_cleared (next cleared : TimerId) (live : list (TimerId * TimerKind)) :
  NoDup (map fst live) /\ Forall (fun t => (fst t < next)%positive) live ->
  NoDup (map fst (filter (fun t => negb (Pos.eqb (fst t) cleared)) live))
  /\ Forall (fun t => (fst t < next)%positive)
       (filter (fun t => negb (Pos.eqb (fst t) cleared)) live).
Proof.
  intros [Hnd Hlt]. split.
  - induction live as [| t rest IH]; [constructor |].
    cbn [filter map] in *. inversion Hnd as [| ? ? Hnotin Hrest]; subst.
    inversion Hlt as [| ? ? _ Hlt']; subst.
    match goal with
    | |- context [if ?c then _ else _] => destruct c; [| apply IH; assumption]
    end.
    cbn [map]. constructor; [| apply IH; assumption].
    intros Hin. apply Hnotin. apply in_map_iff in Hin.
    destruct Hin as (t' & Hfst & Hin'). apply filter_In in Hin'.
    apply in_map_iff. exists t'. tauto.
  - apply Forall_forall. intros t Hin. apply filter_In in Hin.
    rewrite Forall_forall in Hlt. apply Hlt, Hin.
Qed.

Lemma fresh_registered (next : TimerId) (kind : TimerKind)
    (live : list (TimerId * TimerKind)) :
  NoDup (map fst live) /\ Forall (fun t => (fst t < next)%positive) live ->
  NoDup (map fst (live ++ [(next, kind)]))
  /\ Forall (fun t => (fst t < Pos.succ next)%positive) (live ++ [(next, kind)]).
Proof.
  intros [Hnd Hlt]. rewrite Forall_forall in Hlt. split.
  - rewrite map_app. cbn [map fst].
    apply NoDup_app; [exact Hnd | repeat constructor; intros [] |].
    intros id Hin [<- | []]. apply in_map_iff in Hin.
    destruct Hin as (t & Hfst & Hin). specialize (Hlt t Hin).
    unfold TimerId in *. cbn beta in Hlt. rewrite Hfst in Hlt. lia.
  - apply Forall_forall. intros t Hin. apply in_app_or in Hin.
    destruct Hin as [Hin | [<- | []]].
    + specialize (Hlt t Hin). cbn beta in *. lia.
    + cbn. lia.
Qed.

Lemma fresh_one_kind (id : TimerId) (k k' : TimerKind)
    (live : list (TimerId * TimerKind)) :
  NoDup (map fst live) -> In (id, k) live -> In (id, k') live -> k = k'.
Proof.
  induction live as [| t rest IH]; intros Hnd H1 H2; [destruct H1 |].
  cbn [map] in Hnd. inversion Hnd as [| ? ? Hnotin Hrest]; subst.
  destruct H1 as [-> | H1], H2 as [E | H2].
  - congruence.
  - exfalso. apply Hnotin. apply in_map_iff. exists (id, k'). auto.
  - subst t. exfalso. apply Hnotin. apply in_map_iff. exists (id, k). auto.
  - apply IH; assumption.
Qed.

Lemma fresh_below_next (id next : TimerId) (k : TimerKind)
    (live : list (TimerId * TimerKind)) :
  Forall (fun t => (fst t < next)%positive) live -> In (id, k) live -> id <> next.
Proof.
  intros Hlt Hin. rewrite Forall_forall in Hlt. specialize (Hlt _ Hin).
  cbn in Hlt. lia.
Qed.

Lemma In_registered (id next : TimerId) (k kind : TimerKind)
    (live : list (TimerId * TimerKind)) :
  In (id, k) (live ++ [(next, kind)]) <-> In (id, k) live \/ (id = next /\ k = kind).
Proof.
  rewrite in_app_iff. cbn [In]. split.
  - intros [H | [H | []]]; [left; exact H | right; inversion H; auto].
  - intros [H | [-> ->]]; auto.
Qed.

Lemma setInterval_fresh (kind : TimerKind) : preserves timersFresh (setInterval kind).
Proof.
  intros [] H. unfold timersFresh in *. cbn in *.
  apply fresh_registered. exact H.
Qed.

Lemma clearInterval_fresh (id : TimerId) : preserves timersFresh (clearInterval id).
Proof.
  intros [] H. unfold timersFresh in *. cbn in *.
  apply fresh_cleared. exact H.
Qed.
#[local] Hint Resolve setInterval_fresh clearInterval_fresh : engine.

Lemma dispatch_fresh (o : Occurrence) : preserves timersFresh (dispatch o).
Proof. unfold dispatch, listener. preserve. Qed.

Ltac use_tracked :=
  repeat match goal with
         | H : forall id : TimerId, Some ?t = Some id -> _ |- _ =>
             specialize (H t eq_refl)
         | H : forall id : TimerId, None = Some id -> _ |- _ => clear H
         | H : _ /\ _ |- _ => destruct H
         end.

Ltac distinct_ids :=
  match goal with
  | Hnd : NoDup (map fst ?l), H1 : In (?i, ?k1) ?l, H2 : In (?i, ?k2) ?l |- _ =>
      pose proof (fresh_one_kind i k1 k2 l Hnd H1 H2); discriminate
  | Hlt : Forall _ ?l, H1 : In (?i, _) ?l |- _ =>
      exfalso; apply (fresh_below_next _ _ _ _ Hlt H1); reflexivity
  end.

Ltac still_live :=
  repeat match goal with
         | |- In _ (filter _ _) => apply In_cleared; split
         | |- In _ (_ ++ [_]) =>
             apply In_registered; first [right; split; reflexivity | left]
         | |- In _ _ => assumption
         | |- _ <> _ => intros ->; distinct_ids
         end.

(** The tracked part of [timersSound], for a method that writes the
    fields it reads. *)
Ltac tracked w :=
  let cdi := fresh "durationTicker" in
  let hti := fresh "holdTicker" in
  let tci := fresh "pollTicker" in
  unfold timersFresh, tickersTracked in *;
  destruct w as [? ? ? ? ? ? ? cdi ? ? ? ? ? hti ? ? ? ? ? ? tci ? ? ? ? ?];
  tidy in *; destruct cdi, hti, tci; use_tracked; subst;
  methods; plumbing; tidy; logs; branches;
  (split; [| split]); intros ? E; try discriminate E; inversion E; subst;
  repeat split; try congruence; still_live.

Lemma sound_parts {A : Type} (m : Method A) :
  preserves timersFresh m -> preserves tickersOwned m ->
  (forall w, timersFresh w -> tickersTracked w -> tickersTracked (snd (m w))) ->
  preserves timersSound m.
Proof.
  intros Hf Ho Ht w (Hfresh & Howned & Htracked).
  split; [apply Hf, Hfresh | split; [apply Ho, Howned | apply Ht; assumption]].
Qed.

Lemma startHoldTimer_sound (now : Z) : preserves timersSound (startHoldTimer now).
Proof.
  apply sound_parts; [unfold startHoldTimer; preserve | auto with engine |].
  intros w Hf Ht. tracked w.
Qed.

Lemma endHoldTimer_sound (now : Z) : preserves timersSound (endHoldTimer now).
Proof.
  apply sound_parts; [unfold endHoldTimer; preserve | auto with engine |].
  intros w Hf Ht. tracked w.
Qed.

Lemma resetHoldTimer_sound : preserves timersSound resetHoldTimer.
Proof.
  apply sound_parts; [unfold resetHoldTimer; preserve | auto with engine |].
  intros w Hf Ht. tracked w.
Qed.

Lemma cleanupTimers_sound : preserves timersSound cleanupTimers.
Proof.
  apply sound_parts; [unfold cleanupTimers; preserve | auto with engine |].
  intros w Hf Ht. tracked w.
Qed.

Lemma stopToolkitPolling_sound : preserves timersSound stopToolkitPolling.
Proof.
  apply sound_parts; [unfold stopToolkitPolling; preserve | auto with engine |].
  intros w Hf Ht. tracked w.
Qed.

Lemma startToolkitPolling_sound (now : Z) :
  preserves timersSound (startToolkitPolling now).
Proof.
  apply sound_parts; [unfold startToolkitPolling; preserve | auto with engine |].
  intros w Hf Ht. tracked w.
Qed.

Lemma handleCallStarted_sound (now : Z) : preserves timersSound (handleCallStarted now).
Proof.
  apply sound_parts; [unfold handleCallStarted; preserve
                     | unfold handleCallStarted; preserve |].
  intros w Hf Ht. tracked w.
Qed.

Lemma finalizeCall_sound (now : Z) : preserves timersSound (finalizeCall now).
Proof.
  apply sound_parts; [unfold finalizeCall; preserve | unfold finalizeCall; preserve |].
  intros w Hf Ht. tracked w.
Qed.

Lemma handleCallStartedEvent_sound (now : Z) (detail : Stringified) :
  preserves timersSound (handleCallStartedEvent now detail).
Proof.
  apply sound_parts; [unfold handleCallStartedEvent; preserve
                     | unfold handleCallStartedEvent; preserve |].
  intros w Hf Ht. destruct detail; tracked w.
Qed.
#[local] Hint Resolve startHoldTimer_sound endHoldTimer_sound resetHoldTimer_sound
  cleanupTimers_sound stopToolkitPolling_sound startToolkitPolling_sound
  handleCallStarted_sound finalizeCall_sound handleCallStartedEvent_sound : engine.

Lemma dispatch_sound (o : Occurrence) : preserves timersSound (dispatch o).
Proof. unfold dispatch, listener. preserve. Qed.

Lemma run_sound (occurrences : list Occurrence) :
  timersSound (run occurrences initial).
Proof.
  apply (run_preserves timersSound).
  - intros o _. apply dispatch_sound.
  - repeat split; try (intros; discriminate); try constructor.
    all: intros [].
Qed.

(** *** The displayed call duration *)

(** A duration tick on an active, anchored call shows the seconds elapsed
    since the anchor. *)
Lemma updateCallDuration_active (now t : Z) (w : Widget) :
  isCallActive w = true -> callStartTime w = Some t ->
  formattedCallDuration (exec (updateCallDuration now) w)
  = formatTime ((now - t) / 1000) true.
Proof.
  intros Hactive Hstart. on_record w; reflexivity.
Qed.

(** Only the duration tick writes [formattedCallDuration], and its
    interval is live only on an active, anchored call. *)
Lemma dispatch_display (o : Occurrence) (w : Widget) :
  timersSound w ->
  formattedCallDuration (exec (dispatch o) w) <> formattedCallDuration w ->
  isCallActive w = true
  /\ exists t,
       callStartTime w = Some t
       /\ formattedCallDuration (exec (dispatch o) w)
          = formatTime ((occ_now o - t) / 1000) true.
Proof.
  intros (_ & Howned & Hduration & _) Hchanged.
  destruct o as [now api [name detail | id | result | | | result | msg |]];
    unfold dispatch in *; cbn [occ_event occ_now occ_toolkitApi] in *.
  2: { unfold fireTimer, exec, bind, get in *. cbn [fst snd] in *.
       destruct (find (fun t => Pos.eqb (fst t) id) (timers w))
         as [[i []] |] eqn:Hfound.
       - apply find_some in Hfound. destruct Hfound as [Hlive _].
         destruct (Howned i) as [Hfield _].
         destruct (Hduration i (Hfield Hlive)) as (_ & Hactive & Hanchored).
         split; [exact Hactive |].
         destruct (callStartTime w) as [t |] eqn:Hstart; [| contradiction].
         exists t. split; [reflexivity |].
         apply (updateCallDuration_active now t w Hactive Hstart).
       - exfalso. apply Hchanged.
         apply (preserves_exec
                  (fun w' => formattedCallDuration w' = formattedCallDuration w));
           [preserve | reflexivity].
       - exfalso. apply Hchanged.
         apply (preserves_exec
                  (fun w' => formattedCallDuration w' = formattedCallDuration w));
           [preserve | reflexivity].
       - exfalso. apply Hchanged. reflexivity. }
  all: exfalso; apply Hchanged;
    apply (preserves_exec
             (fun w' => formattedCallDuration w' = formattedCallDuration w));
    [unfold listener; preserve | reflexivity].
Qed.

(** C2 (as amended). Every call-connected event sets the anchor
    [callStartTime] to the instant it is processed, also when an anchor is
    already set; no other event writes the anchor.  The displayed duration
    only advances while the call is active and the anchor is set: after
    any sequence of events, an event that changes
    [formattedCallDuration] finds the call active and anchored, and what
    it displays is the time elapsed since the anchor.  The stored
    [callDuration], too, only changes on an active, anchored call. *)
Theorem anchor_set_by_each_connected
    (w : Widget) (o : Occurrence) (occurrences : list Occurrence) :
  (forall now text,
      callStartTime (exec (handleCallConnectedEvent now (JsonOk text)) w) = Some now)
  /\ (observesCallConnected o = false ->
      callStartTime (exec (dispatch o) w) = callStartTime w)
  /\ (callDuration (exec (dispatch o) w) <> callDuration w ->
      isCallActive w = true /\ exists t, callStartTime w = Some t)
  /\ (let this := run occurrences initial in
      formattedCallDuration (exec (dispatch o) this) <> formattedCallDuration this ->
      isCallActive this = true
      /\ exists t,
           callStartTime this = Some t
           /\ formattedCallDuration (exec (dispatch o) this)
              = formatTime ((occ_now o - t) / 1000) true).
Proof.
  split; [| split; [| split]].
  - intros now text. apply handleCallConnectedEvent_anchor.
  - apply dispatch_callStartTime.
  - intros Hchanged.
    destruct (isCallActive w) eqn:Hactive.
    + destruct (callStartTime w) as [t |] eqn:Hstart.
      * split; [reflexivity | exists t; reflexivity].
      * exfalso. apply Hchanged, dispatch_callDuration_idle. right. exact Hstart.
    + exfalso. apply Hchanged, dispatch_callDuration_idle. left. exact Hactive.
  - cbv zeta. apply dispatch_display, run_sound.
Qed.

Lemma sameKind_eq (a b : TimerKind) : sameKind a b = true <-> a = b.
Proof. destruct a, b; cbn; split; intros H; try reflexivity; discriminate. Qed.

Lemma no_ticker_of_kind (kind : TimerKind) (live : list (TimerId * TimerKind)) :
  (forall id, ~ In (id, kind) live) ->
  filter (fun t => sameKind (snd t) kind) live = [].
Proof.
  induction live as [| [i k] rest IH]; intros Hnone; [reflexivity |].
  cbn [filter snd]. destruct (sameKind k kind) eqn:E.
  - apply sameKind_eq in E. subst k. destruct (Hnone i). left. reflexivity.
  - apply IH. intros id Hin. apply (Hnone id). right. exact Hin.
Qed.

Lemma one_ticker_of_kind (kind : TimerKind) (id : TimerId)
    (live : list (TimerId * TimerKind)) :
  NoDup (map fst live) ->
  (forall id', In (id', kind) live -> id' = id) ->
  In (id, kind) live ->
  filter (fun t => sameKind (snd t) kind) live = [(id, kind)].
Proof.
  induction live as [| [i k] rest IH]; intros Hnd Hall Hin; [destruct Hin |].
  cbn [map fst] in Hnd. inversion Hnd as [| ? ? Hnotin Hrest]; subst.
  cbn [filter snd]. destruct (sameKind k kind) eqn:E.
  - apply sameKind_eq in E. subst k.
    assert (i = id) by (apply Hall; left; reflexivity). subst i.
    rewrite no_ticker_of_kind; [reflexivity |].
    intros id' Hin'. assert (id' = id) by (apply Hall; right; exact Hin'). subst id'.
    apply Hnotin. apply in_map_iff. exists (id, kind). auto.
  - destruct Hin as [Heq | Hin].
    + inversion Heq; subst. destruct kind; discriminate.
    + apply IH; [exact Hrest | | exact Hin].
      intros id' Hin'. apply Hall. right. exact Hin'.
Qed.

(** X4. After any sequence of events, the live duration tickers are
    exactly the one interval [callDurationInterval] names (none when it is
    null), and the live hold tickers exactly the one [holdTimerInterval]
    names: no ticker is registered twice and none is left running
    untracked. *)
Theorem one_ticker_of_each_kind (occurrences : list Occurrence) :
  let w := run occurrences initial in
  tickersOf DurationTick w
  = match callDurationInterval w with
    | Some id => [(id, DurationTick)]
    | None => []
    end
  /\ tickersOf HoldTick w
     = match holdTimerInterval w with
       | Some id => [(id, HoldTick)]
       | None => []
       end.
Proof.
  cbn zeta. destruct (run_sound occurrences) as ((Hnd & _) & Howned & Hd & Hh & _).
  unfold tickersOf. split.
  - destruct (callDurationInterval (run occurrences initial)) as [id |] eqn:E.
    + apply one_ticker_of_kind; [exact Hnd | | apply (Hd id eq_refl)].
      intros id' Hin. destruct (Howned id') as [Ho _]. specialize (Ho Hin).
      congruence.
    + apply no_ticker_of_kind. intros id Hin. destruct (Howned id) as [Ho _].
      specialize (Ho Hin). congruence.
  - destruct (holdTimerInterval (run occurrences initial)) as [id |] eqn:E.
    + apply one_ticker_of_kind; [exact Hnd | | apply (Hh id eq_refl)].
      intros id' Hin. destruct (Howned id') as [_ Ho]. specialize (Ho Hin).
      congruence.
    + apply no_ticker_of_kind. intros id Hin. destruct (Howned id) as [_ Ho].
      specialize (Ho Hin). congruence.
Qed.

(** X5. After any sequence of events, a live hold ticker means the
    component is on hold, and a live duration ticker means the call is
    flagged active and the duration clock is anchored. *)
Theorem live_ticker_has_its_state (occurrences : list Occurrence) :
  let w := run occurrences initial in
  (tickersOf HoldTick w <> [] -> isOnHold w = true)
  /\ (tickersOf DurationTick w <> [] ->
      isCallActive w = true /\ exists t, callStartTime w = Some t).
Proof.
  cbn zeta. destruct (run_sound occurrences) as (_ & Howned & Hd & Hh & _).
  assert (Hsome : forall kind,
             tickersOf kind (run occurrences initial) <> [] ->
             exists id, In (id, kind) (timers (run occurrences initial))).
  { intros kind Hlive. unfold tickersOf in Hlive.
    destruct (filter (fun t => sameKind (snd t) kind)
                (timers (run occurrences initial))) as [| [id k] rest] eqn:E;
      [contradiction |].
    assert (Hin : In (id, k) ((id, k) :: rest)) by (left; reflexivity).
    rewrite <- E in Hin. apply filter_In in Hin. destruct Hin as [Hin Hk].
    apply sameKind_eq in Hk. cbn in Hk. subst k. exists id. exact Hin. }
  split; intros Hlive; destruct (Hsome _ Hlive) as [id Hin];
    destruct (Howned id) as [Hod Hoh].
  - apply (Hh id), Hoh, Hin.
  - destruct (Hd id (Hod Hin)) as (_ & Ha & Hs). split; [exact Ha |].
    destruct (callStartTime (run occurrences initial)) as [t |];
      [exists t; reflexivity | contradiction].
Qed.

Lemma disconnectedCallback_clears (w : Widget) :
  let w' := exec disconnectedCallback w in
  callDurationInterval w' = None /\ holdTimerInterval w' = None
  /\ toolkitCheckInterval w' = None.
Proof. cbn zeta. on_record w; repeat split. Qed.

Lemma finalizeCall_clears (now : Z) (w : Widget) :
  let w' := exec (finalizeCall now) w in
  callDurationInterval w' = None /\ holdTimerInterval w' = None
  /\ toolkitCheckInterval w' = None.
Proof. cbn zeta. on_record w; repeat split. Qed.

Lemma sound_and_cleared (w : Widget) :
  timersSound w ->
  callDurationInterval w = None -> holdTimerInterval w = None ->
  tickersOf DurationTick w = [] /\ tickersOf HoldTick w = [].
Proof.
  intros (_ & Howned & _) Hd Hh. unfold tickersOf.
  split; apply no_ticker_of_kind; intros id Hin; destruct (Howned id) as [Hod Hoh].
  - specialize (Hod Hin). congruence.
  - specialize (Hoh Hin). congruence.
Qed.

(** X6. Detaching the component and ending the call (by a call-ended or
    hangup event, or by an end-call click the toolkit answers at once)
    each leave no duration ticker and no hold ticker live, after whatever
    events came before, and null the three interval fields. *)
Theorem tickers_stopped_on_teardown
    (occurrences : list Occurrence) (now : Z) (text : string) :
  let w := run occurrences initial in
  let stopped w' :=
    tickersOf DurationTick w' = [] /\ tickersOf HoldTick w' = []
    /\ callDurationInterval w' = None /\ holdTimerInterval w' = None
    /\ toolkitCheckInterval w' = None in
  stopped (exec disconnectedCallback w)
  /\ stopped (exec (listener callended now (JsonOk text)) w)
  /\ stopped (exec (listener hangup now (JsonOk text)) w)
  /\ stopped (exec (handleEndCall now true EndCallPlain) w).
Proof.
  cbn zeta. pose proof (run_sound occurrences) as Hsound.
  assert (Hstop : forall w',
             timersSound w' ->
             callDurationInterval w' = None /\ holdTimerInterval w' = None
             /\ toolkitCheckInterval w' = None ->
             tickersOf DurationTick w' = [] /\ tickersOf HoldTick w' = []
             /\ callDurationInterval w' = None /\ holdTimerInterval w' = None
             /\ toolkitCheckInterval w' = None).
  { intros w' Hs (Hd & Hh & Hp).
    destruct (sound_and_cleared w' Hs Hd Hh) as [H1 H2]. auto. }
  assert (Hlogged : forall message w',
             timersSound w' ->
             timersSound (exec (addDebugMessage now message) w')).
  { intros message w' Hs. apply preserves_exec; [preserve | exact Hs]. }
  assert (Hended : forall message,
             let w' := exec (finalizeCall now)
                         (exec (addDebugMessage now message)
                            (run occurrences initial)) in
             tickersOf DurationTick w' = [] /\ tickersOf HoldTick w' = []
             /\ callDurationInterval w' = None /\ holdTimerInterval w' = None
             /\ toolkitCheckInterval w' = None).
  { intros message. cbn zeta. apply Hstop.
    - apply preserves_exec; [apply finalizeCall_sound | apply Hlogged, Hsound].
    - apply finalizeCall_clears. }
  split; [| split; [| split]].
  - apply Hstop.
    + apply preserves_exec; [unfold disconnectedCallback; preserve | exact Hsound].
    + apply disconnectedCallback_clears.
  - cbn [listener]. unfold handleCallEndedEvent. rewrite exec_bind. apply Hended.
  - cbn [listener]. unfold handleCallEndedEvent. rewrite exec_bind. apply Hended.
  - unfold handleEndCall. cbn [negb]. rewrite exec_bind, exec_bind.
    apply Hstop.
    + apply preserves_exec; [apply finalizeCall_sound |].
      apply Hlogged, Hlogged, Hsound.
    + apply finalizeCall_clears.
Qed.

(** *** The displayed hold total *)

Lemma withoutDebugLog_display (w w' : Widget) :
  withoutDebugLog w' = withoutDebugLog w ->
  formattedTotalHoldTime w' = formattedTotalHoldTime w
  /\ holdColorClass w' = holdColorClass w.
Proof.
  destruct w, w'; unfold withoutDebugLog; cbn.
  intros E; injection E; intros; subst; split; reflexivity.
Qed.

Lemma startHoldTimer_in_sync (now : Z) : preserves displayInSync (startHoldTimer now).
Proof.
  intros w H. change (displayInSync (exec (startHoldTimer now) w)).
  destruct (isOnHold w) eqn:Hon.
  - pose proof (startHoldTimer_on_hold now w Hon) as E.
    apply withoutDebugLog_holdState, holdState_fields in E.
    destruct E as (_ & Ef & _). intros Hoff. congruence.
  - pose proof (startHoldTimer_opens now w Hon) as E.
    apply holdState_inv in E. destruct E as (_ & Ef & _).
    intros Hoff. congruence.
Qed.

Lemma endHoldTimer_in_sync (now : Z) : preserves displayInSync (endHoldTimer now).
Proof.
  intros w H. change (displayInSync (exec (endHoldTimer now) w)).
  destruct (hold_guard w) as [Hidle | (t & Hon & Hs & Ht)].
  - pose proof (endHoldTimer_not_on_hold now w Hidle) as E.
    destruct (withoutDebugLog_display _ _ E) as [Ef Ec].
    apply withoutDebugLog_holdState, holdState_fields in E.
    destruct E as (_ & Eh & Et & _).
    unfold displayInSync. rewrite Ef, Ec, Eh, Et. exact H.
  - destruct (endHoldTimer_closes now t w Hon Hs Ht) as (E & _ & Hf & Hc).
    apply holdState_inv in E. destruct E as (_ & _ & Et & _).
    intros _. rewrite Hf, Hc, Et. split; reflexivity.
Qed.

Lemma resetHoldTimer_in_sync : preserves displayInSync resetHoldTimer.
Proof. intros w _ _. on_record w; split; reflexivity. Qed.

Lemma updateHoldDisplayTimer_in_sync (now : Z) :
  preserves displayInSync (updateHoldDisplayTimer now).
Proof.
  intros w H. change (displayInSync (exec (updateHoldDisplayTimer now) w)).
  unfold displayInSync in *. on_record w; intros Hoff; try discriminate; auto.
Qed.
#[local] Hint Resolve startHoldTimer_in_sync endHoldTimer_in_sync
  resetHoldTimer_in_sync updateHoldDisplayTimer_in_sync : engine.

Lemma dispatch_in_sync (o : Occurrence) : preserves displayInSync (dispatch o).
Proof. unfold dispatch, listener. preserve. Qed.

(** X7. After any sequence of events, while no hold is open the displayed
    hold total and its colour class are those of the accumulated
    [totalHoldTime]; and a hold display tick on an open hold shows what
    [getTotalHoldTime] returns at that instant. *)
Theorem hold_display_follows_total (occurrences : list Occurrence) :
  let w := run occurrences initial in
  (isOnHold w = false ->
   formattedTotalHoldTime w = formatTime (totalHoldTime w) false
   /\ holdColorClass w = getHoldColorClass (totalHoldTime w))
  /\ (forall now t this,
        isOnHold this = true -> currentHoldStart this = Some t -> t <> 0 ->
        let shown := exec (updateHoldDisplayTimer now) this in
        formattedTotalHoldTime shown
        = formatTime (eval (getTotalHoldTime now) this) false
        /\ holdColorClass shown
           = getHoldColorClass (eval (getTotalHoldTime now) this)).
Proof.
  cbn zeta. split.
  - apply (run_preserves displayInSync).
    + intros o _. apply dispatch_in_sync.
    + intros _. split; reflexivity.
  - intros now t this Hon Hs Ht.
    destruct (updateHoldDisplayTimer_open now t this Hon Hs Ht) as (Hf & Hc & _).
    assert (E : eval (getTotalHoldTime now) this
                = totalHoldTime this + (now - t) / 1000).
    { unfold getTotalHoldTime, getCurrentHoldTime. plumbing. tidy.
      rewrite Hon, Hs. tidy.
      destruct (Z.eqb_spec t 0); [contradiction | reflexivity]. }
    rewrite E. split; assumption.
Qed.

(** *** The hold accounting under a clock that does not go back *)

Lemma holdClock_later (clock later : Z) (w : Widget) :
  clock <= later -> holdClock clock w -> holdClock later w.
Proof.
  intros Hle (Hstart & Hs & Ht). repeat split; try assumption.
  intros t E. specialize (Hstart t E). lia.
Qed.

Lemma startHoldTimer_total (now floor : Z) :
  preserves (totalAtLeast floor now) (startHoldTimer now).
Proof.
  intros w ((Hstart & Hs & Ht) & Hfloor).
  change (totalAtLeast floor now (exec (startHoldTimer now) w)).
  assert (E : exists start flag,
             holdState (exec (startHoldTimer now) w)
             = (start, flag, totalHoldTime w, holdSessions w)
             /\ forall t, start = Some t -> t <= now).
  { destruct (isOnHold w) eqn:Hon.
    - exists (currentHoldStart w), (isOnHold w). split; [| exact Hstart].
      apply (withoutDebugLog_holdState _ _ (startHoldTimer_on_hold now w Hon)).
    - exists (Some now), true. split; [apply startHoldTimer_opens, Hon |].
      intros t E. inversion E. lia. }
  destruct E as (start & flag & E & Hle).
  apply holdState_inv in E. destruct E as (Es & _ & Et & El).
  unfold totalAtLeast, holdClock. rewrite Es, Et, El. auto.
Qed.

Lemma endHoldTimer_total (now floor : Z) :
  preserves (totalAtLeast floor now) (endHoldTimer now).
Proof.
  intros w ((Hstart & Hs & Ht) & Hfloor).
  change (totalAtLeast floor now (exec (endHoldTimer now) w)).
  destruct (hold_guard w) as [Hidle | (t & Hon & Hst & Hnz)].
  - pose proof (withoutDebugLog_holdState _ _ (endHoldTimer_not_on_hold now w Hidle)) as E.
    apply holdState_fields in E. destruct E as (Es & _ & Et & El).
    unfold totalAtLeast, holdClock. rewrite Es, Et, El. auto.
  - destruct (endHoldTimer_closes now t w Hon Hst Hnz) as [E _].
    apply holdState_inv in E. destruct E as (Es & _ & Et & El).
    assert (Hheld : 0 <= (now - t) / 1000).
    { apply Z.div_pos; [| lia]. specialize (Hstart t Hst). lia. }
    unfold totalAtLeast, holdClock. rewrite Es, Et, El. repeat split.
    + discriminate.
    + apply Forall_app. split; [exact Hs |]. constructor; [exact Hheld | constructor].
    + lia.
    + lia.
Qed.
#[local] Hint Resolve startHoldTimer_total endHoldTimer_total : engine.

Lemma resetHoldTimer_clock (clock : Z) : preserves (holdClock clock) resetHoldTimer.
Proof.
  intros w _. on_record w; repeat split; try discriminate; try constructor;
    discriminate.
Qed.

Lemma dispatch_total (o : Occurrence) (floor : Z) :
  resetsHold o = false ->
  preserves (totalAtLeast floor (occ_now o)) (dispatch o).
Proof.
  destruct o as [now api [name [text | msg] | id | result | | | result | msg |]];
    try destruct name; try discriminate; intros _;
    unfold dispatch, listener; cbn [occ_event occ_now occ_toolkitApi]; preserve.
Qed.

Lemma dispatch_clock (o : Occurrence) :
  preserves (holdClock (occ_now o)) (dispatch o).
Proof.
  intros w H.
  destruct (resetsHold o) eqn:Hreset.
  - revert w H. change (preserves (holdClock (occ_now o)) (dispatch o)).
    assert (Hstart : preserves (holdClock (occ_now o)) (startHoldTimer (occ_now o))).
    { intros w H. apply (startHoldTimer_total (occ_now o) 0 w). split; [exact H |].
      apply H. }
    assert (Hend : preserves (holdClock (occ_now o)) (endHoldTimer (occ_now o))).
    { intros w H. apply (endHoldTimer_total (occ_now o) 0 w). split; [exact H |].
      apply H. }
    pose proof (resetHoldTimer_clock (occ_now o)) as Hres.
    destruct o as [now api [name [text | msg] | id | result | | | result | msg |]];
      try destruct name; try discriminate;
      unfold dispatch, listener, resetTimer, handleCallConnectedEvent,
        handleCallStarted;
      cbn [occ_event occ_now occ_toolkitApi] in *; preserve.
  - apply (dispatch_total o 0 Hreset w). split; [exact H | apply H].
Qed.

(** X8. Under a clock that never goes back, no hold session has a
    negative duration and the accumulated hold time is never negative; and
    an event other than the two resets (the public reset and call
    connected) never lowers the accumulated hold time. *)
Theorem hold_time_never_negative
    (occurrences : list Occurrence) (o : Occurrence) (clock : Z) :
  clockOrdered clock (occurrences ++ [o]) ->
  let w := run occurrences initial in
  Forall (fun h => 0 <= duration h) (holdSessions w)
  /\ 0 <= totalHoldTime w
  /\ (resetsHold o = false ->
      totalHoldTime w <= totalHoldTime (exec (dispatch o) w)).
Proof.
  intros Hord. cbn zeta.
  assert (Hrun : forall evs c w',
             clockOrdered c (evs ++ [o]) -> holdClock c w' ->
             exists l, holdClock l (run evs w') /\ l <= occ_now o).
  { induction evs as [| e rest IH]; intros c w' H Hw.
    - cbn in H. destruct H as [Hle _]. exists c. split; [exact Hw | exact Hle].
    - cbn [app clockOrdered] in H. destruct H as [Hle Hrest].
      cbn [run fold_left]. apply (IH (occ_now e)); [exact Hrest |].
      apply dispatch_clock, (holdClock_later c); assumption. }
  destruct (Hrun occurrences clock initial Hord) as (l & Hc & Hlo).
  { repeat split; [discriminate | constructor | cbn; lia]. }
  destruct Hc as (Hstart & Hs & Ht). repeat split; try assumption.
  intros Hreset.
  apply (dispatch_total o (totalHoldTime (run occurrences initial)) Hreset
           (run occurrences initial)).
  split; [| lia].
  apply (holdClock_later l); [exact Hlo |]. repeat split; assumption.
Qed.

(** *** Telephony availability *)

Lemma setupToolkitEventListeners_hidden (now : Z) (api : bool) :
  preserves hiddenForGood (setupToolkitEventListeners now api).
Proof.
  intros w [Hs Ht]. unfold hiddenForGood.
  on_record w; split; reflexivity.
Qed.

Lemma checkAndSetupToolkitListeners_hidden (now : Z) :
  preserves hiddenForGood (checkAndSetupToolkitListeners now true).
Proof.
  intros w [Hs Ht]. unfold hiddenForGood.
  on_record w; split; reflexivity.
Qed.

Lemma finalizeCall_hidden (now : Z) : preserves hiddenForGood (finalizeCall now).
Proof.
  intros w [Hs Ht]. unfold hiddenForGood.
  on_record w; split; reflexivity.
Qed.
#[local] Hint Resolve setupToolkitEventListeners_hidden
  checkAndSetupToolkitListeners_hidden finalizeCall_hidden : engine.

Lemma dispatch_hidden (o : Occurrence) :
  occ_toolkitApi o = true -> preserves hiddenForGood (dispatch o).
Proof.
  destruct o as [now api ev]. cbn [occ_toolkitApi]. intros ->.
  unfold dispatch, listener, fireTimer. cbn [occ_event occ_now occ_toolkitApi].
  preserve.
Qed.

Lemma handleCallEndedEvent_hides (now : Z) (text : string) (w : Widget) :
  eventListenersSetup w = true ->
  hiddenForGood (exec (handleCallEndedEvent now (JsonOk text)) w).
Proof.
  intros Hs. unfold hiddenForGood. on_record w; split; reflexivity.
Qed.

(** X9. Once a call has ended on a component whose listeners are
    registered, telephony stays marked unavailable and the controls stay
    hidden through every later event, a new call's call-started and
    call-connected events included, as long as the toolkit element stays
    on the page. *)
Theorem controls_stay_hidden_after_call_end
    (w : Widget) (now : Z) (text : string) (later : list Occurrence)
    (recordId : option string) :
  eventListenersSetup w = true ->
  toolkitStays later ->
  let ended := exec (listener callended now (JsonOk text)) w in
  telephonyAvailable (run later ended) = false
  /\ shouldShowControls recordId (run later ended) = false.
Proof.
  intros Hs Hstays. cbn zeta.
  assert (H : hiddenForGood
                (run later (exec (listener callended now (JsonOk text)) w))).
  { apply (run_preserves hiddenForGood).
    - intros o Hin. apply dispatch_hidden.
      unfold toolkitStays in Hstays. rewrite Forall_forall in Hstays.
      apply Hstays, Hin.
    - apply handleCallEndedEvent_hides, Hs. }
  destruct H as [_ Ht]. split; [exact Ht |].
  unfold shouldShowControls. rewrite Ht.
  destruct (truthyString (valueOf recordId)); reflexivity.
Qed.

(** *** The end-call button and duplicate call-ended events *)

Lemma finalizeCall_ignores_log (now : Z) (log : list string) (w : Widget) :
  withoutDebugLog (exec (finalizeCall now) (set_debugMessages log w))
  = withoutDebugLog (exec (finalizeCall now) w).
Proof. unfold withoutDebugLog. on_record w; reflexivity. Qed.

Lemma addDebugMessage_sets_log (now : Z) (message : string) (w : Widget) :
  exists log, exec (addDebugMessage now message) w = set_debugMessages log w.
Proof. unfold exec. rewrite addDebugMessage_effect. eexists. reflexivity. Qed.

(** X10. An end-call click the toolkit answers at once (no promise)
    finalises the call exactly as a call-ended event does, the debug log
    apart; a click that gets a promise back, a click with no toolkit
    element and a click whose command throws change nothing but the debug
    log and the toasts. *)
Theorem end_call_click_finalises_like_event
    (w : Widget) (now : Z) (text message : string) (result : EndCallResult) :
  withoutDebugLog (exec (handleEndCall now true EndCallPlain) w)
  = withoutDebugLog (exec (listener callended now (JsonOk text)) w)
  /\ withoutSinks (exec (handleEndCall now true EndCallPromise) w) = withoutSinks w
  /\ withoutSinks (exec (handleEndCall now true (EndCallThrows message)) w)
     = withoutSinks w
  /\ withoutSinks (exec (handleEndCall now false result) w) = withoutSinks w.
Proof.
  split; [| split; [| split]].
  - cbn [listener]. unfold handleEndCall, handleCallEndedEvent. cbn [negb].
    rewrite !exec_bind.
    destruct (addDebugMessage_sets_log now "Calling toolkit API endCall()" w)
      as [l1 E1].
    rewrite E1.
    destruct (addDebugMessage_sets_log now
                "End call method called (no Promise returned)"
                (set_debugMessages l1 w)) as [l2 E2].
    rewrite E2.
    destruct (addDebugMessage_sets_log now ("Received call ended event: " ++ text) w)
      as [l3 E3].
    rewrite E3.
    replace (set_debugMessages l2 (set_debugMessages l1 w))
      with (set_debugMessages l2 w) by (destruct w; reflexivity).
    rewrite !finalizeCall_ignores_log. reflexivity.
  - unfold withoutSinks. on_record w; reflexivity.
  - unfold withoutSinks. on_record w; reflexivity.
  - unfold withoutSinks. destruct result; on_record w; reflexivity.
Qed.

Lemma finalizeCall_leaves (now : Z) (w : Widget) :
  let ended := exec (finalizeCall now) w in
  isCallActive ended = false /\ callStatus ended = "Ended"
  /\ telephonyAvailable ended = false /\ callEndDateTime ended = Some now
  /\ (isOnHold ended = false \/ currentHoldStart ended = None
      \/ currentHoldStart ended = Some 0).
Proof.
  cbn zeta. on_record w; repeat split; auto.
  all: match goal with
       | H : negb (truthyNumber ?s) = true |- _ =>
           destruct s as [z |]; [| auto];
           cbn in H; apply negb_true_iff, negb_false_iff, Z.eqb_eq in H;
           subst z; auto
       end.
Qed.

Lemma finalizeCall_again (now : Z) (ended : Widget) :
  isCallActive ended = false -> callStatus ended = "Ended" ->
  telephonyAvailable ended = false ->
  callDurationInterval ended = None -> holdTimerInterval ended = None ->
  toolkitCheckInterval ended = None ->
  (isOnHold ended = false \/ currentHoldStart ended = None
   \/ currentHoldStart ended = Some 0) ->
  withoutSinks (exec (finalizeCall now) ended)
  = withoutSinks (set_callEndDateTime (Some now) ended).
Proof.
  intros Ha Hs Ht Hd Hh Hp Hhold. unfold withoutSinks.
  destruct ended; cbn in Ha, Hs, Ht, Hd, Hh, Hp, Hhold; subst.
  destruct Hhold as [-> | [-> | ->]];
    methods; plumbing; tidy; logs; branches; reflexivity.
Qed.

(** X11. A second call-ended event changes nothing of the call but the
    recorded end timestamp, which moves to the instant of the second
    event (it also adds debug entries and a second toast): status, hold
    accounting and tickers are as the first one left them. *)
Theorem duplicate_call_ended_moves_end_time (w : Widget) (first second : Z) :
  let ended := exec (finalizeCall first) w in
  withoutSinks (exec (finalizeCall second) ended)
  = withoutSinks (set_callEndDateTime (Some second) ended)
  /\ callEndDateTime ended = Some first
  /\ holdState (exec (finalizeCall second) ended) = holdState ended.
Proof.
  cbn zeta.
  destruct (finalizeCall_leaves first w) as (Ha & Hs & Ht & He & Hhold).
  destruct (finalizeCall_clears first w) as (Hd & Hh & Hp).
  pose proof (finalizeCall_again second _ Ha Hs Ht Hd Hh Hp Hhold) as E.
  split; [exact E |]. split; [exact He |].
  unfold withoutSinks in E.
  destruct (exec (finalizeCall second) (exec (finalizeCall first) w)),
    (exec (finalizeCall first) w).
  cbn in E. injection E; intros; subst. reflexivity.
Qed.

(** *** Mute, the hold button, the record wire, discovery *)

(** X12. The mute flag is written by mute and unmute events only: a mute
    event sets it, an unmute event clears it, and every other event, the
    call-connected event of a new call included, leaves it as it is. *)
Theorem mute_flag_written_by_mute_events_only (w : Widget) (o : Occurrence) :
  isMuted (exec (dispatch o) w)
  = match occ_event o with
    | Toolkit mute (JsonOk _) => true
    | Toolkit unmute (JsonOk _) => false
    | _ => isMuted w
    end.
Proof.
  assert (Hkept : forall o',
             writesMute o' = false ->
             preserves (fun w' => isMuted w' = isMuted w) (dispatch o')).
  { intros [now api [name [text | msg] | id | result | | | result | msg |]];
      try destruct name; cbn; intros Hother; try discriminate;
      unfold dispatch, listener; cbn [occ_event occ_now occ_toolkitApi]; preserve. }
  destruct o as [now api [name [text | msg] | id | result | | | result | msg |]];
    try destruct name; cbn [occ_event];
    try (match goal with
         | |- isMuted (exec (dispatch ?o') _) = isMuted _ =>
             exact (preserves_exec _ _ _ (Hkept o' eq_refl) eq_refl)
         end).
  - unfold dispatch, listener. cbn [occ_event occ_now]. on_record w; reflexivity.
  - unfold dispatch, listener. cbn [occ_event occ_now]. on_record w; reflexivity.
Qed.

(** X13. The hold button changes nothing of the component but the debug
    log and the toasts: it only asks the toolkit, for a resume exactly
    when the component is on hold and for a hold otherwise, and asks
    nothing when the toolkit element is missing. *)
Theorem hold_click_only_asks_the_toolkit
    (w : Widget) (now : Z) (api : bool) (result : EndCallResult) :
  withoutSinks (exec (handleHoldClick now api result) w) = withoutSinks w
  /\ eval (handleHoldClick now api result) w
     = if api
       then Some (if isOnHold w then CommandResume else CommandHold)
       else None.
Proof.
  unfold withoutSinks, handleHoldClick.
  destruct api, result; on_record w; split; reflexivity.
Qed.

(** X14. Loading the record never changes the call status, the active
    flag, the duration clock or the hold accounting, whatever the record
    holds; it stores the record's end timestamp as it is, so a record
    without one clears the end timestamp a finished call had set. *)
Theorem record_load_keeps_call_state
    (w : Widget) (now : Z) (api : bool) (data : VoiceCallRecord) :
  let w' := exec (voiceCallRecord now api (WireData data)) w in
  callStatus w' = callStatus w
  /\ isCallActive w' = isCallActive w
  /\ callStartTime w' = callStartTime w
  /\ callDuration w' = callDuration w
  /\ holdState w' = holdState w
  /\ callEndDateTime w' = CallEndDateTime data.
Proof.
  cbn zeta.
  assert (Hkept : preserves
                    (fun w' => callStatus w' = callStatus w
                               /\ isCallActive w' = isCallActive w
                               /\ callStartTime w' = callStartTime w
                               /\ callDuration w' = callDuration w
                               /\ holdState w' = holdState w)
                    (voiceCallRecord now api (WireData data))).
  { unfold voiceCallRecord, processVoiceCallData, setupToolkitEventListeners,
      stopToolkitPolling, clearInterval. preserve. }
  destruct (preserves_exec _ _ w Hkept) as (H1 & H2 & H3 & H4 & H5);
    [repeat split |].
  repeat split; try assumption.
  unfold voiceCallRecord. rewrite exec_bind, exec_bind.
  apply (preserves_exec (fun w' => callEndDateTime w' = CallEndDateTime data)
           (setupToolkitEventListeners now api)).
  - unfold setupToolkitEventListeners, stopToolkitPolling, clearInterval. preserve.
  - generalize (exec (addDebugMessage now "Voice Call record loaded successfully") w).
    intros logged. on_record logged; reflexivity.
Qed.

Lemma discovery_done (w : Widget) (now : Z) (api : bool) :
  eventListenersSetup w = true ->
  exec (setupToolkitEventListeners now api) w = w
  /\ exec (checkAndSetupToolkitListeners now true) w = w.
Proof.
  intros H. unfold exec, checkAndSetupToolkitListeners, setupToolkitEventListeners,
    bind, get, ret. cbn. rewrite H. split; reflexivity.
Qed.

Lemma setupToolkitEventListeners_registers (w : Widget) (now : Z) :
  let ready := exec (setupToolkitEventListeners now true) w in
  eventListenersSetup ready = true
  /\ (eventListenersSetup w = false -> toolkitCheckInterval ready = None).
Proof. cbn zeta. on_record w; split; intros; (reflexivity || discriminate). Qed.

(** A poll tick on a component without listeners that finds the element is
    the discovery itself. *)
Lemma poll_tick_discovers (w : Widget) (now : Z) :
  eventListenersSetup w = false ->
  exec (checkAndSetupToolkitListeners now true) w
  = exec (setupToolkitEventListeners now true) w.
Proof.
  intros H. unfold exec, checkAndSetupToolkitListeners, bind, get. cbn [fst snd].
  rewrite H. reflexivity.
Qed.

(** A poll tick that does not find the element drops the registration. *)
Lemma poll_tick_loses (w : Widget) (now : Z) :
  eventListenersSetup w = true ->
  exec (checkAndSetupToolkitListeners now false) w
  = set_telephonyAvailable false
      (set_toolkitApiAvailable false (set_eventListenersSetup false w)).
Proof.
  intros H. unfold exec, checkAndSetupToolkitListeners, bind, get, put. cbn [fst snd].
  rewrite H. reflexivity.
Qed.

(** The discovery on a component without listeners runs the registration:
    its last log entry is that of the eight listeners. *)
Lemma setupToolkitEventListeners_logs (w : Widget) (now : Z) :
  eventListenersSetup w = false ->
  hd_error (debugMessages (exec (setupToolkitEventListeners now true) w))
  = Some ("[" ++ toISOString now
          ++ "] Event listeners registered for: hold, resume, mute, unmute, callstarted, callconnected, callended, hangup").
Proof.
  intros H. on_record w; try discriminate;
    repeat match goal with
           | |- context [Nat.ltb ?a ?b] => destruct (Nat.ltb a b)
           end; reflexivity.
Qed.

(** *** The poll *)

Lemma clearInterval_pollOwned (id : TimerId) : preserves pollOwned (clearInterval id).
Proof.
  intros [] Hinv i Hin. unfold pollOwned in *. cbn in *.
  apply In_cleared in Hin. apply Hinv, Hin.
Qed.

Lemma setInterval_pollOwned (kind : TimerKind) :
  kind <> ToolkitPoll -> preserves pollOwned (setInterval kind).
Proof.
  intros Hkind [] Hinv i Hin. unfold pollOwned in *. cbn in *.
  apply In_registered in Hin. destruct Hin as [Hin | [_ Heq]].
  - apply Hinv, Hin.
  - symmetry in Heq. contradiction.
Qed.

Lemma setInterval_duration_pollOwned : preserves pollOwned (setInterval DurationTick).
Proof. apply setInterval_pollOwned. discriminate. Qed.

Lemma setInterval_hold_pollOwned : preserves pollOwned (setInterval HoldTick).
Proof. apply setInterval_pollOwned. discriminate. Qed.

Lemma stopToolkitPolling_pollOwned : preserves pollOwned stopToolkitPolling.
Proof.
  intros [] Hinv. unfold pollOwned, stopToolkitPolling in *. plumbing. cbn in *.
  match goal with
  | |- context [match ?x with _ => _ end] => is_var x; destruct x as [tracked |]
  end; cbn; [| exact Hinv].
  intros i Hin. apply In_cleared in Hin. destruct Hin as [Hin Hother].
  specialize (Hinv i Hin). congruence.
Qed.
#[local] Hint Resolve clearInterval_pollOwned setInterval_duration_pollOwned
  setInterval_hold_pollOwned stopToolkitPolling_pollOwned : engine.

(** Attaching a component that tracks no poll starts the one poll. *)
Lemma connectedCallback_pollOwned (now : Z) (w : Widget) :
  pollOwned w -> toolkitCheckInterval w = None ->
  pollOwned (exec (connectedCallback now) w).
Proof.
  intros Hinv Hnone. unfold pollOwned in *.
  destruct w as [? ? ? ? ? ? ? ? ? ? ? ? ? ? ? ? ? ? ? ? tci ? ? ? ? ?].
  cbn in Hnone. subst tci.
  unfold connectedCallback, startToolkitPolling, setInterval. crunch. cbn in *.
  intros i Hin. apply In_registered in Hin. destruct Hin as [Hin | [-> _]].
  - specialize (Hinv i Hin). discriminate.
  - reflexivity.
Qed.

Lemma dispatch_pollOwned (o : Occurrence) :
  occ_event o <> ConnectedCallback -> preserves pollOwned (dispatch o).
Proof.
  destruct o as [now api [name detail | id | result | | | result | msg |]];
    cbn [occ_event]; intros Hother; try contradiction;
    unfold dispatch, listener; cbn [occ_event occ_now occ_toolkitApi]; preserve.
Qed.

Lemma dispatch_poll_idle (o : Occurrence) :
  occ_event o <> ConnectedCallback ->
  preserves (fun w => toolkitCheckInterval w = None) (dispatch o).
Proof.
  destruct o as [now api [name detail | id | result | | | result | msg |]];
    cbn [occ_event]; intros Hother; try contradiction;
    unfold dispatch, listener; cbn [occ_event occ_now occ_toolkitApi]; preserve.
Qed.

Lemma run_pollSound (occurrences : list Occurrence) :
  forall attached w,
    pollSound attached w -> attachedInTurn attached occurrences ->
    pollOwned (run occurrences w).
Proof.
  induction occurrences as [| o rest IH]; intros attached w [Howned Hidle] Hturn;
    [exact Howned |].
  cbn [run fold_left].
  change (pollOwned (run rest (exec (dispatch o) w))).
  destruct o as [now api [name detail | id | result | | | result | msg |]];
    cbn [attachedInTurn occ_event] in Hturn.
  4: { destruct Hturn as [-> Hturn]. apply (IH true); [| exact Hturn].
       split; [| discriminate].
       apply connectedCallback_pollOwned; [exact Howned | exact (Hidle eq_refl)]. }
  4: { apply (IH false); [| exact Hturn].
       split.
       - apply dispatch_pollOwned; [discriminate | exact Howned].
       - intros _. apply disconnectedCallback_clears. }
  all: apply (IH attached); [| exact Hturn];
    (split; [apply dispatch_pollOwned; [discriminate | exact Howned]
            | intros Hdetached;
              apply (dispatch_poll_idle
                       {| occ_now := now; occ_toolkitApi := api; occ_event := _ |});
              [discriminate | exact (Hidle Hdetached)]]).
Qed.

(** X15. While the toolkit element is found, a discovery attempt (from
    the record wire or from the poll) on a component whose listeners are
    registered changes nothing.  A poll tick that no longer finds the
    element clears the registration mark and both availability flags, and
    the next discovery that finds the element runs the registration of
    the eight listeners again.  The discovery that registers the listeners
    stops the poll the component tracks, so that no poll at all is left
    live when every live poll is tracked; that is so after any sequence of
    events in which the page attaches and detaches the component in
    turn. *)
Theorem toolkit_is_set_up_once
    (w : Widget) (occurrences : list Occurrence) (found again later : Z)
    (api : bool) :
  let ready := exec (setupToolkitEventListeners found true) w in
  let lost := exec (checkAndSetupToolkitListeners again false) ready in
  eventListenersSetup ready = true
  /\ exec (setupToolkitEventListeners again api) ready = ready
  /\ exec (checkAndSetupToolkitListeners again true) ready = ready
  /\ (eventListenersSetup lost = false
      /\ toolkitApiAvailable lost = false
      /\ telephonyAvailable lost = false
      /\ eventListenersSetup (exec (setupToolkitEventListeners later true) lost)
         = true
      /\ hd_error
           (debugMessages (exec (setupToolkitEventListeners later true) lost))
         = Some ("[" ++ toISOString later
                 ++ "] Event listeners registered for: hold, resume, mute, unmute, callstarted, callconnected, callended, hangup"))
  /\ (eventListenersSetup w = false ->
      exec (checkAndSetupToolkitListeners found true) w = ready
      /\ toolkitCheckInterval ready = None
      /\ (pollOwned w -> tickersOf ToolkitPoll ready = []))
  /\ (attachedInTurn false occurrences -> pollOwned (run occurrences initial)).
Proof.
  cbn zeta. destruct (setupToolkitEventListeners_registers w found) as [Hs Hp].
  destruct (discovery_done _ again api Hs) as [H1 H2].
  split; [exact Hs |]. split; [exact H1 |]. split; [exact H2 |].
  split; [| split].
  - rewrite (poll_tick_loses _ again Hs).
    set (ready := exec (setupToolkitEventListeners found true) w).
    assert (Hlost : eventListenersSetup
                      (set_telephonyAvailable false
                         (set_toolkitApiAvailable false
                            (set_eventListenersSetup false ready))) = false)
      by (destruct ready; reflexivity).
    split; [exact Hlost |].
    split; [destruct ready; reflexivity |].
    split; [destruct ready; reflexivity |].
    split.
    + apply setupToolkitEventListeners_registers.
    + apply setupToolkitEventListeners_logs, Hlost.
  - intros Hnew. split; [apply poll_tick_discovers, Hnew |].
    split; [apply Hp, Hnew |].
    intros Howned. unfold tickersOf. apply no_ticker_of_kind.
    intros id Hin.
    assert (Hkept : pollOwned (exec (setupToolkitEventListeners found true) w)).
    { apply preserves_exec; [unfold setupToolkitEventListeners; preserve | exact Howned]. }
    specialize (Hkept id Hin). rewrite (Hp Hnew) in Hkept. discriminate.
  - intros Hturn. apply (run_pollSound occurrences false initial); [| exact Hturn].
    split; [intros id [] | reflexivity].
Qed.

(** ** The formatting functions *)

Lemma two_digits (n : Z) :
  0 <= n < 100 -> String.length (padStart 2 "0" (toString n)) = 2%nat.
Proof.
  intros H.
  assert (Hall : forall k : nat,
             (k < 100)%nat ->
             String.length (padStart 2 "0" (toString (Z.of_nat k))) = 2%nat).
  { intros k Hk. do 100 (destruct k as [| k]; [reflexivity |]). lia. }
  rewrite <- (Z2Nat.id n) by lia. apply Hall. lia.
Qed.

(** X16. The clock format drops whole hours unless asked for them: a hold
    total of an hour or more is displayed modulo one hour, and a total
    that is zero or negative is displayed as zeros. *)
Theorem formatTime_wraps_each_hour (seconds hours : Z) (includeHours : bool) :
  (0 < seconds -> 0 <= hours ->
   formatTime (seconds + 3600 * hours) false = formatTime seconds false)
  /\ (seconds <= 0 ->
      formatTime seconds includeHours
      = if includeHours then "00:00:00" else "00:00").
Proof.
  unfold formatTime. split.
  - intros Hs Hh.
    assert (E1 : (seconds + 3600 * hours =? 0) || (seconds + 3600 * hours <? 0) = false).
    { apply orb_false_iff. split; [apply Z.eqb_neq | apply Z.ltb_ge]; nia. }
    assert (E2 : (seconds =? 0) || (seconds <? 0) = false).
    { apply orb_false_iff. split; [apply Z.eqb_neq | apply Z.ltb_ge]; lia. }
    rewrite E1, E2. cbv zeta.
    replace ((seconds + 3600 * hours) mod 3600) with (seconds mod 3600).
    2: { rewrite (Z.mul_comm 3600 hours), Z_mod_plus_full. reflexivity. }
    replace ((seconds + 3600 * hours) mod 60) with (seconds mod 60).
    2: { replace (3600 * hours) with ((60 * hours) * 60) by lia.
         rewrite Z_mod_plus_full. reflexivity. }
    reflexivity.
  - intros Hs.
    assert (E : (seconds =? 0) || (seconds <? 0) = true).
    { destruct (Z.eqb_spec seconds 0); [reflexivity |].
      cbn. apply Z.ltb_lt. lia. }
    rewrite E. reflexivity.
Qed.

(** X17. The hold total is always displayed as five characters (mm:ss),
    and the call duration as eight (hh:mm:ss) for a call of less than a
    hundred hours. *)
Theorem formatTime_has_fixed_width (seconds : Z) :
  String.length (formatTime seconds false) = 5%nat
  /\ (seconds < 360000 -> String.length (formatTime seconds true) = 8%nat).
Proof.
  assert (Happ : forall a b, String.length (a ++ b) = (String.length a + String.length b)%nat).
  { induction a as [| c a IH]; intros b; cbn; [reflexivity | rewrite IH; reflexivity]. }
  unfold formatTime.
  destruct ((seconds =? 0) || (seconds <? 0)) eqn:E.
  - split; reflexivity.
  - apply orb_false_iff in E. destruct E as [E1 E2].
    apply Z.eqb_neq in E1. apply Z.ltb_ge in E2. cbv zeta.
    assert (Hm : 0 <= seconds mod 3600 / 60 < 100).
    { pose proof (Z.mod_pos_bound seconds 3600 ltac:(lia)).
      split; [apply Z.div_pos; lia |].
      apply Z.div_lt_upper_bound; lia. }
    assert (Hs : 0 <= seconds mod 60 < 100).
    { pose proof (Z.mod_pos_bound seconds 60 ltac:(lia)). lia. }
    split.
    + rewrite !Happ, (two_digits _ Hm), (two_digits _ Hs). reflexivity.
    + intros Hlt.
      assert (Hh : 0 <= seconds / 3600 < 100).
      { split; [apply Z.div_pos; lia | apply Z.div_lt_upper_bound; lia]. }
      rewrite !Happ, (two_digits _ Hm), (two_digits _ Hs), (two_digits _ Hh).
      reflexivity.
Qed.

Lemma filterString_all (test : ascii -> bool) (s : string) :
  allChars test (filterString test s) = true.
Proof.
  induction s as [| c rest IH]; [reflexivity |].
  cbn [filterString]. destruct (test c) eqn:E; [| exact IH].
  cbn [allChars]. rewrite E, IH. reflexivity.
Qed.

(** Name the characters of a string of known length. *)
Ltac characters H :=
  repeat match type of H with
         | String.length ?s = S _ =>
             is_var s; destruct s as [| ? s]; [discriminate H |];
             cbn [String.length] in H; apply eq_add_S in H
         | String.length ?s = O =>
             is_var s; destruct s; [| discriminate H]
         end.

Ltac digits H :=
  cbn [allChars] in H;
  repeat match type of H with
         | (_ && _)%bool = true =>
             let Hc := fresh "Hdigit" in
             apply andb_true_iff in H; destruct H as [Hc H]
         end.

Lemma formatPhoneNumber_cases (phoneNumber : string) :
  let cleaned := digitsOf phoneNumber in
  formatPhoneNumber phoneNumber = phoneNumber
  \/ (String.length cleaned = 11%nat /\ prefix "1" cleaned = true
      /\ formatPhoneNumber phoneNumber
         = "+1 (" ++ substring 1 3 cleaned ++ ") " ++ substring 4 3 cleaned
           ++ "-" ++ substringFrom 7 cleaned)
  \/ (String.length cleaned = 10%nat
      /\ formatPhoneNumber phoneNumber
         = "+1 (" ++ substring 0 3 cleaned ++ ") " ++ substring 3 3 cleaned
           ++ "-" ++ substringFrom 6 cleaned).
Proof.
  cbn zeta. unfold formatPhoneNumber, digitsOf.
  destruct phoneNumber as [| c rest]; [left; reflexivity |].
  cbn [truthyString negb].
  destruct (Nat.eqb_spec (String.length (filterString isDigit (String c rest))) 11)
    as [E11 | N11].
  - destruct (prefix "1" (filterString isDigit (String c rest))) eqn:P.
    + right. left. auto.
    + cbn [andb]. rewrite E11. cbn. left. reflexivity.
  - cbn [andb].
    destruct (Nat.eqb_spec (String.length (filterString isDigit (String c rest))) 10)
      as [E10 | N10]; [right; right; auto | left; reflexivity].
Qed.

Lemma filterString_keep (test : ascii -> bool) (c : ascii) (s : string) :
  test c = true -> filterString test (String c s) = String c (filterString test s).
Proof. intros H. cbn [filterString]. rewrite H. reflexivity. Qed.

Lemma filterString_drop (test : ascii -> bool) (c : ascii) (s : string) :
  test c = false -> filterString test (String c s) = filterString test s.
Proof. intros H. cbn [filterString]. rewrite H. reflexivity. Qed.

(** The digits of a number in the format [+1 (ddd) ddd-dddd]. *)
Lemma formatted_digits (d0 d1 d2 d3 d4 d5 d6 d7 d8 d9 : ascii) :
  allChars isDigit
    (String d0 (String d1 (String d2 (String d3 (String d4 (String d5
       (String d6 (String d7 (String d8 (String d9 "")))))))))) = true ->
  filterString isDigit
    (String "+" (String "1" (String " " (String "(" (String d0 (String d1
       (String d2 (String ")" (String " " (String d3 (String d4 (String d5
          (String "-" (String d6 (String d7 (String d8 (String d9 "")))))))))))))))))
  = String "1" (String d0 (String d1 (String d2 (String d3 (String d4 (String d5
      (String d6 (String d7 (String d8 (String d9 "")))))))))).
Proof.
  intros Hall. digits Hall.
  assert (Hplus : isDigit "+" = false) by reflexivity.
  assert (Hone : isDigit "1" = true) by reflexivity.
  assert (Hspace : isDigit " " = false) by reflexivity.
  assert (Hopen : isDigit "(" = false) by reflexivity.
  assert (Hclose : isDigit ")" = false) by reflexivity.
  assert (Hdash : isDigit "-" = false) by reflexivity.
  repeat first [ rewrite filterString_keep by assumption
               | rewrite filterString_drop by assumption ].
  reflexivity.
Qed.

Tactic Notation "spelled_out" :=
  cbn [append substring substringFrom String.length Nat.sub].
Tactic Notation "spelled_out" "in" hyp(H) :=
  cbn [append substring substringFrom String.length Nat.sub] in H.

(** X18. Formatting a phone number keeps its digits: the digits of the
    result are those of the input, with the country code 1 put in front
    when the input has exactly ten digits; an empty number stays empty. *)
Theorem formatPhoneNumber_keeps_digits (phoneNumber : string) :
  digitsOf (formatPhoneNumber phoneNumber)
  = (if (String.length (digitsOf phoneNumber) =? 10)%nat
     then "1" ++ digitsOf phoneNumber
     else digitsOf phoneNumber)
  /\ formatPhoneNumber "" = "".
Proof.
  split; [| reflexivity].
  pose proof (filterString_all isDigit phoneNumber) as Hall.
  fold (digitsOf phoneNumber) in Hall.
  destruct (formatPhoneNumber_cases phoneNumber) as [E | [(L & P & E) | (L & E)]];
    cbn zeta in *.
  - rewrite E.
    destruct (Nat.eqb_spec (String.length (digitsOf phoneNumber)) 10) as [L |];
      [| reflexivity].
    exfalso. unfold formatPhoneNumber in E. fold (digitsOf phoneNumber) in E.
    destruct phoneNumber as [| c rest]; [discriminate L |].
    cbn [truthyString negb] in E. rewrite L in E. cbn [Nat.eqb andb] in E.
    apply (f_equal digitsOf) in E.
    remember (digitsOf (String c rest)) as cleaned eqn:Hc.
    characters L. spelled_out in E.
    unfold digitsOf in E at 1. rewrite (formatted_digits _ _ _ _ _ _ _ _ _ _ Hall) in E.
    discriminate E.
  - rewrite E, L. cbn [Nat.eqb]. clear E.
    remember (digitsOf phoneNumber) as cleaned eqn:Hc.
    characters L. cbn [prefix] in P.
    match type of P with
    | context [Ascii.ascii_dec ?x ?y] =>
        destruct (Ascii.ascii_dec x y) as [<- |]; [| discriminate P]
    end.
    cbn [allChars] in Hall. apply andb_true_iff in Hall. destruct Hall as [_ Hall].
    spelled_out. unfold digitsOf.
    apply (formatted_digits _ _ _ _ _ _ _ _ _ _ Hall).
  - rewrite E, L. cbn [Nat.eqb]. clear E.
    remember (digitsOf phoneNumber) as cleaned eqn:Hc.
    characters L. spelled_out. unfold digitsOf.
    apply (formatted_digits _ _ _ _ _ _ _ _ _ _ Hall).
Qed.

(** X19. Formatting a phone number twice gives what formatting it once
    gives: a formatted number is left as it is. *)
Theorem formatPhoneNumber_idempotent (phoneNumber : string) :
  formatPhoneNumber (formatPhoneNumber phoneNumber) = formatPhoneNumber phoneNumber.
Proof.
  pose proof (filterString_all isDigit phoneNumber) as Hall.
  fold (digitsOf phoneNumber) in Hall.
  destruct (formatPhoneNumber_cases phoneNumber) as [E | [(L & P & E) | (L & E)]];
    cbn zeta in *; rewrite E.
  - exact E.
  - clear E. remember (digitsOf phoneNumber) as cleaned eqn:Hc.
    characters L. cbn [prefix] in P.
    match type of P with
    | context [Ascii.ascii_dec ?x ?y] =>
        destruct (Ascii.ascii_dec x y) as [<- |]; [| discriminate P]
    end.
    cbn [allChars] in Hall. apply andb_true_iff in Hall. destruct Hall as [_ Hall].
    spelled_out. unfold formatPhoneNumber. cbn [truthyString negb]. cbv zeta.
    rewrite (formatted_digits _ _ _ _ _ _ _ _ _ _ Hall). reflexivity.
  - clear E. remember (digitsOf phoneNumber) as cleaned eqn:Hc.
    characters L.
    spelled_out. unfold formatPhoneNumber. cbn [truthyString negb]. cbv zeta.
    rewrite (formatted_digits _ _ _ _ _ _ _ _ _ _ Hall). reflexivity.
Qed.

End Engine.

(** ** The theorems at concrete inputs *)

(** The scenario of the design: started, connected, hold, 45 s later
    resume, then ended. *)
Example hold_of_45_seconds :
  let w := run decimalInstant
             (callOnHold ++ [occurs 55000 (Toolkit resume emptyDetail);
                             occurs 60000 (Toolkit callended emptyDetail)])
             initial in
  callStatus w = "Ended"
  /\ holdSessions w = [{| sessionNumber := 1; startTime := "10000";
                         endTime := "55000"; duration := 45 |}]
  /\ totalHoldTime w = 45
  /\ holdColorClass w = "hold-timer-yellow"
  /\ timers w = [].
Proof. vm_compute. repeat split. Qed.

(** Why [reachable] asks for a clock that does not read 0: a hold that
    starts at the epoch itself has a falsy start, so the resume event that
    follows is ignored and the hold stays open. *)
Example hold_started_at_epoch_stays_open :
  let held := exec (handleHoldEvent decimalInstant 0 emptyDetail) initial in
  let resumed := exec (handleResumeEvent decimalInstant 5000 emptyDetail) held in
  currentHoldStart held = Some 0
  /\ isOnHold resumed = true
  /\ holdSessions resumed = [].
Proof. vm_compute. repeat split. Qed.

(** C1, counterexample: after a call has ended, a call-started event sets
    the status to Incoming. *)
Lemma ended_status_is_not_terminal :
  let ended := run decimalInstant endedCall initial in
  let again :=
    exec (dispatch decimalInstant (occurs 3000 (Toolkit callstarted emptyDetail)))
      ended in
  callStatus ended = "Ended"
  /\ callStatus again = "Incoming"
  /\ callStatus again <> "Ended".
Proof. vm_compute. repeat split. discriminate. Qed.

(** C1, witness of the amended statement on the ended call. *)
Lemma status_after_ended_witness :
  callStatus (run decimalInstant endedCall initial) = "Ended"
  /\ callStatus (exec (dispatch decimalInstant (occurs 3000 (Toolkit mute emptyDetail)))
                   (run decimalInstant endedCall initial)) = "Ended"
  /\ callStatus (exec (dispatch decimalInstant
                         (occurs 3000 (Toolkit callconnected emptyDetail)))
                   (run decimalInstant endedCall initial)) = "Connected".
Proof.
  split; [reflexivity |]. split.
  - apply (status_after_ended decimalInstant
             (run decimalInstant endedCall initial)
             (occurs 3000 (Toolkit mute emptyDetail))).
    reflexivity.
  - apply (status_after_ended decimalInstant
             (run decimalInstant endedCall initial)
             (occurs 3000 (Toolkit callconnected emptyDetail))).
    reflexivity.
Defined.

(** C2, counterexample: a second call-connected event moves the anchor
    from 4 s to 9 s. *)
Lemma anchor_overwritten_by_second_connected :
  let first := run decimalInstant connectedCall initial in
  let second :=
    exec (dispatch decimalInstant (occurs 9000 (Toolkit callconnected emptyDetail)))
      first in
  callStartTime first = Some 4000
  /\ callStartTime second = Some 9000
  /\ callStartTime second <> callStartTime first.
Proof. vm_compute. repeat split. discriminate. Qed.

(** C2, witness of the amended statement: the duration tick of the
    connected call at 9 s is no call-connected event and leaves the anchor
    at 4 s; it changes the duration and the display, on an active,
    anchored call, and displays the five seconds since the anchor. *)
Lemma anchor_set_by_each_connected_witness :
  let connected := run decimalInstant connectedCall initial in
  let ticked :=
    exec (dispatch decimalInstant (occurs 9000 (TimerFired 1%positive))) connected in
  observesCallConnected (occurs 9000 (TimerFired 1%positive)) = false
  /\ callStartTime ticked = Some 4000
  /\ callDuration ticked <> callDuration connected
  /\ formattedCallDuration ticked <> formattedCallDuration connected
  /\ isCallActive connected = true
  /\ exists t,
       callStartTime connected = Some t
       /\ formattedCallDuration ticked = formatTime ((9000 - t) / 1000) true.
Proof.
  cbv zeta.
  assert (Hduration :
            callDuration
              (exec (dispatch decimalInstant (occurs 9000 (TimerFired 1%positive)))
                 (run decimalInstant connectedCall initial))
            <> callDuration (run decimalInstant connectedCall initial)).
  { vm_compute. discriminate. }
  assert (Hdisplay :
            formattedCallDuration
              (exec (dispatch decimalInstant (occurs 9000 (TimerFired 1%positive)))
                 (run decimalInstant connectedCall initial))
            <> formattedCallDuration (run decimalInstant connectedCall initial)).
  { vm_compute. discriminate. }
  destruct (anchor_set_by_each_connected decimalInstant
              (run decimalInstant connectedCall initial)
              (occurs 9000 (TimerFired 1%positive)) connectedCall)
    as (_ & Hanchor & Hstored & Hshown).
  split; [reflexivity |].
  split; [rewrite (Hanchor eq_refl); reflexivity |].
  split; [exact Hduration |]. split; [exact Hdisplay |].
  split; [exact (proj1 (Hstored Hduration)) |].
  exact (proj2 (Hshown Hdisplay)).
Defined.

(** C3, witness: the call on hold since 10 s ends at 60 s. *)
Lemma call_ended_while_on_hold_witness :
  reachable decimalInstant (run decimalInstant callOnHold initial)
  /\ isOnHold (run decimalInstant callOnHold initial) = true
  /\ exists t,
       currentHoldStart (run decimalInstant callOnHold initial) = Some t
       /\ holdSessions
            (exec (handleCallEndedEvent decimalInstant 60000 (JsonOk "{}"))
               (run decimalInstant callOnHold initial))
          = (holdSessions (run decimalInstant callOnHold initial)
             ++ [{| sessionNumber :=
                      Z.of_nat (List.length
                                  (holdSessions (run decimalInstant callOnHold initial)))
                      + 1;
                    startTime := decimalInstant t;
                    endTime := decimalInstant 60000;
                    duration := (60000 - t) / 1000 |}])%list.
Proof.
  assert (Hreach : reachable decimalInstant (run decimalInstant callOnHold initial)).
  { apply reachable_run; [| apply reachable_initial].
    repeat constructor; discriminate. }
  assert (Hon : isOnHold (run decimalInstant callOnHold initial) = true)
    by reflexivity.
  split; [exact Hreach |]. split; [exact Hon |].
  destruct (call_ended_while_on_hold decimalInstant
              (run decimalInstant callOnHold initial) 60000 "{}" Hreach Hon)
    as (t & Hstart & Hsessions & _).
  exists t. split; assumption.
Defined.

(** C4, witness: a resume event on the held call closes the hold; on the
    connected call it opens one. *)
Lemma resume_is_decided_by_hold_flag_witness :
  (isOnHold (run decimalInstant callOnHold initial) = true
   /\ exec (handleResumeEvent decimalInstant 55000 (JsonOk "{}"))
        (run decimalInstant callOnHold initial)
      = exec (endHoldTimer decimalInstant 55000)
          (exec (addDebugMessage decimalInstant 55000 "Received resume event: {}")
             (run decimalInstant callOnHold initial)))
  /\ (isOnHold (run decimalInstant connectedCall initial) = false
      /\ holdState (exec (handleResumeEvent decimalInstant 10000 (JsonOk "{}"))
                      (run decimalInstant connectedCall initial))
         = (Some 10000, true, 0, [])).
Proof.
  split; (split; [reflexivity |]).
  - apply (proj1 (resume_is_decided_by_hold_flag decimalInstant
                    (run decimalInstant callOnHold initial) 55000 "{}")).
    reflexivity.
  - apply (proj1 (proj2 (resume_is_decided_by_hold_flag decimalInstant
                           (run decimalInstant connectedCall initial) 10000 "{}"))).
    reflexivity.
Defined.

(** C5, witness: three call-started events, a record with a call-start
    timestamp and a call-connected event that fails to serialise. *)
Lemma duration_zero_before_connected_witness :
  forallb (fun o => negb (observesCallConnected o)) ringingCall = true
  /\ callDuration (run decimalInstant ringingCall initial) = 0
  /\ formattedCallDuration (run decimalInstant ringingCall initial) = "00:00:00".
Proof.
  split; [reflexivity |].
  apply (proj1 (duration_zero_before_connected decimalInstant ringingCall
                  (eq_refl true))).
Defined.

(** C7, witness: the hold of the connected call at 10 s, followed by two
    more hold events. *)
Lemma repeated_hold_start_is_noop_witness :
  isOnHold (run decimalInstant connectedCall initial) = false
  /\ holdState
       (fold_left (fun this e => exec (handleHoldEvent decimalInstant (fst e) (snd e)) this)
          [(11000, emptyDetail); (12000, emptyDetail)]
          (exec (handleHoldEvent decimalInstant 10000 (JsonOk "{}"))
             (run decimalInstant connectedCall initial)))
     = holdState (exec (handleHoldEvent decimalInstant 10000 (JsonOk "{}"))
                    (run decimalInstant connectedCall initial)).
Proof.
  split; [reflexivity |].
  apply (proj2 (repeated_hold_start_is_noop decimalInstant
                  (run decimalInstant connectedCall initial) 10000 "{}"
                  [(11000, emptyDetail); (12000, emptyDetail)])).
  reflexivity.
Defined.

(** C8, witness: two hold ends on the connected call, which is not on
    hold. *)
Lemma hold_end_without_open_hold_is_noop_witness :
  (isOnHold (run decimalInstant connectedCall initial) = false
   \/ truthyNumber (currentHoldStart (run decimalInstant connectedCall initial)) = false)
  /\ totalHoldTime
       (fold_left (fun this now => exec (endHoldTimer decimalInstant now) this)
          [5000; 6000] (run decimalInstant connectedCall initial))
     = totalHoldTime (run decimalInstant connectedCall initial).
Proof.
  assert (H : isOnHold (run decimalInstant connectedCall initial) = false
              \/ truthyNumber (currentHoldStart (run decimalInstant connectedCall initial))
                 = false)
    by (left; reflexivity).
  split; [exact H |].
  apply (hold_end_without_open_hold_is_noop decimalInstant
           (run decimalInstant connectedCall initial) [5000; 6000] H).
Defined.

(** C9, witness: the three tiers at their upper and lower ends. *)
Lemma severity_tier_boundaries_witness :
  (0 <= 30 <= 30 /\ getHoldColorClass 30 = "hold-timer-green")
  /\ (30 < 120 <= 120 /\ getHoldColorClass 120 = "hold-timer-yellow")
  /\ (120 < 121 /\ getHoldColorClass 121 = "hold-timer-red").
Proof.
  split; [| split].
  - split; [lia |]. apply (proj1 (severity_tier_boundaries 30)). lia.
  - split; [lia |]. apply (proj1 (proj2 (severity_tier_boundaries 120))). lia.
  - split; [lia |]. apply (proj1 (proj2 (proj2 (severity_tier_boundaries 121)))). lia.
Defined.

(** C10, witness: the read API on the call held since 10 s, read at 55 s,
    and on the connected call that is not on hold. *)
Lemma hold_time_api_consistent_witness :
  (isOnHold (run decimalInstant callOnHold initial) = true
   /\ currentHoldStart (run decimalInstant callOnHold initial) = Some 10000
   /\ eval (getCurrentHoldTime 55000) (run decimalInstant callOnHold initial) = 45)
  /\ (isOnHold (run decimalInstant connectedCall initial) = false
      /\ getTotalHoldTime 55000 (run decimalInstant connectedCall initial)
         = (totalHoldTime (run decimalInstant connectedCall initial),
            run decimalInstant connectedCall initial)).
Proof.
  split.
  - split; [reflexivity |]. split; [reflexivity |].
    unfold eval.
    rewrite (proj1 (proj2 (hold_time_api_consistent
                             (run decimalInstant callOnHold initial) 55000))
               10000 eq_refl eq_refl).
    + reflexivity.
    + discriminate.
  - split; [reflexivity |].
    apply (proj2 (proj2 (proj2 (hold_time_api_consistent
                                  (run decimalInstant connectedCall initial) 55000)))).
    reflexivity.
Defined.

(** ** The further theorems at concrete inputs *)

(** X5, witness: on the call put on hold both tickers are live. *)
Lemma live_ticker_has_its_state_witness :
  tickersOf HoldTick (run decimalInstant callOnHold initial) <> []
  /\ tickersOf DurationTick (run decimalInstant callOnHold initial) <> []
  /\ isOnHold (run decimalInstant callOnHold initial) = true
  /\ isCallActive (run decimalInstant callOnHold initial) = true.
Proof.
  split; [vm_compute; discriminate |].
  split; [vm_compute; discriminate |].
  destruct (live_ticker_has_its_state decimalInstant callOnHold) as [Hhold Hcall].
  split.
  - apply Hhold. vm_compute. discriminate.
  - apply Hcall. vm_compute. discriminate.
Defined.

(** X7, witness: the connected call is not on hold; the call on hold has
    a hold open since 10 s, shown at 40 s. *)
Lemma hold_display_follows_total_witness :
  isOnHold (run decimalInstant connectedCall initial) = false
  /\ formattedTotalHoldTime (run decimalInstant connectedCall initial) = "00:00"
  /\ formattedTotalHoldTime
       (exec (updateHoldDisplayTimer 40000) (run decimalInstant callOnHold initial))
     = "00:30".
Proof.
  split; [reflexivity |]. split.
  - destruct (hold_display_follows_total decimalInstant connectedCall) as [Hidle _].
    destruct (Hidle eq_refl) as [Hshown _].
    rewrite Hshown. reflexivity.
  - destruct (hold_display_follows_total decimalInstant []) as [_ Htick].
    destruct (Htick 40000 10000 (run decimalInstant callOnHold initial)
                eq_refl eq_refl) as [Hshown _].
    + discriminate.
    + rewrite Hshown. reflexivity.
Defined.

(** X8, witness: the hold of 45 seconds, then a mute event. *)
Lemma hold_time_never_negative_witness :
  clockOrdered 0
    ((callOnHold ++ [occurs 55000 (Toolkit resume emptyDetail)])
     ++ [occurs 56000 (Toolkit mute emptyDetail)])
  /\ 0 <= totalHoldTime
            (run decimalInstant
               (callOnHold ++ [occurs 55000 (Toolkit resume emptyDetail)]) initial)
  /\ 45 <= totalHoldTime
             (exec (dispatch decimalInstant (occurs 56000 (Toolkit mute emptyDetail)))
                (run decimalInstant
                   (callOnHold ++ [occurs 55000 (Toolkit resume emptyDetail)])
                   initial)).
Proof.
  assert (Hclock : clockOrdered 0
            ((callOnHold ++ [occurs 55000 (Toolkit resume emptyDetail)])
             ++ [occurs 56000 (Toolkit mute emptyDetail)])).
  { cbn. lia. }
  split; [exact Hclock |].
  destruct (hold_time_never_negative decimalInstant _ _ 0 Hclock)
    as (_ & Htotal & Hkept).
  split; [exact Htotal |].
  exact (Hkept eq_refl).
Defined.

(** X9, witness: the ringing call has its listeners registered; it ends,
    and a new call starts and is connected. *)
Lemma controls_stay_hidden_after_call_end_witness :
  eventListenersSetup (run decimalInstant ringingCall initial) = true
  /\ toolkitStays connectedCall
  /\ shouldShowControls (Some "0LQ000000000001")
       (run decimalInstant connectedCall
          (exec (listener decimalInstant callended 2500 emptyDetail)
             (run decimalInstant ringingCall initial)))
     = false.
Proof.
  assert (Hstays : toolkitStays connectedCall).
  { repeat constructor. }
  split; [reflexivity |]. split; [exact Hstays |].
  apply (controls_stay_hidden_after_call_end decimalInstant
           (run decimalInstant ringingCall initial) 2500 "{}" connectedCall
           (Some "0LQ000000000001") eq_refl Hstays).
Defined.

(** X15, witness: the component is attached, which starts the poll; the
    discovery at 2 s leaves no poll live. *)
Lemma toolkit_is_set_up_once_witness :
  let attached := run decimalInstant [occurs 1000 ConnectedCallback] initial in
  attachedInTurn false [occurs 1000 ConnectedCallback]
  /\ eventListenersSetup attached = false
  /\ tickersOf ToolkitPoll attached = [(1%positive, ToolkitPoll)]
  /\ pollOwned attached
  /\ tickersOf ToolkitPoll
       (exec (setupToolkitEventListeners decimalInstant 2000 true) attached)
     = [].
Proof.
  cbv zeta.
  assert (Hturn : attachedInTurn false [occurs 1000 ConnectedCallback]).
  { cbn. split; [reflexivity | exact I]. }
  destruct (toolkit_is_set_up_once decimalInstant
              (run decimalInstant [occurs 1000 ConnectedCallback] initial)
              [occurs 1000 ConnectedCallback] 2000 3000 4000 true)
    as (_ & _ & _ & _ & Hnew & Howned).
  split; [exact Hturn |]. split; [reflexivity |]. split; [reflexivity |].
  split; [exact (Howned Hturn) |].
  destruct (Hnew eq_refl) as (_ & _ & Hnone).
  exact (Hnone (Howned Hturn)).
Defined.

(** Why the poll is stopped for good only when the attachments come in
    turn: a component attached twice in a row starts a second poll over
    the first, which the discovery does not stop. *)
Example poll_leaks_when_attached_twice :
  let twice :=
    run decimalInstant
      [occurs 1000 ConnectedCallback; occurs 1500 ConnectedCallback] initial in
  let ready := exec (setupToolkitEventListeners decimalInstant 2000 true) twice in
  toolkitCheckInterval ready = None
  /\ tickersOf ToolkitPoll ready = [(1%positive, ToolkitPoll)].
Proof. vm_compute. split; reflexivity. Qed.

(** X16, witness: an hour and five seconds of hold is displayed as five
    seconds. *)
Lemma formatTime_wraps_each_hour_witness :
  0 < 5 /\ 0 <= 1
  /\ formatTime (5 + 3600 * 1) false = "00:05"
  /\ formatTime (-3) true = "00:00:00".
Proof.
  split; [lia |]. split; [lia |].
  destruct (formatTime_wraps_each_hour 5 1 false) as [Hwrap _].
  destruct (formatTime_wraps_each_hour (-3) 1 true) as [_ Hzero].
  split.
  - rewrite Hwrap; [reflexivity | lia | lia].
  - apply Hzero. lia.
Defined.

(** X17, witness: a call of 99 hours 59 minutes 59 seconds. *)
Lemma formatTime_has_fixed_width_witness :
  359999 < 360000 /\ String.length (formatTime 359999 true) = 8%nat.
Proof.
  split; [lia |].
  destruct (formatTime_has_fixed_width 359999) as [_ Hwide].
  apply Hwide. lia.
Defined.

(** * The chat widget: properties *)

Module ChatWidgetFacts.
Import ChatWidget.

Section Facts.

Variable trim : string -> string.
Variable toLocaleTimeString : Z -> string.

#[local] Abbreviation handle := (ChatWidget.handle trim toLocaleTimeString).
#[local] Abbreviation run := (ChatWidget.run trim toLocaleTimeString).
#[local] Abbreviation handleSendMessage := (ChatWidget.handleSendMessage trim toLocaleTimeString).
#[local] Abbreviation handleMessageReceived :=
  (ChatWidget.handleMessageReceived toLocaleTimeString).
#[local] Abbreviation isSendDisabled := (ChatWidget.isSendDisabled trim).

(** Opens every handler down to field assignments. *)
Ltac handlers :=
  unfold ChatWidget.handle, connectedCallback, disconnectedCallback, initializeChat,
    cleanup, handleSessionStarted, handleSessionEnded, ChatWidget.handleAgentJoined,
    handleAgentLeft, handleTypingStarted, handleTypingStopped, handleKeyDown,
    ChatWidget.handleSendMessage, toggleChat, minimizeChat, closeChat,
    handleInputChange, ChatWidget.handleMessageReceived, ChatWidget.addSystemMessage,
    addMessage, showToast, after.

(** A property of the component kept by every step is kept by a run. *)
Lemma run_invariant (P : Component -> Prop) :
  (forall now e c, P c -> P (handle now e c)) ->
  forall events c, P c -> P (run events c).
Proof.
  intros Hstep events.
  induction events as [| [now e] rest IH]; intros c Hc; [exact Hc |].
  cbn. apply IH, Hstep, Hc.
Qed.

Lemma run_app (first second : list (Z * Event)) (c : Component) :
  run (first ++ second) c = run second (run first c).
Proof. unfold ChatWidget.run. apply fold_left_app. Qed.

(** A received message leaves the component alone or appends one message,
    and then may count it unread. *)
Lemma handleMessageReceived_cases (now : Z) (detail : option MessageData)
    (c : Component) :
  handleMessageReceived now detail c = Throws c
  \/ exists m,
       handleMessageReceived now detail c = Returns (set_messages (messages c ++ [m])%list c)
       \/ handleMessageReceived now detail c
          = Returns (set_unreadCount (unreadCount c + 1)
                       (set_hasUnreadMessages true
                          (set_messages (messages c ++ [m])%list c))).
Proof.
  unfold ChatWidget.handleMessageReceived, addMessage.
  destruct detail as [[mid mtext mmessage msender [| t |] mtype] |]; cbn;
    try (left; reflexivity); right; eexists;
    destruct c; cbn;
    match goal with
    | |- context [if ?b then _ else _] => destruct b
    end; [right | left | right | left]; reflexivity.
Qed.

(** What one step does to the message list: nothing, or one message at
    the end. *)
Lemma handle_messages (now : Z) (e : Event) (c : Component) :
  messages (handle now e c) = messages c
  \/ exists m, messages (handle now e c) = (messages c ++ [m])%list.
Proof.
  destruct e as [found | | | | detail | [name |] | | | | | | | | value | key shiftKey];
    try (left; destruct c; reflexivity).
  - left. handlers. destruct c, found; reflexivity.
  - left. handlers. destruct c as [? ? ? ? ? ? ? ? ? ? ? [] ? ?]; reflexivity.
  - right. handlers. destruct c. cbn. eexists. reflexivity.
  - right. handlers. destruct c. cbn. eexists. reflexivity.
  - cbn [ChatWidget.handle].
    destruct (handleMessageReceived_cases now detail c) as [-> | [m [-> | ->]]].
    + left. reflexivity.
    + right. exists m. destruct c. reflexivity.
    + right. exists m. destruct c. reflexivity.
  - right. handlers. destruct c. cbn. eexists. reflexivity.
  - right. handlers. destruct c. cbn. eexists. reflexivity.
  - handlers. destruct c as [? ? ? text connected ? ? ? ? ? ? [] ? ?]; cbn;
      destruct (truthyString (trim text)), connected; cbn;
      try (left; reflexivity); right; eexists; reflexivity.
  - left. handlers. destruct c as [? ? ? ? ? [] ? ? ? ? ? ? ? ?]; reflexivity.
  - left. handlers. destruct c as [? ? ? ? ? ? ? ? ? ? ? [] ? ?]; reflexivity.
  - handlers. destruct (String.eqb key "Enter" && negb shiftKey);
      [| left; reflexivity].
    destruct c as [? ? ? text connected ? ? ? ? ? ? [] ? ?]; cbn;
      destruct (truthyString (trim text)), connected; cbn;
      try (left; reflexivity); right; eexists; reflexivity.
Qed.

(** What one step does to the unread count: nothing, a reset to 0 with the
    flag down, or one more with the flag up and one more message. *)
Lemma handle_unread (now : Z) (e : Event) (c : Component) :
  (unreadCount (handle now e c) = unreadCount c
   /\ hasUnreadMessages (handle now e c) = hasUnreadMessages c)
  \/ (unreadCount (handle now e c) = 0
      /\ hasUnreadMessages (handle now e c) = false)
  \/ (unreadCount (handle now e c) = unreadCount c + 1
      /\ hasUnreadMessages (handle now e c) = true
      /\ exists m, messages (handle now e c) = (messages c ++ [m])%list).
Proof.
  destruct e as [found | | | | detail | [name |] | | | | | | | | value | key shiftKey];
    try (left; destruct c; split; reflexivity).
  - left. handlers. destruct c, found; split; reflexivity.
  - left. handlers. destruct c as [? ? ? ? ? ? ? ? ? ? ? [] ? ?]; split; reflexivity.
  - cbn [ChatWidget.handle].
    destruct (handleMessageReceived_cases now detail c) as [-> | [m [-> | ->]]].
    + left. split; reflexivity.
    + left. destruct c. split; reflexivity.
    + right. right. destruct c. cbn. split; [| split]; try reflexivity.
      exists m. reflexivity.
  - left. handlers. destruct c as [? ? ? text connected ? ? ? ? ? ? [] ? ?]; cbn;
      destruct (truthyString (trim text)), connected; split; reflexivity.
  - handlers. destruct c as [? ? ? ? ? [] ? ? ? ? ? ? ? ?]; cbn.
    + right. left. split; reflexivity.
    + left. split; reflexivity.
  - left. handlers. destruct c as [? ? ? ? ? ? ? ? ? ? ? [] ? ?]; split; reflexivity.
  - left. handlers. destruct (String.eqb key "Enter" && negb shiftKey);
      [| split; reflexivity].
    destruct c as [? ? ? text connected ? ? ? ? ? ? [] ? ?]; cbn;
      destruct (truthyString (trim text)), connected; split; reflexivity.
Qed.

(** Replacing a character by itself changes nothing. *)
Lemma replaceFirst_same (a : ascii) (s : string) : replaceFirst a a s = s.
Proof.
  induction s as [| c rest IH]; [reflexivity |].
  cbn. destruct (Ascii.eqb c a) eqn:Hc.
  - apply Ascii.eqb_eq in Hc. subst c. reflexivity.
  - rewrite IH. reflexivity.
Qed.

(** X20. After any sequence of events the unread flag is up exactly when
    the unread count is positive, and the count is neither negative nor
    larger than the number of messages in the list. *)
Theorem unread_flag_matches_count
    (initialMinimized : bool) (position : string) (events : list (Z * Event)) :
  let c := run events (initialComponent initialMinimized position) in
  hasUnreadMessages c = (0 <? unreadCount c)
  /\ 0 <= unreadCount c <= Z.of_nat (List.length (messages c)).
Proof.
  cbv zeta.
  apply (run_invariant
           (fun c => hasUnreadMessages c = (0 <? unreadCount c)
                     /\ 0 <= unreadCount c <= Z.of_nat (List.length (messages c)))).
  - intros now e c (Hflag & Hcount).
    assert (Hgrow : (List.length (messages c)
                     <= List.length (messages (handle now e c)))%nat).
    { destruct (handle_messages now e c) as [-> | [m ->]]; [lia |].
      rewrite length_app. cbn. lia. }
    destruct (handle_unread now e c)
      as [[-> ->] | [[-> ->] | (-> & -> & m & Hm)]].
    + split; [exact Hflag | lia].
    + split; [reflexivity | lia].
    + rewrite Hm, length_app. cbn [List.length]. split; [| lia].
      symmetry. apply Z.ltb_lt. lia.
  - cbn. split; [reflexivity | lia].
Qed.

(** X21. Sending does nothing at all exactly when the send button is
    disabled (blank text or no session).  Otherwise it appends one user
    message holding the trimmed text and clears the input, and it hands
    the text to the embedded messaging element only if that element was
    found: without it the message is shown but sent nowhere. *)
Theorem send_does_nothing_when_disabled (now : Z) (c : Component) :
  (isSendDisabled c = true -> handleSendMessage now c = c)
  /\ (isSendDisabled c = false ->
      let sent := handleSendMessage now c in
      (exists m,
         messages sent = (messages c ++ [m])%list
         /\ text m = Some (trim (messageText c))
         /\ messageClass m = "message user")
      /\ messageText sent = ""
      /\ calls sent
         = if embeddedMessaging c
           then (calls c ++ [sendMessage (trim (messageText c))])%list
           else calls c).
Proof.
  unfold ChatWidget.isSendDisabled, ChatWidget.handleSendMessage.
  split; intros Hdisabled.
  - rewrite Hdisabled. reflexivity.
  - cbv zeta. rewrite Hdisabled.
    unfold addMessage, after.
    destruct c as [? ? ? ? ? ? ? ? ? ? ? [] ? ?]; cbn.
    + split; [| split; reflexivity].
      eexists. split; [reflexivity |]. split; reflexivity.
    + split; [| split; reflexivity].
      eexists. split; [reflexivity |]. split; reflexivity.
Qed.

(** X22. A received event without a detail, or whose timestamp is set but
    is not a date, makes the handler throw before anything is changed: the
    message is not shown and not counted.  A message without a sender is
    shown as an agent message but is never counted unread, even on a
    minimised widget. *)
Theorem received_message_edge_cases
    (now : Z) (messageData : MessageData) (c : Component) :
  handleMessageReceived now None c = Throws c
  /\ (data_timestamp messageData = TimestampOther ->
      handleMessageReceived now (Some messageData) c = Throws c)
  /\ (data_timestamp messageData <> TimestampOther ->
      data_sender messageData = None ->
      exists m c',
        handleMessageReceived now (Some messageData) c = Returns c'
        /\ messages c' = (messages c ++ [m])%list
        /\ messageClass m = "message agent"
        /\ unreadCount c' = unreadCount c
        /\ hasUnreadMessages c' = hasUnreadMessages c).
Proof.
  split; [reflexivity |].
  destruct messageData as [mid mtext mmessage msender stamp mtype]. cbn.
  split.
  - intros ->. reflexivity.
  - intros Hstamp ->.
    unfold ChatWidget.handleMessageReceived, addMessage. cbn.
    destruct stamp as [| t |]; [| | contradiction];
      rewrite andb_false_r; destruct c; cbn;
      eexists; eexists; (split; [reflexivity |]); cbn;
      repeat (split; [reflexivity |]); reflexivity.
Qed.

(** X23. After any sequence of events, a component that is marked
    connected has the status connected.  The converse does not hold:
    closing the chat clears the connected mark and leaves the status as it
    was. *)
Theorem connected_mark_implies_status
    (initialMinimized : bool) (position : string) (events : list (Z * Event))
    (c : Component) :
  (isConnected (run events (initialComponent initialMinimized position)) = true ->
   connectionStatus (run events (initialComponent initialMinimized position))
   = "connected")
  /\ isConnected (closeChat c) = false
  /\ connectionStatus (closeChat c) = connectionStatus c.
Proof.
  split; [| split].
  - apply (run_invariant
             (fun c => isConnected c = true -> connectionStatus c = "connected")).
    + intros now e c'.
      destruct e as [found | | | | detail | [name |] | | | | | | | | value | key shiftKey];
        try (destruct c'; exact (fun H => H)).
      * handlers. destruct c', found; exact (fun H => H).
      * handlers. destruct c' as [? ? ? ? ? ? ? ? ? ? ? [] ? ?]; exact (fun H => H).
      * handlers. destruct c'. reflexivity.
      * handlers. destruct c'. cbn. discriminate.
      * cbn [ChatWidget.handle].
        destruct (handleMessageReceived_cases now detail c') as [-> | [m [-> | ->]]];
          destruct c'; exact (fun H => H).
      * handlers. destruct c' as [? ? ? text connected ? ? ? ? ? ? [] ? ?]; cbn;
          destruct (truthyString (trim text)), connected; exact (fun H => H).
      * handlers. destruct c' as [? ? ? ? ? [] ? ? ? ? ? ? ? ?]; exact (fun H => H).
      * handlers. destruct c' as [? ? ? ? ? ? ? ? ? ? ? [] ? ?]; cbn; discriminate.
      * handlers. destruct (String.eqb key "Enter" && negb shiftKey);
          [| exact (fun H => H)].
        destruct c' as [? ? ? text connected ? ? ? ? ? ? [] ? ?]; cbn;
          destruct (truthyString (trim text)), connected; exact (fun H => H).
    + cbn. discriminate.
  - unfold closeChat. destruct c as [? ? ? ? ? ? ? ? ? ? ? [] ? ?]; reflexivity.
  - unfold closeChat. destruct c as [? ? ? ? ? ? ? ? ? ? ? [] ? ?]; reflexivity.
Qed.

(** X24. The position class is the word position, a dash and the position
    as it is: the replacement in the getter changes nothing. *)
Theorem positionClass_appends_position (c : Component) :
  positionClass c = "position-" ++ position c.
Proof.
  unfold positionClass. rewrite replaceFirst_same. reflexivity.
Qed.

(** X25. The message list is append-only: an event leaves it as it is or
    adds one message at the end, so after any sequence of events the list
    starts with the messages it had and has grown by at most one message
    per event. *)
Theorem messages_are_only_appended (events : list (Z * Event)) (c : Component) :
  exists added,
    messages (run events c) = (messages c ++ added)%list
    /\ (List.length added <= List.length events)%nat.
Proof.
  induction events as [| [now e] rest IH] using rev_ind.
  - exists []. rewrite app_nil_r. split; [reflexivity | cbn; lia].
  - destruct IH as (added & Hadded & Hlen).
    rewrite run_app. cbn.
    destruct (handle_messages now e (run rest c)) as [Hsame | [m Hm]].
    + exists added. rewrite Hsame, Hadded, length_app. split; [reflexivity | lia].
    + exists (added ++ [m])%list. rewrite Hm, Hadded, app_assoc, !length_app.
      split; [reflexivity | cbn; lia].
Qed.

End Facts.

(** ** The chat theorems at concrete inputs *)

(** X21, witness: a fresh widget has its send button disabled; after a
    session has started and a text has been typed it is enabled. *)
Lemma send_does_nothing_when_disabled_witness :
  let fresh := initialComponent false "bottom-right" in
  let typed :=
    ChatWidget.run trimSpaces decimalInstant
      [(1000, SessionStarted); (2000, InputChanged "  hello ")] fresh in
  ChatWidget.isSendDisabled trimSpaces fresh = true
  /\ ChatWidget.handleSendMessage trimSpaces decimalInstant 3000 fresh = fresh
  /\ ChatWidget.isSendDisabled trimSpaces typed = false
  /\ calls (ChatWidget.handleSendMessage trimSpaces decimalInstant 3000 typed) = [].
Proof.
  cbv zeta.
  split; [reflexivity |]. split; [| split; [reflexivity |]].
  - apply (send_does_nothing_when_disabled trimSpaces decimalInstant 3000). reflexivity.
  - destruct (send_does_nothing_when_disabled trimSpaces decimalInstant 3000
                (ChatWidget.run trimSpaces decimalInstant
                   [(1000, SessionStarted); (2000, InputChanged "  hello ")]
                   (initialComponent false "bottom-right")))
      as [_ Hsent].
    destruct (Hsent eq_refl) as (_ & _ & Hcalls).
    exact Hcalls.
Defined.

(** X22, witness: a message whose timestamp is a string is dropped; a
    message without sender and timestamp is shown and not counted on a
    minimised widget. *)
Lemma received_message_edge_cases_witness :
  let minimised := initialComponent true "bottom-right" in
  let stamped := {| data_id := Some "m1"; data_text := Some "hi";
                    data_message := None; data_sender := Some "agent";
                    data_timestamp := TimestampOther; data_type := None |} in
  let bare := {| data_id := None; data_text := Some "hi";
                 data_message := None; data_sender := None;
                 data_timestamp := TimestampMissing; data_type := None |} in
  ChatWidget.handleMessageReceived decimalInstant 1000 (Some stamped) minimised
  = Throws minimised
  /\ exists m c',
       ChatWidget.handleMessageReceived decimalInstant 1000 (Some bare) minimised
       = Returns c'
       /\ messageClass m = "message agent"
       /\ unreadCount c' = 0.
Proof.
  cbv zeta. split.
  - apply (received_message_edge_cases decimalInstant 1000). reflexivity.
  - destruct (received_message_edge_cases decimalInstant 1000
                {| data_id := None; data_text := Some "hi";
                   data_message := None; data_sender := None;
                   data_timestamp := TimestampMissing; data_type := None |}
                (initialComponent true "bottom-right"))
      as (_ & _ & Hshown).
    destruct Hshown as (m & c' & Hreturns & _ & Hclass & Hcount & _);
      [discriminate | reflexivity |].
    exists m, c'. split; [exact Hreturns |]. split; [exact Hclass | exact Hcount].
Defined.

(** X23, witness: a started session is marked connected. *)
Lemma connected_mark_implies_status_witness :
  let started :=
    ChatWidget.run trimSpaces decimalInstant [(1000, SessionStarted)]
      (initialComponent false "bottom-right") in
  isConnected started = true /\ connectionStatus started = "connected".
Proof.
  cbv zeta. split; [reflexivity |].
  destruct (connected_mark_implies_status trimSpaces decimalInstant false
              "bottom-right" [(1000, SessionStarted)]
              (initialComponent false "bottom-right"))
    as [Hstatus _].
  exact (Hstatus eq_refl).
Defined.

End ChatWidgetFacts.
